(** * Agent memory service: a shallow embedding of the consolidation and
    retrieval code, and the properties its design document states about it.

    The development follows the layout of the Python repository:
    - [SHA256] and [Utils]: [utils.py] (fingerprints, similarity, ranking);
    - [Py] and [Http]: the fragment of Python values, exceptions and Lambda
      events and responses the handlers use;
    - [Redis], [DynamoDB], [OpenSearch]: the adapters under [services/];
    - [Shortterm], [Working], [Longterm], [Semantic], [App]: the handlers;
    - [Samples] and the [...Spec] modules: concrete requests and the
      vocabulary of the statements;
    - the properties, one group per component. *)

From Stdlib Require Import ZArith QArith Floats String Ascii List Sorted Lia.
From stdpp Require Import gmap strings list fin_maps.

Local Open Scope string_scope.
Local Open Scope Z_scope.

(** ** SHA-256 on byte strings ([hashlib.sha256]) *)

Module SHA256.

Definition mask32 (x : Z) : Z := Z.land x 0xffffffff.
Definition add32 (a b : Z) : Z := mask32 (a + b).
Definition rotr (n x : Z) : Z :=
  mask32 (Z.lor (Z.shiftr x n) (Z.shiftl x (32 - n))).

Definition Ch (x y z : Z) : Z :=
  Z.lxor (Z.land x y) (Z.land (Z.lxor x 0xffffffff) z).
Definition Maj (x y z : Z) : Z :=
  Z.lxor (Z.lxor (Z.land x y) (Z.land x z)) (Z.land y z).
Definition bsig0 (x : Z) : Z := Z.lxor (Z.lxor (rotr 2 x) (rotr 13 x)) (rotr 22 x).
Definition bsig1 (x : Z) : Z := Z.lxor (Z.lxor (rotr 6 x) (rotr 11 x)) (rotr 25 x).
Definition ssig0 (x : Z) : Z := Z.lxor (Z.lxor (rotr 7 x) (rotr 18 x)) (Z.shiftr x 3).
Definition ssig1 (x : Z) : Z := Z.lxor (Z.lxor (rotr 17 x) (rotr 19 x)) (Z.shiftr x 10).

(** The round constants and the initial hash value are the first 32 bits
    of the fractional parts of the cube roots of the first 64 primes and of
    the square roots of the first 8 primes. *)
Definition is_prime (p : Z) : bool :=
  forallb (fun d => negb (p mod Z.of_nat d =? 0)) (seq 2 (Z.to_nat p - 2)).

Definition primes : list Z :=
  List.filter is_prime (map Z.of_nat (seq 2 310)).

(** The integer cube root, one bit at a time from bit [bits - 1] down. *)
Fixpoint cube_root_bits (bits : nat) (n r : Z) : Z :=
  match bits with
  | O => r
  | S b =>
      let r' := r + Z.shiftl 1 (Z.of_nat b) in
      cube_root_bits b n (if r' * r' * r' <=? n then r' else r)
  end.

Definition K : list Z :=
  Eval vm_compute in
    map (fun p => mask32 (cube_root_bits 40 (Z.shiftl p 96) 0)) primes.

Definition H0 : list Z :=
  Eval vm_compute in
    map (fun p => mask32 (Z.sqrt (Z.shiftl p 64))) (firstn 8 primes).

Fixpoint bytes_of_string (s : string) : list Z :=
  match s with
  | EmptyString => []
  | String c s' => Z.of_N (N_of_ascii c) :: bytes_of_string s'
  end.

(** Big-endian bytes of [x], [n] of them. *)
Fixpoint be_bytes (n : nat) (x : Z) : list Z :=
  match n with
  | O => []
  | S n' => Z.land (Z.shiftr x (8 * Z.of_nat n')) 0xff :: be_bytes n' x
  end.

Definition pad (msg : list Z) : list Z :=
  let len := Z.of_nat (length msg) in
  let zeros := Z.to_nat ((55 - len) mod 64) in
  msg ++ [0x80] ++ repeat 0 zeros ++ be_bytes 8 (8 * len).

Fixpoint words_of_bytes (fuel : nat) (bs : list Z) : list Z :=
  match fuel, bs with
  | S fuel', b0 :: b1 :: b2 :: b3 :: rest =>
      (Z.shiftl b0 24 + Z.shiftl b1 16 + Z.shiftl b2 8 + b3)
        :: words_of_bytes fuel' rest
  | _, _ => []
  end.

Fixpoint chunks16 (fuel : nat) (ws : list Z) : list (list Z) :=
  match fuel, ws with
  | S fuel', _ :: _ => firstn 16 ws :: chunks16 fuel' (skipn 16 ws)
  | _, _ => []
  end.

(** Message schedule: [w] holds W[0..t-1]; [n] more words are appended. *)
Fixpoint schedule (n : nat) (w : list Z) : list Z :=
  match n with
  | O => w
  | S n' =>
      let t := length w in
      let at_ (k : nat) := nth (t - k) w 0 in
      schedule n'
        (w ++ [add32 (add32 (ssig1 (at_ 2%nat)) (at_ 7%nat))
                     (add32 (ssig0 (at_ 15%nat)) (at_ 16%nat))])
  end.

Record regs := Regs { ra : Z; rb : Z; rc : Z; rd : Z; re : Z; rf : Z; rg : Z; rh : Z }.

Definition round (r : regs) (kw : Z * Z) : regs :=
  let t1 := add32 (add32 (add32 (rh r) (bsig1 (re r))) (Ch (re r) (rf r) (rg r)))
                  (add32 (fst kw) (snd kw)) in
  let t2 := add32 (bsig0 (ra r)) (Maj (ra r) (rb r) (rc r)) in
  Regs (add32 t1 t2) (ra r) (rb r) (rc r) (add32 (rd r) t1) (re r) (rf r) (rg r).

Definition regs_of (h : list Z) : regs :=
  Regs (nth 0 h 0) (nth 1 h 0) (nth 2 h 0) (nth 3 h 0)
       (nth 4 h 0) (nth 5 h 0) (nth 6 h 0) (nth 7 h 0).

Definition list_of (r : regs) : list Z :=
  [ra r; rb r; rc r; rd r; re r; rf r; rg r; rh r].

Definition compress (h : list Z) (block : list Z) : list Z :=
  let w := schedule 48 block in
  let r := fold_left round (combine K w) (regs_of h) in
  map (fun p => add32 (fst p) (snd p)) (combine h (list_of r)).

Definition hex_digit (d : Z) : ascii :=
  if d <? 10 then ascii_of_N (Z.to_N (48 + d)) else ascii_of_N (Z.to_N (87 + d)).

Fixpoint hex_of_bytes (bs : list Z) : string :=
  match bs with
  | [] => EmptyString
  | b :: bs' =>
      String (hex_digit (Z.shiftr b 4))
        (String (hex_digit (Z.land b 0xf)) (hex_of_bytes bs'))
  end.

Definition hexdigest (s : string) : string :=
  let padded := pad (bytes_of_string s) in
  let ws := words_of_bytes (length padded) padded in
  let h := fold_left compress (chunks16 (length ws) ws) H0 in
  hex_of_bytes (flat_map (be_bytes 4) h).

End SHA256.

(** ** The fragment of Python the handlers rely on *)

Module Py.

(** Exceptions the modelled code can raise or catch. *)
Inductive exn :=
| AttributeError (obj attr : string)
| ZeroDivisionError
| OverflowError
| ValueError
| IndexError
| TypeError
| KeyError (key : string)
| PydanticValidationError (field : string)
| ResponseError (msg : string)
| ConnectionError
| Exception_ (msg : string).

(** The outcome of a Python call: a value, or a raised exception. *)
Inductive res (A : Type) :=
| Ok (a : A)
| Raise (e : exn).
Arguments Ok {A} a.
Arguments Raise {A} e.

Definition bind {A B} (m : res A) (k : A -> res B) : res B :=
  match m with
  | Ok a => k a
  | Raise e => Raise e
  end.

(** [[f(x) for x in l]], stopping at the first exception *)
Fixpoint comprehension {A B} (f : A -> res B) (l : list A) : res (list B) :=
  match l with
  | [] => Ok []
  | x :: l' => bind (f x) (fun y => bind (comprehension f l') (fun ys => Ok (y :: ys)))
  end.

(** JSON-like values: what request bodies, query parameters and stored
    records are made of.  Dictionaries are finite maps on string keys. *)
#[warnings="-register-all"]
Inductive pyval :=
| PNone
| PBool (b : bool)
| PInt (z : Z)
| PFloat (f : float)
| PStr (s : string)
| PList (l : list pyval)
| PDict (d : gmap string pyval)
| PDumps (v : pyval).   (* the [str] that [json.dumps(v)] returns *)

(** Python truthiness ([if v:], [v or d], [not v]). *)
Definition truthy (v : pyval) : bool :=
  match v with
  | PNone => false
  | PBool b => b
  | PInt z => negb (z =? 0)
  | PFloat f => negb (PrimFloat.eqb f 0%float)
  | PStr s => negb (String.eqb s "")
  | PList l => match l with [] => false | _ => true end
  | PDict d => negb (bool_decide (d = ∅))
  | PDumps _ => true
  end.

(** [a or b] *)
Definition py_or (a b : pyval) : pyval := if truthy a then a else b.

(** [d.get(k)] and [d.get(k, dflt)] *)
Definition get (d : gmap string pyval) (k : string) : pyval :=
  default PNone (d !! k).
Definition get_d (d : gmap string pyval) (k : string) (dflt : pyval) : pyval :=
  default dflt (d !! k).

(** [l[:n]] for a Python int [n]: a negative bound counts from the end. *)
Definition slice_to {A} (l : list A) (n : Z) : list A :=
  if 0 <=? n then take (Z.to_nat n) l
  else take (Z.to_nat (Z.of_nat (length l) + n)) l.

End Py.

Notation "'let*' x ':=' m 'in' k" := (Py.bind m (fun x => k))
  (at level 10, x name, m at level 100, k at level 200).

(** ** [utils.py] *)

Module Utils.
Import Py.

(** [hash_content]: the first 16 hex characters of the SHA-256 digest.
    Strings are byte strings, so [content.encode()] is the identity. *)
Definition hash_content (content : string) : string :=
  String.substring 0 16 (SHA256.hexdigest content).

(** [validate_required_fields]: the fields that are absent or [None]. *)
Definition validate_required_fields
    (data : gmap string pyval) (required_fields : list string) : list string :=
  List.filter
    (fun field => match data !! field with
                  | None | Some PNone => true
                  | Some _ => false
                  end)
    required_fields.

(** *** Ranking and deduplication *)

(** A candidate, as [merge_and_rank_results] sees it: the keys it reads
    with [.get(key, default)] may each be absent.  Scores are rationals
    (only their order matters here); timestamps are ISO strings. *)
Record result := Result {
  r_id : string;
  r_relevance_score : option Q;
  r_timestamp : option string;
  r_content : option string
}.

(** [result.get('relevance_score', 0)], [x.get('timestamp', '')],
    [result.get('content', '')] *)
Definition relevance_score (r : result) : Q := default 0%Q (r_relevance_score r).
Definition timestamp (r : result) : string := default "" (r_timestamp r).
Definition content (r : result) : string := default "" (r_content r).

(** The sort key [(relevance_score, timestamp)] and Python's [<] on such
    pairs: the first components decide unless they are equal. *)
Definition sort_key (r : result) : Q * string := (relevance_score r, timestamp r).

Definition key_lt (k1 k2 : Q * string) : bool :=
  if Qeq_bool (fst k1) (fst k2) then String.ltb (snd k1) (snd k2)
  else negb (Qle_bool (fst k2) (fst k1)).

(** [sorted(..., key=..., reverse=True)]: descending, and stable (elements
    with equal keys keep their input order).  Insertion from the right:
    [x] precedes everything in [l] in the input, so it goes in front of the
    first element whose key is not strictly greater. *)
Fixpoint insert_desc (x : result) (l : list result) : list result :=
  match l with
  | [] => [x]
  | y :: l' =>
      if key_lt (sort_key x) (sort_key y) then y :: insert_desc x l'
      else x :: l
  end.

Definition sorted_reverse (l : list result) : list result :=
  fold_right insert_desc [] l.

(** The deduplication loop, with its [seen_hashes] set. *)
Fixpoint unique_loop (seen_hashes : gset string) (l : list result) : list result :=
  match l with
  | [] => []
  | r :: l' =>
      let content_hash := hash_content (content r) in
      if decide (content_hash ∈ seen_hashes) then unique_loop seen_hashes l'
      else r :: unique_loop ({[content_hash]} ∪ seen_hashes) l'
  end.

Definition passes (relevance_threshold : Q) (r : result) : bool :=
  Qle_bool relevance_threshold (relevance_score r).

Definition merge_and_rank_results
    (results : list result) (max_results : Z) (relevance_threshold : Q)
    : list result :=
  let filtered_results := List.filter (passes relevance_threshold) results in
  let sorted_results := sorted_reverse filtered_results in
  let unique_results := unique_loop ∅ sorted_results in
  slice_to unique_results max_results.

(** *** Cosine similarity

    A component is a Python [int] or [float].  Floats are IEEE binary64
    ([PrimFloat]); an [int] that meets a [float] is converted first, rounded
    to nearest, and the conversion raises [OverflowError] when the [int] is
    too large.  [sum] adds from the [int] 0, left to right, the terms being
    computed one at a time (as CPython does up to 3.11; later versions carry
    a correction term along when they add floats, which can change the last
    bits of a sum).  [x ** 0.5] is taken as the correctly rounded square
    root, from which the C library's [pow] can differ in the last bit; its
    base, a sum of squares, is never negative
    ([SimilarityFacts.squares_are_not_negative]), so Python's complex power
    does not arise.  [/] converts an [int] dividend first and then raises
    [ZeroDivisionError] on a zero divisor. *)

Inductive num := NInt (z : Z) | NFloat (f : float).

(** [float(z)] *)
Definition to_float (z : Z) : res float :=
  match binary_normalize prec emax z 0 false with
  | S754_infinity _ => Raise OverflowError
  | sf => Ok (SF2Prim sf)
  end.

Definition mul (a b : num) : res num :=
  match a, b with
  | NInt x, NInt y => Ok (NInt (x * y))
  | NInt x, NFloat g => let* f := to_float x in Ok (NFloat (f * g)%float)
  | NFloat f, NInt y => let* g := to_float y in Ok (NFloat (f * g)%float)
  | NFloat f, NFloat g => Ok (NFloat (f * g)%float)
  end.

Definition add (a b : num) : res num :=
  match a, b with
  | NInt x, NInt y => Ok (NInt (x + y))
  | NInt x, NFloat g => let* f := to_float x in Ok (NFloat (f + g)%float)
  | NFloat f, NInt y => let* g := to_float y in Ok (NFloat (f + g)%float)
  | NFloat f, NFloat g => Ok (NFloat (f + g)%float)
  end.

(** [sum(term(x) for x in l)] *)
Definition py_sum {A} (term : A -> res num) (l : list A) : res num :=
  fold_left (fun acc x => let* a := acc in let* t := term x in add a t) l (Ok (NInt 0)).

(** [x ** 0.5] *)
Definition pow_half (x : num) : res float :=
  match x with
  | NInt z => let* f := to_float z in Ok (PrimFloat.sqrt f)
  | NFloat f => Ok (PrimFloat.sqrt f)
  end.

(** [a / b] for a float [b] *)
Definition truediv (a : num) (b : float) : res float :=
  let* x := match a with NInt z => to_float z | NFloat f => Ok f end in
  if (b =? 0)%float then Raise ZeroDivisionError else Ok (x / b)%float.

Definition dot_product (query_embedding doc_embedding : list num) : res num :=
  py_sum (fun ab => mul (fst ab) (snd ab)) (combine query_embedding doc_embedding).

Definition magnitude (v : list num) : res float :=
  let* s := py_sum (fun a => mul a a) v in pow_half s.

Definition calculate_relevance_score
    (query_embedding doc_embedding : list num) : res float :=
  match query_embedding, doc_embedding with
  | [], _ | _, [] => Ok 0%float
  | _, _ =>
      let* dot := dot_product query_embedding doc_embedding in
      let* magnitude_a := magnitude query_embedding in
      let* magnitude_b := magnitude doc_embedding in
      if (magnitude_a =? 0)%float || (magnitude_b =? 0)%float then Ok 0%float
      else truediv dot (magnitude_a * magnitude_b)%float
  end.

(** *** Chunking

    [text] is a string of one-byte characters; lengths and indices are
    Python ints. *)

(** [s[a:b]]: negative indices count from the end, both are clipped. *)
Definition norm_index (len i : Z) : Z :=
  if i <? 0 then Z.max (len + i) 0 else Z.min i len.

Definition str_slice (s : string) (a b : Z) : string :=
  let len := Z.of_nat (String.length s) in
  let a' := norm_index len a in
  let b' := norm_index len b in
  String.substring (Z.to_nat a') (Z.to_nat (b' - a')) s.

(** [s.rfind(ch)]: the last index of [ch], or -1. *)
Fixpoint rfind_from (s : string) (ch : ascii) (i acc : Z) : Z :=
  match s with
  | EmptyString => acc
  | String c s' => rfind_from s' ch (i + 1) (if Ascii.eqb c ch then i else acc)
  end.
Definition rfind (s : string) (ch : ascii) : Z := rfind_from s ch 0 (-1).

(** [c.isspace()] for a character below 256 *)
Definition is_space (c : ascii) : bool :=
  let n := Z.of_N (N_of_ascii c) in
  ((9 <=? n) && (n <=? 13)) || ((28 <=? n) && (n <=? 32)) || (n =? 133) || (n =? 160).

Fixpoint lstrip (s : string) : string :=
  match s with
  | EmptyString => EmptyString
  | String c s' => if is_space c then lstrip s' else s
  end.

Fixpoint rstrip (s : string) : string :=
  match s with
  | EmptyString => EmptyString
  | String c s' =>
      match rstrip s' with
      | EmptyString => if is_space c then EmptyString else String c EmptyString
      | r => String c r
      end
  end.

(** [s.strip()] *)
Definition strip (s : string) : string := rstrip (lstrip s).

(** One pass of the [while] loop of [chunk_text]: the chunk appended and
    the next [start].  [last_space > chunk_size * 0.8] is decided on
    integers ([10 * last_space > 8 * chunk_size]). *)
Definition chunk_step (text : string) (chunk_size overlap start : Z) : string * Z :=
  let len := Z.of_nat (String.length text) in
  let end_ := start + chunk_size in
  let chunk := str_slice text start end_ in
  let '(chunk', end') :=
    if end_ <? len then
      let last_space := rfind chunk " " in
      if 8 * chunk_size <? 10 * last_space
      then (str_slice chunk 0 last_space, start + last_space)
      else (chunk, end_)
    else (chunk, end_) in
  (strip chunk', end' - overlap).

(** The loop, run for at most [fuel] passes: [None] when it has not
    finished by then. *)
Fixpoint chunk_loop (fuel : nat) (text : string) (chunk_size overlap start : Z)
    (chunks : list string) : option (list string) :=
  match fuel with
  | O => None
  | S fuel' =>
      let len := Z.of_nat (String.length text) in
      if start <? len then
        let '(chunk, start') := chunk_step text chunk_size overlap start in
        let chunks' := (chunks ++ [chunk])%list in
        if len <=? start' then Some chunks'
        else chunk_loop fuel' text chunk_size overlap start' chunks'
      else Some chunks
  end.

(** [chunk_text] *)
Definition chunk_text (fuel : nat) (text : string) (chunk_size overlap : Z)
    : option (list string) :=
  if Z.of_nat (String.length text) <=? chunk_size then Some [text]
  else chunk_loop fuel text chunk_size overlap 0 [].

End Utils.

(** ** What the code obtains from outside the repository *)

(** The clock, the UUID generator, Python's [int()] and [float()] on
    strings, [hashlib.md5], the Redis server's glob matching and the
    expiries it takes are not part of the repository: they are taken as
    given. *)
Record env := Env {
  now : string;                          (* current_timestamp().isoformat() *)
  uuid4 : string;                        (* str(uuid.uuid4()) *)
  int_of_str : string -> option Z;       (* int(s); None: ValueError *)
  float_of_str : string -> option float; (* float(s); None: ValueError *)
  md5_hexdigest : string -> string;
  json_loads : string -> option Py.pyval; (* json.loads(s); None: it raises *)
  glob_match : string -> string -> bool; (* pattern, key *)
  redis_accepts_expiry : Z -> bool       (* a positive 64-bit expiry, in seconds *)
}.

Module Http.
Import Py.

(** An API Gateway response.  [body] is the value that is JSON-encoded;
    the constant CORS headers are left out. *)
Record response := Response {
  statusCode : Z;
  body : gmap string pyval
}.

Definition create_response (status_code : Z) (body : gmap string pyval) : response :=
  Response status_code body.

Definition create_error_response (e : env) (status_code : Z) (error_message : string)
    : response :=
  create_response status_code
    (<["error" := PStr error_message]> (<["timestamp" := PStr (now e)]> ∅)).

(** A Lambda event: the parts the handlers read.  [ev_body] is the JSON
    object the body holds, as text or as a dict; [None] stands for an event
    without [body], or with a body that does not parse, which
    [extract_body] turns into the empty dict.  A body that is [null], or
    JSON other than an object, is not covered: [extract_body] hands it on
    as it is. *)
Record event := Event {
  httpMethod : option string;
  headers : option (gmap string string);
  queryStringParameters : option (gmap string string);
  ev_body : option (gmap string pyval)
}.

(** [extract_body] and [extract_query_params] *)
Definition extract_body (ev : event) : gmap string pyval := default ∅ (ev_body ev).
Definition extract_query_params (ev : event) : gmap string string :=
  default ∅ (queryStringParameters ev).

(** [generate_id(prefix)] with a non-empty prefix *)
Definition generate_id (e : env) (prefix : string) : string :=
  prefix ++ "_" ++ uuid4 e.

(** [', '.join(l)] *)
Fixpoint join (l : list string) : string :=
  match l with
  | [] => ""
  | [x] => x
  | x :: l' => x ++ ", " ++ join l'
  end.

(** [int(v)] where [v] is a query-string value or an [int] default *)
Definition py_int (e : env) (v : pyval) : res Z :=
  match v with
  | PInt z => Ok z
  | PStr s => match int_of_str e s with Some z => Ok z | None => Raise ValueError end
  | _ => Raise ValueError
  end.

(** [float(v)] where [v] is a query-string value or a [float] default *)
Definition py_float (e : env) (v : pyval) : res float :=
  match v with
  | PFloat f => Ok f
  | PStr s => match float_of_str e s with Some f => Ok f | None => Raise ValueError end
  | _ => Raise ValueError
  end.

(** [s.upper()] for a string of ASCII characters: only [a] to [z] change.
    Characters outside ASCII, a few of which Python maps to ASCII capitals,
    are not covered. *)
Definition upper_char (c : ascii) : ascii :=
  let n := N_of_ascii c in
  if ((97 <=? n) && (n <=? 122))%N then ascii_of_N (n - 32) else c.

Fixpoint upper (s : string) : string :=
  match s with
  | EmptyString => EmptyString
  | String c s' => String (upper_char c) (upper s')
  end.

(** [event.get("httpMethod", dflt).upper()] *)
Definition method_of (ev : event) (dflt : string) : string :=
  upper (default dflt (httpMethod ev)).

(** The [measure_execution_time] decorator: the measured time, already
    rounded, is added to the body of the response. *)
Definition measure_execution_time (execution_time_ms : float) (result : response)
    : response :=
  Response (statusCode result)
           (<["execution_time_ms" := PFloat execution_time_ms]> (body result)).

End Http.

(** ** [services/redis.py] *)

Module Redis.
Import Py.

(** A Python [str] holding a JSON document: [Dumps v] is [json.dumps(v)],
    and [json.loads] gives [v] back. *)
Inductive json_text := Dumps (v : pyval).
Definition loads (t : json_text) : pyval := let 'Dumps v := t in v.

(** Commands sent to the server, in order. *)
Inductive cmd :=
| PING
| SET (key : string) (value : json_text)
| SETEX (key : string) (ttl : Z) (value : json_text)
| GET (key : string)
| MGET (keys : list string)
| KEYS (pattern : string)
| SCAN (pattern : string)
| DEL (key : string).

(** The [redis.Redis] client together with the server behind it: the
    stored documents with the expiry they were given, and whether the
    client decodes replies to [str] ([decode_responses]). *)
Record client := Client {
  reachable : bool;
  decode_responses : bool;
  db : gmap string (json_text * option Z);
  log : list cmd
}.

(** Code that talks to the store: it sees and updates the client, and
    returns or raises. *)
Definition M (A : Type) : Type := client -> res A * client.

Definition ret {A} (a : A) : M A := fun c => (Ok a, c).
Definition raise {A} (x : exn) : M A := fun c => (Raise x, c).
Definition lift {A} (r : res A) : M A := fun c => (r, c).
Definition mbind {A B} (m : M A) (k : A -> M B) : M B :=
  fun c => match m c with
           | (Ok a, c') => k a c'
           | (Raise x, c') => (Raise x, c')
           end.
(** [try: m  except Exception as x: h x] *)
Definition try_except {A} (m : M A) (h : exn -> M A) : M A :=
  fun c => match m c with
           | (Ok a, c') => (Ok a, c')
           | (Raise x, c') => h x c'
           end.

(** One command: logged, and answered unless the server is unreachable. *)
Definition command {A} (k : cmd) (f : client -> res A * gmap string (json_text * option Z))
    : M A :=
  fun c =>
    let c1 := Client (reachable c) (decode_responses c) (db c) (log c ++ [k]) in
    if reachable c then
      let '(r, db') := f c in
      (r, Client (reachable c) (decode_responses c) db' (log c1))
    else (Raise ConnectionError, c1).

Definition client_set (key : string) (value : json_text) : M bool :=
  command (SET key value) (fun c => (Ok true, <[key := (value, None)]> (db c))).

(** The server reads the expiry as a signed 64-bit integer and refuses a
    non-positive one; whether it takes a positive one depends on its
    version and its clock (the expiry time, in milliseconds, has to fit 64
    bits as well). *)
Definition client_setex (e : env) (key : string) (ttl : Z) (value : json_text) : M bool :=
  command (SETEX key ttl value)
    (fun c => if (ttl <? - 2 ^ 63) || (2 ^ 63 - 1 <? ttl)
              then (Raise (ResponseError "value is not an integer or out of range"), db c)
              else if (ttl <=? 0) || negb (redis_accepts_expiry e ttl)
              then (Raise (ResponseError "invalid expire time in 'setex' command"), db c)
              else (Ok true, <[key := (value, Some ttl)]> (db c))).

Definition client_get (key : string) : M (option json_text) :=
  command (GET key) (fun c => (Ok (fst <$> db c !! key), db c)).

Definition client_mget (keys : list string) : M (list (option json_text)) :=
  command (MGET keys) (fun c => (Ok (map (fun k => fst <$> db c !! k) keys), db c)).

Definition client_delete (key : string) : M Z :=
  command (DEL key)
    (fun c => (Ok (match db c !! key with Some _ => 1 | None => 0 end),
               delete key (db c))).

(** A key in a reply: [str] when the client decodes, [bytes] otherwise. *)
Inductive reply_key := KStr (s : string) | KBytes (s : string).

Definition matching (e : env) (pattern : string) (c : client) : list reply_key :=
  map (fun k => if decode_responses c then KStr k else KBytes k)
      (List.filter (glob_match e pattern) (map fst (map_to_list (db c)))).

Definition client_keys (e : env) (pattern : string) : M (list reply_key) :=
  command (KEYS pattern) (fun c => (Ok (matching e pattern c), db c)).

Definition client_scan_iter (e : env) (pattern : string) : M (list reply_key) :=
  command (SCAN pattern) (fun c => (Ok (matching e pattern c), db c)).

(** [key.decode('utf-8')]: only [bytes] has the method. *)
Definition decode (k : reply_key) : res string :=
  match k with
  | KBytes s => Ok s
  | KStr _ => Raise (AttributeError "str" "decode")
  end.

(** [RedisAdapter.__init__]: the client is created with
    [decode_responses=True]. *)
Definition RedisAdapter (server : gmap string (json_text * option Z)) (up : bool)
    : client :=
  Client up true server [].

(** [RedisAdapter.set]: an exception is logged and re-raised. *)
Definition set (e : env) (key : string) (value : pyval) (ttl_seconds : option Z) : M bool :=
  let serialized_value := Dumps value in
  match ttl_seconds with
  | Some t => if negb (t =? 0) then client_setex e key t serialized_value
              else client_set key serialized_value
  | None => client_set key serialized_value
  end.

(** [RedisAdapter.get]: any exception gives [None]. *)
Definition get (key : string) : M (option pyval) :=
  try_except
    (mbind (client_get key) (fun value =>
       match value with
       | Some v => ret (Some (loads v))
       | None => ret None
       end))
    (fun _ => ret None).

(** [RedisAdapter.delete] *)
Definition delete (key : string) : M bool :=
  try_except
    (mbind (client_delete key) (fun n => ret (negb (n =? 0))))
    (fun _ => ret false).

(** [RedisAdapter.scan_keys]: the keys as the client replies them. *)
Definition scan_keys (e : env) (pattern : string) : M (list reply_key) :=
  try_except (client_scan_iter e pattern) (fun _ => ret []).

(** [deserialize_memory(v)] iterates [v.items()]; [get_multiple] applies it
    to the reply itself, a [str]. *)
Definition deserialize_memory_str (v : json_text) : res pyval :=
  Raise (AttributeError "str" "items").

(** [RedisAdapter.get_multiple] *)
Definition get_multiple (keys : list string) : M (list (option pyval)) :=
  try_except
    (mbind (client_mget keys) (fun values =>
       lift (comprehension
               (fun v => match v with
                         | Some t => let* d := deserialize_memory_str t in Ok (Some d)
                         | None => Ok None
                         end)
               values)))
    (fun _ => ret (repeat None (length keys))).

(** [RedisAdapter.keys]: the [return []] after the [try] is reached when
    the comprehension raised. *)
Definition keys (e : env) (pattern : string) : M (list string) :=
  try_except
    (mbind (client_keys e pattern) (fun ks => lift (comprehension decode ks)))
    (fun _ => ret []).

(** [RedisAdapter.__init__]: a [PING] on the new connection.  When no
    connection can be made nothing is sent, and after the retries the
    constructor raises.  A handler without [REDIS_URL] raises before it has
    a client, which counts here as a store that cannot be reached. *)
Definition connect : M unit :=
  fun c => if reachable c
           then (Ok tt, Client true (decode_responses c) (db c) (log c ++ [PING]))
           else (Raise (Exception_ "Redis connection failed"), c).

End Redis.

Notation "'let!' x ':=' m 'in' k" := (Redis.mbind m (fun x => k))
  (at level 10, x name, m at level 100, k at level 200).

(** ** [handlers/shortterm_handler.py] *)

Module Shortterm.
Import Py Http.

(** [models.ShorttermMemory].  It has no [tenant_id] field. *)
Record ShorttermMemory := {
  id : string;
  content : pyval;                     (* Union[str, Dict[str, Any]] *)
  timestamp : string;
  metadata : gmap string pyval;
  ttl_seconds : Z;
  session_id : string
}.

(** Construction with field validation.  Values of the declared JSON type
    are accepted as they are; the lenient coercions of pydantic (a numeric
    string for an [int], say) are not modelled and count as errors. *)
Definition new_ShorttermMemory (id_ : string) (content_ : pyval) (timestamp_ : string)
    (metadata_ ttl_seconds_ session_id_ : pyval) : res ShorttermMemory :=
  let* c := match content_ with
            | PStr _ | PDict _ | PDumps _ => Ok content_
            | _ => Raise (PydanticValidationError "content")
            end in
  let* m := match metadata_ with
            | PDict d => Ok d
            | _ => Raise (PydanticValidationError "metadata")
            end in
  let* t := match ttl_seconds_ with
            | PInt z => Ok z
            | _ => Raise (PydanticValidationError "ttl_seconds")
            end in
  let* s := match session_id_ with
            | PStr s => Ok s
            | _ => Raise (PydanticValidationError "session_id")
            end in
  Ok {| id := id_; content := c; timestamp := timestamp_; metadata := m;
        ttl_seconds := t; session_id := s |}.

Definition to_dict (m : ShorttermMemory) : pyval :=
  PDict (<["id" := PStr (id m)]>
        (<["content" := content m]>
        (<["timestamp" := PStr (timestamp m)]>
        (<["metadata" := PDict (metadata m)]>
        (<["ttl_seconds" := PInt (ttl_seconds m)]>
        (<["session_id" := PStr (session_id m)]> ∅)))))).

(** [ShorttermMemoryHandler.add_memory] *)
Definition add_memory (e : env) (body : gmap string pyval) : Redis.M response :=
  let missing_fields := Utils.validate_required_fields body ["content"] in
  match missing_fields with
  | _ :: _ =>
      Redis.ret (create_error_response e 400
                   ("Missing required fields: " ++ join missing_fields))
  | [] =>
      let memory_id := generate_id e "stm" in
      let! memory := Redis.lift
           (new_ShorttermMemory memory_id (get body "content") (now e)
              (get_d body "metadata" (PDict ∅))
              (get_d body "ttl_seconds" (PInt 604800))
              (get_d body "session_id" (PStr ""))) in
      let! success := Redis.set e memory_id (to_dict memory) (Some (ttl_seconds memory)) in
      if negb success then
        Redis.ret (create_error_response e 500 "Failed to store memory")
      else
        let! _ := (if negb (String.eqb (session_id memory) "") then
                   let session_key := "session:" ++ session_id memory ++ ":" ++ memory_id in
                   Redis.set e session_key (to_dict memory) (Some (ttl_seconds memory))
                 else Redis.ret true) in
        Redis.ret (create_response 201
          (<["memory_id" := PStr memory_id]>
          (<["message" := PStr "Short-term memory stored successfully"]>
          (<["ttl_seconds" := PInt (ttl_seconds memory)]> ∅))))
  end.

(** A query-string parameter is truthy when present and non-empty. *)
Definition param (params : gmap string string) (k : string) : option string :=
  match params !! k with
  | Some s => if String.eqb s "" then None else Some s
  | None => None
  end.

Definition key_text (k : Redis.reply_key) : string :=
  match k with Redis.KStr s | Redis.KBytes s => s end.

Definition opt_str (o : option string) : pyval :=
  match o with Some s => PStr s | None => PNone end.

(** [ShorttermMemoryHandler.get_memory] *)
Definition get_memory (e : env) (params : gmap string string) : Redis.M response :=
  let memory_id := params !! "memory_id" in
  let session_id := params !! "session_id" in
  let! limit := Redis.lift
       (py_int e (match params !! "limit" with Some s => PStr s | None => PInt 10 end)) in
  match param params "memory_id", param params "session_id" with
  | None, None =>
      Redis.ret (create_error_response e 400 "Either memory_id or session_id is required")
  | m, s =>
      let! results :=
        match m, s with
        | Some memory_id, _ =>
            let! memory := Redis.get memory_id in
            match memory with
            | Some v => if truthy v then Redis.ret [v] else Redis.ret []
            | None => Redis.ret []
            end
        | None, Some session_id =>
            let pattern := "session:" ++ session_id ++ ":*" in
            let! keys := Redis.scan_keys e pattern in
            match keys with
            | [] => Redis.ret []
            | _ =>
                let! memories := Redis.get_multiple (map key_text (slice_to keys limit)) in
                Redis.ret (omap (fun m => m) memories)
            end
        | None, None => Redis.ret []
        end in
      Redis.ret (create_response 200
        (<["memories" := PList results]>
        (<["count" := PInt (Z.of_nat (length results))]>
        (<["query" := PDict (<["memory_id" := opt_str memory_id]>
                            (<["session_id" := opt_str session_id]>
                            (<["limit" := PInt limit]> ∅)))]> ∅))))
  end.

(** [lambda_handler], under the [measure_execution_time] decorator.  The
    handler object, and with it the connection, is made before the method
    is looked at. *)
Definition lambda_handler (e : env) (execution_time_ms : float) (ev : event)
    : Redis.M response :=
  let! result :=
    Redis.try_except
      (let! _ := Redis.connect in
       let http_method := method_of ev "" in
       if String.eqb http_method "POST" then add_memory e (extract_body ev)
       else if String.eqb http_method "GET" then get_memory e (extract_query_params ev)
       else Redis.ret (create_error_response e 400 ("Unsupported method: " ++ http_method)))
      (fun _ => Redis.ret (create_error_response e 500 "Internal server error")) in
  Redis.ret (measure_execution_time execution_time_ms result).

End Shortterm.

(** ** [handlers/working_handler.py] *)

Module Working.
Import Py Http.

(** [models.WorkingMemoryCreate] *)
Record WorkingMemoryCreate := {
  c_session_id : string;
  c_data : gmap string pyval;
  c_metadata : option (gmap string pyval);
  c_ttl_seconds : option Z;
  c_context : option string
}.

(** [models.WorkingMemoryBase]: the fields are [memory_id], [content],
    [metadata], [ttl_seconds], [timestamp] and [context]. *)
Record WorkingMemoryBase := {
  memory_id : string;
  content : pyval;                     (* a str; here always a JSON document *)
  metadata : option (gmap string pyval);
  ttl_seconds : option Z;
  timestamp : string;
  context : option string
}.

(** [models.WorkingMemoryResponse] *)
Record WorkingMemoryResponse := {
  r_memory_id : string;
  r_tenant_id : string;
  r_session_id : string;
  r_data : gmap string pyval;
  r_content : pyval;
  r_timestamp : string;
  r_ttl_seconds : option Z;
  r_metadata : option (gmap string pyval);
  r_context : option string
}.

Definition opt_dict (o : option (gmap string pyval)) : pyval :=
  match o with Some d => PDict d | None => PNone end.
Definition opt_int (o : option Z) : pyval :=
  match o with Some z => PInt z | None => PNone end.
Definition opt_str (o : option string) : pyval :=
  match o with Some s => PStr s | None => PNone end.

(** [memory.dict()] *)
Definition dict (m : WorkingMemoryBase) : pyval :=
  PDict (<["memory_id" := PStr (memory_id m)]>
        (<["content" := content m]>
        (<["metadata" := opt_dict (metadata m)]>
        (<["ttl_seconds" := opt_int (ttl_seconds m)]>
        (<["timestamp" := PStr (timestamp m)]>
        (<["context" := opt_str (context m)]> ∅)))))).

(** [mem.<name>]: attribute access on a [WorkingMemoryBase]. *)
Definition getattr (m : WorkingMemoryBase) (name : string) : res pyval :=
  if String.eqb name "memory_id" then Ok (PStr (memory_id m))
  else if String.eqb name "content" then Ok (content m)
  else if String.eqb name "metadata" then Ok (opt_dict (metadata m))
  else if String.eqb name "ttl_seconds" then Ok (opt_int (ttl_seconds m))
  else if String.eqb name "timestamp" then Ok (PStr (timestamp m))
  else if String.eqb name "context" then Ok (opt_str (context m))
  else Raise (AttributeError "WorkingMemoryBase" name).

(** [WorkingMemoryBase] built from the stored dictionary [data]: required
    and optional fields are read from it (coercions are not modelled). *)
Definition parse_WorkingMemoryBase (data : gmap string pyval) : res WorkingMemoryBase :=
  let* mid := match data !! "memory_id" with
              | Some (PStr s) => Ok s
              | _ => Raise (PydanticValidationError "memory_id")
              end in
  let* c := match data !! "content" with
            | Some (PStr s) => Ok (PStr s)
            | Some (PDumps v) => Ok (PDumps v)
            | _ => Raise (PydanticValidationError "content")
            end in
  let* md := match data !! "metadata" with
             | Some (PDict d) => Ok (Some d)
             | Some PNone => Ok None
             | None => Ok (Some ∅)
             | _ => Raise (PydanticValidationError "metadata")
             end in
  let* ttl := match data !! "ttl_seconds" with
              | Some (PInt z) => Ok (Some z)
              | Some PNone => Ok None
              | None => Ok (Some 3600)
              | _ => Raise (PydanticValidationError "ttl_seconds")
              end in
  let* ts := match data !! "timestamp" with
             | Some (PStr s) => Ok s
             | _ => Raise (PydanticValidationError "timestamp")
             end in
  let* ctx := match data !! "context" with
              | Some (PStr s) => Ok (Some s)
              | Some PNone => Ok None
              | None => Ok (Some "")
              | _ => Raise (PydanticValidationError "context")
              end in
  Ok {| memory_id := mid; content := c; metadata := md; ttl_seconds := ttl;
        timestamp := ts; context := ctx |}.

(** [x or d] on optional fields *)
Definition or_dict (o : option (gmap string pyval)) (d : gmap string pyval)
    : gmap string pyval :=
  match o with
  | Some m => if bool_decide (m = ∅) then d else m
  | None => d
  end.
Definition or_int (o : option Z) (d : Z) : Z :=
  match o with
  | Some z => if z =? 0 then d else z
  | None => d
  end.

Definition redis_key (tenant_id session_id memory_id : string) : string :=
  "tenant:" ++ tenant_id ++ ":session:" ++ session_id ++ ":memory:" ++ memory_id.

(** [WorkingMemoryHandler.add_memory], for the handler of [tenant_id] *)
Definition add_memory (e : env) (tenant_id : string) (memory_data : WorkingMemoryCreate)
    : Redis.M WorkingMemoryResponse :=
  let memory_id_ := generate_id e "wm" in
  let timestamp_ := now e in
  let memory :=
    {| memory_id := memory_id_;
       content := PDumps (PDict (c_data memory_data));
       timestamp := timestamp_;
       metadata := Some (or_dict (c_metadata memory_data) ∅);
       ttl_seconds := Some (or_int (c_ttl_seconds memory_data) 3600);
       context := Some (c_session_id memory_data) |} in
  let key := redis_key tenant_id (c_session_id memory_data) memory_id_ in
  let! success := Redis.set e key (dict memory) (ttl_seconds memory) in
  if negb success then Redis.raise (Exception_ "Failed to store working memory")
  else
    Redis.ret
      {| r_memory_id := memory_id memory;
         r_content := content memory;
         r_timestamp := timestamp memory;
         r_ttl_seconds := ttl_seconds memory;
         r_context := context memory;
         r_metadata := metadata memory;
         r_session_id := c_session_id memory_data;
         r_tenant_id := tenant_id;
         r_data := c_data memory_data |}.

(** [json.loads(mem.content) if mem.content else {}] *)
Definition load_content (e : env) (c : pyval) : res pyval :=
  match c with
  | PDumps v => Ok v
  | PStr s => if String.eqb s "" then Ok (PDict ∅)
              else match json_loads e s with
                   | Some v => Ok v
                   | None => Raise ValueError
                   end
  | _ => Raise ValueError
  end.

(** The body of the [for key in keys] loop: what it appends, if anything.
    The response is built from [mem.id], [mem.content], ... in that order. *)
Definition get_memories_step (e : env) (tenant_id : string) (key : string)
    : Redis.M (list WorkingMemoryResponse) :=
  let! data := Redis.get key in
  match data with
  | Some (PDict d) =>
      if bool_decide (d = ∅) then Redis.ret []
      else
        Redis.lift
          (let* mem := parse_WorkingMemoryBase d in
           let* mem_data := load_content e (content mem) in
           let* mid := getattr mem "id" in
           let* c := getattr mem "content" in
           Ok [ {| r_memory_id := match mid with PStr s => s | _ => "" end;
                   r_content := c;
                   r_timestamp := timestamp mem;
                   r_ttl_seconds := ttl_seconds mem;
                   r_context := context mem;
                   r_metadata := metadata mem;
                   r_session_id := default "" (context mem);
                   r_tenant_id := tenant_id;
                   r_data := match mem_data with PDict x => x | _ => ∅ end |} ])
  | Some v => if truthy v then Redis.raise TypeError
              else Redis.ret []
  | None => Redis.ret []
  end.

Fixpoint get_memories_loop (e : env) (tenant_id : string) (keys : list string)
    : Redis.M (list WorkingMemoryResponse) :=
  match keys with
  | [] => Redis.ret []
  | key :: keys' =>
      let! found := get_memories_step e tenant_id key in
      let! rest := get_memories_loop e tenant_id keys' in
      Redis.ret (found ++ rest)%list
  end.

(** [WorkingMemoryHandler.get_memories] *)
Definition get_memories (e : env) (tenant_id : string) (session_id : option string)
    (limit : Z) : Redis.M (list WorkingMemoryResponse) :=
  let pattern :=
    match session_id with
    | Some s => if String.eqb s "" then "tenant:" ++ tenant_id ++ ":session:*:memory:*"
                else "tenant:" ++ tenant_id ++ ":session:" ++ s ++ ":memory:*"
    | None => "tenant:" ++ tenant_id ++ ":session:*:memory:*"
    end in
  let! all_keys := Redis.keys e pattern in
  let keys := slice_to all_keys limit in
  get_memories_loop e tenant_id keys.

(** The POST branch of [lambda_handler]: the tenant comes from the body
    (a JSON string, or absent). *)
Definition lambda_post (e : env) (body : gmap string pyval) : Redis.M response :=
  let tenant_id :=
    match get body "tenant_id" with
    | PStr s => if String.eqb s "" then "default_tenant" else s
    | _ => "default_tenant"
    end in
  let missing := List.filter (fun f => negb (bool_decide (is_Some (body !! f))))
                             ["session_id"; "data"] in
  match missing with
  | _ :: _ =>
      Redis.ret (create_error_response e 400 ("Missing required fields: " ++ join missing))
  | [] =>
      let! memory_data := Redis.lift
        (let* sid := match get body "session_id" with
                     | PStr s => Ok s
                     | _ => Raise (PydanticValidationError "session_id")
                     end in
         let* data := match get body "data" with
                      | PDict d => Ok d
                      | _ => Raise (PydanticValidationError "data")
                      end in
         let* md := match get body "metadata" with
                    | PDict d => Ok (Some d)
                    | PNone => Ok None
                    | _ => Raise (PydanticValidationError "metadata")
                    end in
         let* ttl := match get body "ttl_seconds" with
                     | PInt z => Ok (Some z)
                     | PNone => Ok None
                     | _ => Raise (PydanticValidationError "ttl_seconds")
                     end in
         let* ctx := match get_d body "context" (PStr "") with
                     | PStr s => Ok (Some s)
                     | PNone => Ok None
                     | _ => Raise (PydanticValidationError "context")
                     end in
         Ok {| c_session_id := sid; c_data := data; c_metadata := md;
               c_ttl_seconds := ttl; c_context := ctx |}) in
      let! result := add_memory e tenant_id memory_data in
      Redis.ret (create_response 201
        (<["memory_id" := PStr (r_memory_id result)]>
        (<["tenant_id" := PStr (r_tenant_id result)]>
        (<["session_id" := PStr (r_session_id result)]>
        (<["data" := PDict (r_data result)]>
        (<["content" := r_content result]>
        (<["timestamp" := PStr (r_timestamp result)]>
        (<["ttl_seconds" := opt_int (r_ttl_seconds result)]>
        (<["metadata" := opt_dict (r_metadata result)]>
        (<["context" := opt_str (r_context result)]> ∅))))))))))
  end.

(** [WorkingMemoryHandler.clear_memory]: the result of the delete is not
    looked at. *)
Definition clear_memory (tenant_id memory_id session_id : string) : Redis.M unit :=
  let! _ := Redis.delete (redis_key tenant_id session_id memory_id) in
  Redis.ret tt.

(** [m.dict()] for a [WorkingMemoryResponse] *)
Definition response_dict (m : WorkingMemoryResponse) : pyval :=
  PDict (<["memory_id" := PStr (r_memory_id m)]>
        (<["tenant_id" := PStr (r_tenant_id m)]>
        (<["session_id" := PStr (r_session_id m)]>
        (<["data" := PDict (r_data m)]>
        (<["content" := r_content m]>
        (<["timestamp" := PStr (r_timestamp m)]>
        (<["ttl_seconds" := opt_int (r_ttl_seconds m)]>
        (<["metadata" := opt_dict (r_metadata m)]>
        (<["context" := opt_str (r_context m)]> ∅))))))))).

(** A truthy string from the body, if any; a value under that key which
    is not a string is not covered. *)
Definition body_str (body : gmap string pyval) (k : string) : option string :=
  match body !! k with
  | Some (PStr s) => if String.eqb s "" then None else Some s
  | _ => None
  end.

(** [body.get("tenant_id") if http_method == "POST" else
    query_params.get("tenant_id")], then [or "default_tenant"] *)
Definition requested_tenant (http_method : string) (body : gmap string pyval)
    (query_params : gmap string string) : string :=
  default "default_tenant"
    (if String.eqb http_method "POST" then body_str body "tenant_id"
     else Shortterm.param query_params "tenant_id").

(** [body.get("session_id") or query_params.get("session_id")] *)
Definition requested_session (body : gmap string pyval) (query_params : gmap string string)
    : option string :=
  match body_str body "session_id" with
  | Some s => Some s
  | None => query_params !! "session_id"
  end.

(** [lambda_handler].  Ids in the body are JSON strings, or absent. *)
Definition lambda_handler (e : env) (ev : event) : Redis.M response :=
  Redis.try_except
    (let http_method := method_of ev "" in
     let query_params := extract_query_params ev in
     let body := extract_body ev in
     let tenant_id := requested_tenant http_method body query_params in
     let session_id := requested_session body query_params in
     let! _ := Redis.connect in
     if String.eqb http_method "POST" then lambda_post e body
     else if String.eqb http_method "GET" then
       let! limit := Redis.lift
         (py_int e (match query_params !! "limit" with
                    | Some s => PStr s
                    | None => PInt 10
                    end)) in
       let! memories := get_memories e tenant_id session_id limit in
       Redis.ret (create_response 200
         (<["count" := PInt (Z.of_nat (length memories))]>
         (<["memories" := PList (map response_dict memories)]> ∅)))
     else if String.eqb http_method "DELETE" then
       match Shortterm.param query_params "memory_id", session_id with
       | Some memory_id, Some sid =>
           if String.eqb sid "" then
             Redis.ret (create_error_response e 400
                          "memory_id and session_id are required for deletion")
           else
             let! _ := clear_memory tenant_id memory_id sid in
             Redis.ret (create_response 200
               (<["message" := PStr ("Memory " ++ memory_id ++ " cleared")]> ∅))
       | _, _ =>
           Redis.ret (create_error_response e 400
                        "memory_id and session_id are required for deletion")
       end
     else
       Redis.ret (create_error_response e 405 ("Unsupported method: " ++ http_method)))
    (fun _ => Redis.ret (create_error_response e 500 "Internal server error")).

End Working.

(** ** [services/dynamodb.py] *)

Module DynamoDB.
Import Py.

(** A table: its items in the order a query returns them, the attributes
    that form the primary key, and whether calls reach it.  The checks the
    service makes on a request (that an item has its key attributes, that a
    key condition is on the table's key, that every expression attribute
    value is used) are not modelled: a call that reaches the table is
    served. *)
Record table := Table {
  t_reachable : bool;
  key_schema : list string;
  items : list (gmap string pyval)
}.

(** [Key(attr).eq(v)] / [Attr(attr).eq(v)] on string values *)
Inductive condition := Eq (attr : string) (v : string).

Definition holds (c : condition) (item : gmap string pyval) : bool :=
  match c with
  | Eq attr v => match item !! attr with
                 | Some (PStr s) => String.eqb s v
                 | _ => false
                 end
  end.

Definition str_attr (item : gmap string pyval) (attr : string) : option string :=
  match item !! attr with
  | Some (PStr s) => Some s
  | _ => None
  end.

Definition same_key (schema : list string) (a b : gmap string pyval) : bool :=
  forallb (fun attr => bool_decide (str_attr a attr = str_attr b attr)) schema.

(** [DynamoDBAdapter.put_item]: the item replaces the one with the same
    primary key, if any; a failed call gives [False]. *)
Definition put_item (item : gmap string pyval) (t : table) : bool * table :=
  if t_reachable t then
    (true, Table true (key_schema t)
             (List.filter (fun i => negb (same_key (key_schema t) i item)) (items t)
                ++ [item])%list)
  else (false, t).

(** [DynamoDBAdapter.query_items]: the items that satisfy the key condition,
    at most [limit] of them when a limit is given, then the filter; a failed
    call gives the empty list. *)
Definition query_items (key_condition : condition) (filter_expression : option condition)
    (limit : option Z) (t : table) : list (gmap string pyval) :=
  if t_reachable t then
    let matched := List.filter (holds key_condition) (items t) in
    let limited := match limit with
                   | Some n => if n =? 0 then matched else take (Z.to_nat n) matched
                   | None => matched
                   end in
    match filter_expression with
    | Some f => List.filter (holds f) limited
    | None => limited
    end
  else [].

End DynamoDB.

(** ** [handlers/longterm_handler.py] *)

Module Longterm.
Import Py Http.

(** [models.LongTermMemoryCreate], as the handler reads it *)
Record LongTermMemoryCreate := {
  c_tenant_id : string;
  c_entity_id : string;
  c_summary : string;
  c_metadata : option (gmap string pyval);
  c_id : option string
}.

(** [models.LongTermMemoryResponse] *)
Record LongTermMemoryResponse := {
  memory_id : string;
  entity_id : string;
  summary : pyval;
  metadata : gmap string pyval;
  timestamp : pyval;
  tenant_id : string
}.

(** [LongTermMemoryHandler.update_memory], for the handler of [tenant_id] *)
Definition update_memory (e : env) (tenant_id_ : string) (memory_data : LongTermMemoryCreate)
    (t : DynamoDB.table) : res LongTermMemoryResponse * DynamoDB.table :=
  let memory_id_ :=
    match c_id memory_data with
    | Some i => if String.eqb i "" then generate_id e "ltm" else i
    | None => generate_id e "ltm"
    end in
  let timestamp_ := now e in
  let md := Working.or_dict (c_metadata memory_data) ∅ in
  let item : gmap string pyval :=
    <["id" := PStr memory_id_]>
    (<["entity_id" := PStr (c_entity_id memory_data)]>
    (<["summary" := PStr (c_summary memory_data)]>
    (<["metadata" := PDict md]>
    (<["timestamp" := PStr timestamp_]>
    (<["tenant_id" := PStr tenant_id_]> ∅))))) in
  let '(success, t') := DynamoDB.put_item item t in
  if negb success then (Raise (Exception_ "Failed to store long-term memory"), t')
  else
    (Ok {| memory_id := memory_id_;
           entity_id := c_entity_id memory_data;
           summary := PStr (c_summary memory_data);
           metadata := md;
           timestamp := PStr timestamp_;
           tenant_id := tenant_id_ |}, t').

(** [r[k]]: a missing key raises [KeyError]. *)
Definition subscript (r : gmap string pyval) (k : string) : res pyval :=
  match r !! k with
  | Some v => Ok v
  | None => Raise (KeyError k)
  end.

(** The response built from the first result [r]. *)
Definition response_of (tenant_id_ : string) (r : gmap string pyval)
    : res LongTermMemoryResponse :=
  let* i := subscript r "id" in
  let* eid := subscript r "entity_id" in
  let* s := subscript r "summary" in
  let md := get_d r "metadata" (PDict ∅) in
  let* ts := subscript r "timestamp" in
  match i, eid, md with
  | PStr i', PStr eid', PDict md' =>
      Ok {| memory_id := i'; entity_id := eid'; summary := s; metadata := md';
            timestamp := ts; tenant_id := tenant_id_ |}
  | _, _, _ => Raise (PydanticValidationError "LongTermMemoryResponse")
  end.

(** [LongTermMemoryHandler.get_memory], for the handler of [tenant_id] *)
Definition get_memory (tenant_id_ : string) (entity_id_ : string) (t : DynamoDB.table)
    : res (option LongTermMemoryResponse) :=
  let key_condition := DynamoDB.Eq "entity_id" entity_id_ in
  let filter_expression := DynamoDB.Eq "tenant_id" tenant_id_ in
  let results := DynamoDB.query_items key_condition (Some filter_expression) None t in
  match results with
  | [] => Ok None
  | r :: _ => let* resp := response_of tenant_id_ r in Ok (Some resp)
  end.

(** [event.get("headers", {}).get("X-Tenant-ID", "default_tenant")] *)
Definition header_tenant (ev : event) : string :=
  default "default_tenant" (default ∅ (headers ev) !! "X-Tenant-ID").

(** [memory.dict()] for a [LongTermMemoryResponse]: [related_entities] and
    [id] are passed neither by [get_memory] nor by [update_memory] and keep
    their defaults. *)
Definition response_dict (r : LongTermMemoryResponse) : gmap string pyval :=
  <["tenant_id" := PStr (tenant_id r)]>
  (<["metadata" := PDict (metadata r)]>
  (<["entity_id" := PStr (entity_id r)]>
  (<["summary" := summary r]>
  (<["related_entities" := PList []]>
  (<["id" := PNone]>
  (<["memory_id" := PStr (memory_id r)]>
  (<["timestamp" := timestamp r]> ∅))))))).

(** The POST branch of [lambda_handler]: the tenant comes from the header;
    a [tenant_id] in the body is not read.  An exception is what the
    enclosing [try] turns into a 500 response. *)
Definition lambda_post (e : env) (ev : event) (t : DynamoDB.table)
    : res response * DynamoDB.table :=
  let tenant := header_tenant ev in
  match ev_body ev with
  | None => (Ok (create_error_response e 400 "Request body is required"), t)
  | Some b =>
      if bool_decide (b = ∅)
      then (Ok (create_error_response e 400 "Request body is required"), t)
      else
        let missing := List.filter (fun f => negb (bool_decide (is_Some (b !! f))))
                                   ["entity_id"; "summary"] in
        match missing with
        | _ :: _ =>
            (Ok (create_error_response e 400
                   ("Missing required fields: " ++ join missing)), t)
        | [] =>
            match get b "entity_id", get b "summary", get b "metadata", get b "id" with
            | PStr eid, PStr s, md, i =>
                let md' := match md with PDict d => Ok (Some d) | PNone => Ok None
                           | _ => Raise (PydanticValidationError "metadata") end in
                let i' := match i with PStr x => Ok (Some x) | PNone => Ok None
                          | _ => Raise (PydanticValidationError "id") end in
                match md', i' with
                | Ok md'', Ok i'' =>
                    let memory_data :=
                      {| c_tenant_id := tenant; c_entity_id := eid; c_summary := s;
                         c_metadata := md''; c_id := i'' |} in
                    match update_memory e tenant memory_data t with
                    | (Ok r, t') => (Ok (create_response 201 (response_dict r)), t')
                    | (Raise x, t') => (Raise x, t')
                    end
                | Raise x, _ | _, Raise x => (Raise x, t)
                end
            | _, _, _, _ => (Raise (PydanticValidationError "LongTermMemoryCreate"), t)
            end
        end
  end.

(** [LongTermMemoryHandler.query_memories]: the key condition is on
    [user_id]; [query_items] turns a failed call into the empty list, so the
    [except] branch is not reached. *)
Definition query_memories (user_id : string) (limit : Z) (t : DynamoDB.table)
    : gmap string pyval :=
  let items := DynamoDB.query_items (DynamoDB.Eq "user_id" user_id) None (Some limit) t in
  <["status" := PStr "success"]>
  (<["count" := PInt (Z.of_nat (length items))]>
  (<["memories" := PList (map PDict items)]> ∅)).

(** The GET branch of [lambda_handler], with its [try] and its
    [measure_execution_time] decorator.  [describe] is [str(e)]. *)
Definition lambda_get (e : env) (describe : exn -> string) (execution_time_ms : float)
    (ev : event) (t : DynamoDB.table) : response :=
  measure_execution_time execution_time_ms
    (let tenant := header_tenant ev in
     let params := extract_query_params ev in
     match Shortterm.param params "entity_id" with
     | None => create_error_response e 400 "entity_id parameter is required"
     | Some entity_id_ =>
         match get_memory tenant entity_id_ t with
         | Raise x => create_error_response e 500 (describe x)
         | Ok None =>
             create_error_response e 404
               ("Memory for entity_id " ++ entity_id_ ++ " not found")
         | Ok (Some memory) => create_response 200 (response_dict memory)
         end
     end).

End Longterm.

(** ** [services/opensearch.py] *)

Module OpenSearch.
Import Py.

(** A search request body: [size], [min_score] and what to match. *)
Inductive matcher := ByVector (vector : list float) | ByText (query_text : string).
Record query := Query {
  q_size : Z;
  q_min_score : option float;
  q_match : matcher
}.

(** The [OpenSearch] client with the index behind it.  How the server
    scores and ranks is its own business: [answer q] is the list of hits
    ([_source], [_score]) it returns for [q].  [index_exists] tells whether
    the [semanticmemory] index has been created. *)
Record client := Client {
  reachable : bool;
  documents : gmap string (gmap string pyval);
  answer : query -> list (gmap string pyval * float);
  index_exists : bool
}.

(** [OpenSearchAdapter.add_document] *)
Definition add_document (doc_id : string) (document : gmap string pyval) (c : client)
    : bool * client :=
  if reachable c
  then (true, Client true (<[doc_id := document]> (documents c)) (answer c) true)
  else (false, c).

(** [OpenSearchAdapter.search_vector]: every exception of the client call
    is logged and turned into the empty list. *)
Definition search_vector (vector : list float) (size : Z) (min_score : float) (c : client)
    : list (gmap string pyval) :=
  if reachable c then
    map (fun hit => <["relevance_score" := PFloat (snd hit - 1)%float]> (fst hit))
        (answer c (Query size (Some min_score) (ByVector vector)))
  else [].

(** [OpenSearchAdapter.search_text] *)
Definition search_text (query_text : string) (size : Z) (c : client)
    : list (gmap string pyval) :=
  if reachable c then
    map (fun hit => <["relevance_score" := PFloat (snd hit)]> (fst hit))
        (answer c (Query size None (ByText query_text)))
  else [].

(** The methods [OpenSearchAdapter] defines, and attribute lookup on it. *)
Inductive method := m_add_document | m_search_vector | m_search_text.

Definition getattr (name : string) : res method :=
  if String.eqb name "add_document" then Ok m_add_document
  else if String.eqb name "search_vector" then Ok m_search_vector
  else if String.eqb name "search_text" then Ok m_search_text
  else Raise (AttributeError "OpenSearchAdapter" name).

(** The keyword parameters each method accepts. *)
Definition keywords (m : method) : list string :=
  match m with
  | m_add_document => ["doc_id"; "document"]
  | m_search_vector => ["vector"; "size"; "min_score"]
  | m_search_text => ["query_text"; "size"]
  end.

End OpenSearch.

(** ** [handlers/semantic_handler.py] *)

Module Semantic.
Import Py Http.

Definition hex_value (c : ascii) : option Z :=
  let n := Z.of_N (N_of_ascii c) in
  if (48 <=? n) && (n <=? 57) then Some (n - 48)
  else if (97 <=? n) && (n <=? 102) then Some (n - 87)
  else if (65 <=? n) && (n <=? 70) then Some (n - 55)
  else None.

(** [generate_embedding]: 768 components, each from one hex digit of the
    MD5 digest of the text. *)
Definition generate_embedding (e : env) (text : string) : res (list float) :=
  let h := md5_hexdigest e text in
  comprehension
    (fun i => match String.get (i mod 32) h with
              | None => Raise IndexError
              | Some c =>
                  match hex_value c with
                  | None => Raise ValueError
                  | Some d => Ok (PrimFloat.of_uint63 (Uint63.of_Z d) / 15 - 1)%float
                  end
              end)
    (seq 0 768).

(** [handle_add_memory].  The event's headers are not read: the tenant
    recorded in the document is the body's [tenant_id]. *)
Definition handle_add_memory (e : env) (ev : event) (adapter : OpenSearch.client)
    : res response * OpenSearch.client :=
  let body := extract_body ev in
  let content := get body "content" in
  if negb (truthy content) then
    (Ok (create_error_response e 400 "Missing required field: content"), adapter)
  else
    let embedding :=
      if truthy (get body "embedding") then Ok (get body "embedding")
      else match content with
           | PStr s => let* v := generate_embedding e s in Ok (PList (map PFloat v))
           | _ => Raise (AttributeError "content" "encode")
           end in
    match embedding with
    | Raise x => (Raise x, adapter)
    | Ok emb =>
        let well_formed :=
          match emb with
          | PList l => bool_decide (length l = 768%nat)
          | _ => false
          end in
        if negb well_formed then
          (Ok (create_error_response e 400 "Invalid embedding format"), adapter)
        else
          match get_d body "metadata" (PDict ∅) with
          | PDict md =>
              let metadata :=
                <["source_id" := get body "source_id"]>
                (<["source_type" := get_d body "source_type" (PStr "unknown")]>
                (<["tenant_id" := get_d body "tenant_id" (PStr "default_tenant")]>
                (<["agent_id" := get_d body "agent_id" (PStr "unknown_agent")]> md))) in
              let memory_id := generate_id e "sem" in
              let document : gmap string pyval :=
                <["id" := PStr memory_id]>
                (<["content" := content]>
                (<["embedding" := emb]>
                (<["metadata" := PDict metadata]>
                (<["tags" := get_d body "tags" (PList [])]>
                (<["timestamp" := PStr (now e)]>
                (<["version" := PInt 1]>
                (<["relevance_score" := PFloat 0]> ∅))))))) in
              let '(success, adapter') := OpenSearch.add_document memory_id document adapter in
              if negb success then
                (Ok (create_error_response e 500 "Failed to store semantic memory"), adapter')
              else
                (Ok (create_response 201
                       (<["message" := PStr "Semantic memory stored successfully"]>
                       (<["memory_id" := PStr memory_id]> ∅))), adapter')
          | _ => (Raise (AttributeError "metadata" "update"), adapter)
          end
    end.

(** Python's [max(a, b)] and [min(a, b)]: the first argument is kept
    unless the second is strictly greater (smaller). *)
Definition max_int (a b : Z) : Z := if a <? b then b else a.
Definition min_int (a b : Z) : Z := if b <? a then b else a.
Definition max_float (a b : float) : float := if PrimFloat.ltb a b then b else a.
Definition min_float (a b : float) : float := if PrimFloat.ltb b a then b else a.

(** [min(max(int(params.get("limit", 10)), 1), 100)] *)
Definition effective_limit (e : env) (params : gmap string string) : res Z :=
  let* n := py_int e (match params !! "limit" with Some s => PStr s | None => PInt 10 end) in
  Ok (min_int (max_int n 1) 100).

(** [min(max(float(params.get("min_score", 0.7)), 0.0), 1.0)] *)
Definition effective_min_score (e : env) (params : gmap string string) : res float :=
  let* x := py_float e (match params !! "min_score" with
                        | Some s => PStr s
                        | None => PFloat 0x1.6666666666666p-1   (* 0.7 *)
                        end) in
  Ok (min_float (max_float x 0) 1).

(** A method call with keyword arguments: the attribute is looked up on
    the adapter, and the keywords must be parameters of the method. *)
Definition call_search (name : string) (kwargs : list string)
    (run : OpenSearch.method -> list (gmap string pyval))
    : res (list (gmap string pyval)) :=
  let* m := OpenSearch.getattr name in
  if forallb (fun k => bool_decide (k ∈ OpenSearch.keywords m)) kwargs
  then Ok (run m)
  else Raise TypeError.

(** [result.get("relevance_score", 0) >= min_score] on a stored document *)
Definition score_at_least (min_score : float) (r : gmap string pyval) : bool :=
  match get_d r "relevance_score" (PInt 0) with
  | PFloat s => PrimFloat.leb min_score s
  | PInt z => PrimFloat.leb min_score (PrimFloat.of_uint63 (Uint63.of_Z z))
  | _ => false
  end.

(** [handle_query_memory] *)
Definition handle_query_memory (e : env) (ev : event) (adapter : OpenSearch.client)
    : res response :=
  let params := extract_query_params ev in
  match Shortterm.param params "query" with
  | None => Ok (create_error_response e 400 "Query parameter is required")
  | Some query_text =>
      let search_type := default "vector" (params !! "search_type") in
      let* limit := effective_limit e params in
      let* min_score := effective_min_score e params in
      let* results :=
        if String.eqb search_type "vector" then
          let* embedding := generate_embedding e query_text in
          let* rs := call_search "search_by_vector" ["vector"; "size"; "min_score"; "filters"]
                       (fun _ => OpenSearch.search_vector embedding limit min_score adapter) in
          Ok (Some rs)
        else if String.eqb search_type "text" then
          let* rs := call_search "search_by_text" ["query"; "size"; "filters"]
                       (fun _ => OpenSearch.search_text query_text limit adapter) in
          Ok (Some (List.filter (score_at_least min_score) rs))
        else Ok None in
      match results with
      | None => Ok (create_error_response e 400 "Invalid search_type. Use 'vector' or 'text'")
      | Some rs =>
          Ok (create_response 200
                (<["count" := PInt (Z.of_nat (length rs))]>
                (<["results" := PList (map PDict rs)]> ∅)))
      end
  end.

(** [OpenSearchAdapter(endpoint)]: [_ensure_index] asks the cluster whether
    the index exists, which raises when it cannot be reached, and creates
    the index when it is missing. *)
Definition connect (adapter : OpenSearch.client) : res OpenSearch.client :=
  if OpenSearch.reachable adapter
  then Ok (OpenSearch.Client true (OpenSearch.documents adapter)
             (OpenSearch.answer adapter) true)
  else Raise ConnectionError.

(** [lambda_handler]; [endpoint] is [os.getenv("OPENSEARCH_ENDPOINT")]. *)
Definition lambda_handler (e : env) (endpoint : option string) (ev : event)
    (adapter : OpenSearch.client) : response * OpenSearch.client :=
  let http_method := method_of ev "" in
  match endpoint with
  | None => (create_error_response e 500
               "Missing OPENSEARCH_ENDPOINT environment variable", adapter)
  | Some url =>
      if String.eqb url "" then
        (create_error_response e 500
           "Missing OPENSEARCH_ENDPOINT environment variable", adapter)
      else
        let internal := create_error_response e 500 "Internal server error" in
        match connect adapter with
        | Raise _ => (internal, adapter)
        | Ok adapter =>
            if String.eqb http_method "POST" then
              match handle_add_memory e ev adapter with
              | (Ok r, adapter') => (r, adapter')
              | (Raise _, adapter') => (internal, adapter')
              end
            else if String.eqb http_method "GET" then
              match handle_query_memory e ev adapter with
              | Ok r => (r, adapter)
              | Raise _ => (internal, adapter)
              end
            else
              (create_error_response e 405 ("Unsupported method: " ++ http_method),
               adapter)
        end
  end.

End Semantic.

(** ** [app.py] *)

Module App.
Import Py.

(** [request.headers.get("X-Tenant-ID") or body.get("tenant_id")] in
    [add_semantic_memory]: the tenant given to [SemanticMemoryCreate]. *)
Definition add_semantic_memory_tenant
    (headers : gmap string string) (body : gmap string pyval) : pyval :=
  py_or (match headers !! "X-Tenant-ID" with Some s => PStr s | None => PNone end)
        (get body "tenant_id").

End App.

(** ** [models.py]: the classes [save_memory_redis] builds *)

Module Models.
Import Py.

Inductive model :=
| ShorttermMemoryCreate
| EpisodicMemoryCreate
| SemanticMemoryCreate
| WorkingMemoryCreate
| LongTermMemoryCreate.

Definition class_name (m : model) : string :=
  match m with
  | ShorttermMemoryCreate => "ShorttermMemoryCreate"
  | EpisodicMemoryCreate => "EpisodicMemoryCreate"
  | SemanticMemoryCreate => "SemanticMemoryCreate"
  | WorkingMemoryCreate => "WorkingMemoryCreate"
  | LongTermMemoryCreate => "LongTermMemoryCreate"
  end.

(** The fields each class declares, those of [MemoryEntryBase] included. *)
Definition fields (m : model) : list string :=
  match m with
  | ShorttermMemoryCreate =>
      ["tenant_id"; "session_id"; "content"; "metadata"; "ttl_seconds"]
  | EpisodicMemoryCreate =>
      ["tenant_id"; "metadata"; "session_id"; "turn_number"; "user_input";
       "agent_response"; "context"]
  | SemanticMemoryCreate =>
      ["tenant_id"; "metadata"; "concept"; "content"; "embedding"]
  | WorkingMemoryCreate =>
      ["session_id"; "data"; "metadata"; "ttl_seconds"; "context"]
  | LongTermMemoryCreate =>
      ["tenant_id"; "metadata"; "entity_id"; "summary"; "related_entities"; "id"]
  end.

(** An instance: its class and the values of its fields, which is also
    what [.dict()] returns. *)
Record instance := Instance {
  class : model;
  values : gmap string pyval
}.

(** [memory.<name>]: only declared fields are attributes. *)
Definition getattr (i : instance) (name : string) : res pyval :=
  if existsb (String.eqb name) (fields (class i)) then Ok (get (values i) name)
  else Raise (AttributeError (class_name (class i)) name).

End Models.

(** ** [services/redis.py]: [save_memory_redis] *)

Module Save.
Import Py Models.

Section WithPydantic.

Variable e : env.

(** Building a model from the entries of [data]: pydantic's validation,
    giving the field values. *)
Variable construct : model -> gmap string pyval -> res (gmap string pyval).

(** [os.getenv("REDIS_ENDPOINT")] *)
Variable redis_endpoint : option string.

Definition model_of (memory_type : string) : res model :=
  if String.eqb memory_type "short_term" then Ok ShorttermMemoryCreate
  else if String.eqb memory_type "episodic" then Ok EpisodicMemoryCreate
  else if String.eqb memory_type "semantic" then Ok SemanticMemoryCreate
  else if String.eqb memory_type "working" then Ok WorkingMemoryCreate
  else if String.eqb memory_type "long_term" then Ok LongTermMemoryCreate
  else Raise ValueError.

(** [save_memory_redis].  [serialize_for_storage] changes only [datetime]
    values, which JSON data has none of; the client refuses a key that is
    not a string before it sends anything. *)
Definition save_memory_redis (memory_type : string) (data : gmap string pyval)
    : Redis.M (gmap string pyval) :=
  let! m := Redis.lift (model_of memory_type) in
  let! vs := Redis.lift (construct m data) in
  let memory := Instance m vs in
  let! _ := Redis.lift (match redis_endpoint with
                        | Some _ => Ok tt
                        | None => Raise ValueError
                        end) in
  let! _ := Redis.connect in
  let! key := Redis.lift (getattr memory "id") in
  match key with
  | PStr k =>
      let! _ := Redis.set e k (PDict (values memory)) (Some 3600) in
      let! i := Redis.lift (getattr memory "id") in
      Redis.ret (<["status" := PStr "success"]> (<["memory_id" := i]> ∅))
  | _ => Redis.raise (Exception_ "DataError")
  end.

End WithPydantic.

End Save.

(** ** [tenant_auth.py] *)

Module TenantAuth.

(** [TenantContext], as [authorize_operation] reads it *)
Record TenantContext := {
  tenant_id : string;
  user_id : string;
  permissions : list string;
  subscription_tier : string
}.

(** [TenantAuthenticator._get_tier_permissions] *)
Definition _get_tier_permissions (tier : string) : list string :=
  if String.eqb tier "basic" then
    ["memory:read"; "memory:write"; "memory:delete"; "retrieval:query"]
  else if String.eqb tier "premium" then
    ["memory:read"; "memory:write"; "memory:delete"; "retrieval:query";
     "retrieval:advanced"; "graph:query"; "analytics:basic"]
  else if String.eqb tier "enterprise" then
    ["memory:*"; "retrieval:*"; "graph:*"; "analytics:*"; "admin:*"]
  else [].

(** [x in l] on strings *)
Definition mem (x : string) (l : list string) : bool := existsb (String.eqb x) l.

(** [f"{resource}"]: [None] prints as [None]. *)
Definition str_of (resource : option string) : string := default "None" resource.

(** [TenantAuthenticator.authorize_operation] *)
Definition authorize_operation (context : TenantContext) (operation : string)
    (resource : option string) : bool :=
  let tier_permissions := _get_tier_permissions (subscription_tier context) in
  if negb (mem operation tier_permissions) then false
  else if match permissions context with [] => false | _ => true end
          && negb (mem (operation ++ ":" ++ str_of resource) (permissions context))
  then
    if negb (mem (operation ++ ":*") (permissions context))
       && negb (mem "*:*" (permissions context))
    then false
    else true
  else true.

End TenantAuth.

(** ** Sample data used by the examples below *)

Module Samples.
Import Py.

Definition cand (i : string) (score : Q) (ts c : string) : Utils.result :=
  Utils.Result i (Some score) (Some ts) (Some c).

Definition cand_a : Utils.result := cand "sem_1" (9 # 10) "2024-01-02T00:00:00" "a".
Definition cand_b : Utils.result := cand "sem_2" (8 # 10) "2024-01-01T00:00:00" "b".
Definition cand_x : Utils.result := cand "sem_0" (95 # 100) "2024-01-03T00:00:00" "x".
Definition dup_hi : Utils.result := cand "sem_3" (9 # 10) "2024-01-02T00:00:00" "dup".
Definition dup_lo : Utils.result := cand "sem_4" (8 # 10) "2024-01-01T00:00:00" "dup".
Definition cand_low : Utils.result := cand "sem_5" (5 # 10) "2024-01-04T00:00:00" "low".

(** A stand-in for what the code obtains from outside: a decimal parser
    for [int()], the two strings the examples pass to [float()], the MD5
    digests of the two texts the examples embed, a glob matcher, and a
    server that takes an expiry when the expiry time, in milliseconds after
    its clock, fits a signed 64-bit integer. *)
Fixpoint digits (s : string) (acc : Z) : option Z :=
  match s with
  | EmptyString => Some acc
  | String c s' =>
      let n := Z.of_N (N_of_ascii c) in
      if (48 <=? n) && (n <=? 57) then digits s' (10 * acc + (n - 48)) else None
  end.

Definition decimal (s : string) : option Z :=
  match s with
  | EmptyString => None
  | String "-" s' => match s' with
                     | EmptyString => None
                     | _ => option_map Z.opp (digits s' 0)
                     end
  | _ => digits s 0
  end.

(** Glob matching with [*] as the only wildcard. *)
Fixpoint star_glob_list (pattern key : list ascii) : bool :=
  match pattern with
  | [] => match key with [] => true | _ => false end
  | p :: pattern' =>
      if Ascii.eqb p "*" then
        (fix skip (k : list ascii) : bool :=
           star_glob_list pattern' k
           || match k with [] => false | _ :: k' => skip k' end) key
      else
        match key with
        | [] => false
        | c :: key' => Ascii.eqb p c && star_glob_list pattern' key'
        end
  end.

Definition star_glob (pattern key : string) : bool :=
  star_glob_list (list_ascii_of_string pattern) (list_ascii_of_string key).

Definition demo_env : env :=
  {| now := "2024-01-01T00:00:00";
     uuid4 := "123e4567-e89b-42d3-a456-426614174000";
     int_of_str := decimal;
     float_of_str := fun s => if String.eqb s "nan" then Some PrimFloat.nan
                              else if String.eqb s "0.5" then Some 0.5%float
                              else None;
     md5_hexdigest := fun s => if String.eqb s "a" then "0cc175b9c0f1b6a831c399e269772661"
                              else if String.eqb s "cats" then "0832c1202da8d382318e329a7c133ea0"
                              else "d41d8cd98f00b204e9800998ecf8427e";
     json_loads := fun _ => None;
     glob_match := star_glob;
     redis_accepts_expiry := fun t => t * 1000 + 1704067200000 <=? 2 ^ 63 - 1 |}.

(** An empty, reachable Redis, as [RedisAdapter.__init__] connects to it. *)
Definition fresh_redis : Redis.client := Redis.RedisAdapter ∅ true.

(** Tenant A's short-term write, and tenant B's read by A's memory id. *)
Definition body_of_A : gmap string pyval :=
  <["content" := PStr "secret of tenant A"]> (<["tenant_id" := PStr "tenant-a"]> ∅).
Definition params_of_B : gmap string string :=
  <["memory_id" := "stm_123e4567-e89b-42d3-a456-426614174000"]>
  (<["tenant_id" := "tenant-b"]> ∅).

(** A short-term write that asks for [ttl_seconds = 0]. *)
Definition body_ttl_zero : gmap string pyval :=
  <["content" := PStr "note"]> (<["ttl_seconds" := PInt 0]> ∅).

(** A short-term write that asks for [ttl_seconds = 120]. *)
Definition body_ttl_120 : gmap string pyval :=
  <["content" := PStr "note"]> (<["ttl_seconds" := PInt 120]> (<["session_id" := PStr "s1"]> ∅)).

(** A working-memory write. *)
Definition wm_create : Working.WorkingMemoryCreate :=
  {| Working.c_session_id := "s1";
     Working.c_data := <["step" := PInt 1]> ∅;
     Working.c_metadata := None;
     Working.c_ttl_seconds := None;
     Working.c_context := Some "" |}.

(** The body of a working-memory POST without [ttl_seconds]. *)
Definition wm_post_body : gmap string pyval :=
  <["tenant_id" := PStr "tenant-a"]> (<["session_id" := PStr "s1"]>
  (<["data" := PDict (<["step" := PInt 1]> ∅)]> ∅)).

Definition wm_create_ttl (t : Z) : Working.WorkingMemoryCreate :=
  {| Working.c_session_id := "s1";
     Working.c_data := <["step" := PInt 1]> ∅;
     Working.c_metadata := None;
     Working.c_ttl_seconds := Some t;
     Working.c_context := Some "" |}.

(** A semantic write whose header and body name different tenants. *)
Definition spoofed_event : Http.event :=
  {| Http.httpMethod := Some "POST";
     Http.headers := Some (<["X-Tenant-ID" := "tenant-a"]> ∅);
     Http.queryStringParameters := None;
     Http.ev_body := Some (<["content" := PStr "a"]> (<["tenant_id" := PStr "tenant-b"]> ∅)) |}.

Definition empty_index (up : bool) : OpenSearch.client :=
  OpenSearch.Client up ∅ (fun _ => []) true.

(** A semantic query, as the Lambda receives it. *)
Definition query_event (params : gmap string string) : Http.event :=
  {| Http.httpMethod := Some "GET";
     Http.headers := None;
     Http.queryStringParameters := Some params;
     Http.ev_body := None |}.

Definition plain_query : gmap string string :=
  <["query" := "cats"]> (<["limit" := "500"]> ∅).

(** A semantic query with [min_score=nan]. *)
Definition nan_query : gmap string string :=
  <["query" := "cats"]> (<["min_score" := "nan"]> ∅).

(** The status code of a handler's outcome, if it returned a response. *)
Definition status_of (r : res Http.response) : option Z :=
  match r with
  | Ok resp => Some (Http.statusCode resp)
  | Raise _ => None
  end.

(** What a stored semantic document records as its tenant. *)
Definition persisted_tenant (adapter : OpenSearch.client) (doc_id : string) : option pyval :=
  match OpenSearch.documents adapter !! doc_id with
  | Some doc => match doc !! "metadata" with
                | Some (PDict md) => md !! "tenant_id"
                | _ => None
                end
  | None => None
  end.

(** Long-term items of two tenants for the same entity. *)
Definition ltm_item (i tenant summary_ : string) : gmap string pyval :=
  <["id" := PStr i]> (<["entity_id" := PStr "user-1"]> (<["summary" := PStr summary_]>
  (<["metadata" := PDict ∅]> (<["timestamp" := PStr "2024-01-01T00:00:00"]>
  (<["tenant_id" := PStr tenant]> ∅))))).

Definition ltm_table : DynamoDB.table :=
  DynamoDB.Table true ["entity_id"; "tenant_id"]
    [ltm_item "ltm_1" "tenant-a" "likes tea"; ltm_item "ltm_2" "tenant-b" "likes coffee"].

End Samples.

(** ** Vocabulary of the statements *)

Module RankingSpec.
Import Utils.

(** [x] does not sort after [y]. *)
Definition ge_key (x y : result) : Prop := key_lt (sort_key x) (sort_key y) = false.

(** The fingerprint the deduplication loop computes for a candidate. *)
Definition fingerprint (r : result) : string := hash_content (content r).

(** The whole ranking: [max_results] as large as the input, so that
    nothing is cut off. *)
Definition ranked (results : list result) (relevance_threshold : Q) : list result :=
  merge_and_rank_results results (Z.of_nat (length results)) relevance_threshold.

(** How many of [len] results [[:max_results]] keeps. *)
Definition kept (len : nat) (max_results : Z) : nat :=
  if 0 <=? max_results then Nat.min (Z.to_nat max_results) len
  else Z.to_nat (Z.of_nat len + max_results).

End RankingSpec.

Module SimilaritySpec.
Import Py Utils.

(** Every component is a [float]. *)
Definition is_float (a : num) : bool :=
  match a with NFloat _ => true | NInt _ => false end.
Definition floats (v : list num) : Prop := forallb is_float v = true.

(** Every component is zero ([0], [0.0] or [-0.0]). *)
Definition is_zero (a : num) : bool :=
  match a with
  | NInt z => z =? 0
  | NFloat f => (f =? 0)%float
  end.

(** The magnitude the code computes for [v] is zero. *)
Definition zero_magnitude (v : list num) : Prop :=
  exists m, magnitude v = Ok m /\ (m =? 0)%float = true.

(** The zero case: an empty vector or a zero magnitude. *)
Definition zero_case (q d : list num) : Prop :=
  q = [] \/ d = [] \/ zero_magnitude q \/ zero_magnitude d.

(** A mantissa [m] at exponent [e] stands for at least [2 ^ k]. *)
Definition at_least (k m e : Z) : Prop := 1 <= m /\ 2 ^ (k - e) <= m.

(** A number of sign [s]: a zero, an infinity or a finite number. *)
Definition has_sign (s : bool) (x : spec_float) : Prop :=
  match x with
  | S754_zero s' | S754_infinity s' | S754_finite s' _ _ => s' = s
  | S754_nan => False
  end.

(** An infinity of sign [s], or a finite number of sign [s] that stands
    for at least [2 ^ k]. *)
Definition large (s : bool) (k : Z) (x : spec_float) : Prop :=
  match x with
  | S754_finite s' m e => s' = s /\ at_least k (Zpos m) e
  | S754_infinity s' => s' = s
  | S754_zero _ | S754_nan => False
  end.

(** A NaN, or a number whose sign bit is clear. *)
Definition sf_not_negative (x : spec_float) : Prop := x = S754_nan \/ has_sign false x.

Definition not_negative (a : num) : Prop :=
  match a with
  | NInt z => 0 <= z
  | NFloat f => sf_not_negative (Prim2SF f)
  end.

(** [P] of the value, when there is one. *)
Definition holds {A} (P : A -> Prop) (r : res A) : Prop :=
  match r with
  | Ok x => P x
  | Raise _ => True
  end.

(** The sum of no float so far, or a float. *)
Definition float_sum (s : num) : Prop := s = NInt 0 \/ is_float s = true.

(** The [int] 0 or the float +0.0. *)
Definition plain_zero (s : num) : Prop :=
  match s with
  | NInt z => z = 0
  | NFloat f => Prim2SF f = S754_zero false
  end.

(** What the function can raise at all. *)
Definition only_overflow {A} (r : res A) : Prop :=
  match r with
  | Ok _ => True
  | Raise e => e = OverflowError
  end.

End SimilaritySpec.

Module RedisSpec.
Import Py Redis.

(** The client after one more command, without and with a stored value. *)
Definition logged (k : cmd) (c : client) : client :=
  Client (reachable c) (decode_responses c) (db c) (log c ++ [k]).

Definition stored (key : string) (v : pyval) (ttl : option Z) (k : cmd) (c : client)
    : client :=
  Client (reachable c) (decode_responses c) (<[key := (Dumps v, ttl)]> (db c))
         (log c ++ [k]).

(** An expiry the server takes: positive, within a signed 64-bit integer,
    and accepted by the server at hand. *)
Definition takes (e : env) (t : Z) : Prop :=
  0 < t <= 2 ^ 63 - 1 /\ redis_accepts_expiry e t = true.

End RedisSpec.

Module ShorttermSpec.
Import Py Http Redis Shortterm.

(** The record [add_memory] builds from a body whose fields have their
    declared types. *)
Definition memory_of (e : env) (content_ : pyval) (md : gmap string pyval) (t : Z)
    (sid : string) : ShorttermMemory :=
  {| id := generate_id e "stm"; content := content_; timestamp := now e;
     metadata := md; ttl_seconds := t; session_id := sid |}.

Definition created (e : env) (t : Z) : response :=
  create_response 201
    (<["memory_id" := PStr (generate_id e "stm")]>
    (<["message" := PStr "Short-term memory stored successfully"]>
    (<["ttl_seconds" := PInt t]> ∅))).

(** The stored document under [key] carries [ttl_seconds = t] and the
    server expires it after [expiry]. *)
Definition stored_with (c : client) (key : string) (t : Z) (expiry : option Z) : Prop :=
  exists d, db c !! key = Some (Dumps (PDict d), expiry)
            /\ d !! "ttl_seconds" = Some (PInt t).

(** The write succeeds with status 201, reports [t] and stores [t]. *)
Definition resolves (e : env) (body : gmap string pyval) (c : client) (t : Z)
    (expiry : option Z) : Prop :=
  exists c', add_memory e body c = (Ok (created e t), c')
             /\ stored_with c' (generate_id e "stm") t expiry.

(** A body whose fields, as far as they are present, have their declared
    JSON types. *)
Definition is_content (v : pyval) : bool :=
  match v with
  | PStr _ | PDict _ => true
  | _ => false
  end.

Definition well_typed (body : gmap string pyval) : Prop :=
  (exists v, body !! "content" = Some v /\ is_content v = true)
  /\ (exists md, get_d body "metadata" (PDict ∅) = PDict md)
  /\ (exists sid, get_d body "session_id" (PStr "") = PStr sid).

End ShorttermSpec.

Module WorkingSpec.
Import Py Http Redis Working.

Definition memory_of (e : env) (memory_data : WorkingMemoryCreate) : WorkingMemoryBase :=
  {| memory_id := generate_id e "wm";
     content := PDumps (PDict (c_data memory_data));
     timestamp := now e;
     metadata := Some (or_dict (c_metadata memory_data) ∅);
     ttl_seconds := Some (or_int (c_ttl_seconds memory_data) 3600);
     context := Some (c_session_id memory_data) |}.

Definition response_of (e : env) (tenant_id : string) (memory_data : WorkingMemoryCreate)
    : WorkingMemoryResponse :=
  {| r_memory_id := generate_id e "wm";
     r_content := PDumps (PDict (c_data memory_data));
     r_timestamp := now e;
     r_ttl_seconds := Some (or_int (c_ttl_seconds memory_data) 3600);
     r_context := Some (c_session_id memory_data);
     r_metadata := Some (or_dict (c_metadata memory_data) ∅);
     r_session_id := c_session_id memory_data;
     r_tenant_id := tenant_id;
     r_data := c_data memory_data |}.

Definition key_of (e : env) (tenant_id : string) (memory_data : WorkingMemoryCreate)
    : string :=
  redis_key tenant_id (c_session_id memory_data) (generate_id e "wm").

Definition resolves (e : env) (tenant_id : string) (memory_data : WorkingMemoryCreate)
    (c : client) (t : Z) : Prop :=
  exists r c', add_memory e tenant_id memory_data c = (Ok r, c')
               /\ r_ttl_seconds r = Some t
               /\ ShorttermSpec.stored_with c'
                    (redis_key tenant_id (c_session_id memory_data) (r_memory_id r))
                    t (Some t).

End WorkingSpec.

(** ** Vocabulary of the further properties *)

Module ShorttermKeys.
Import Http.

(** The second key of a short-term write that names a session. *)
Definition session_key (e : env) (sid : string) : string :=
  "session:" ++ sid ++ ":" ++ generate_id e "stm".

End ShorttermKeys.

Module WorkingKeys.

(** An id without the separator of the composite key. *)
Fixpoint colon_free (s : string) : bool :=
  match s with
  | EmptyString => true
  | String ch s' => negb (Ascii.eqb ch ":") && colon_free s'
  end.

End WorkingKeys.

Module LongtermSpec.

(** The table after the writes [ws], oldest first; each is a call of
    [update_memory] by the handler of the given tenant. *)
Fixpoint after_writes (e : env) (ws : list (string * Longterm.LongTermMemoryCreate))
    (t : DynamoDB.table) : DynamoDB.table :=
  match ws with
  | [] => t
  | (tenant, memory_data) :: ws' =>
      after_writes e ws' (snd (Longterm.update_memory e tenant memory_data t))
  end.

(** The item [update_memory] writes. *)
Definition item_of (e : env) (tenant : string) (memory_data : Longterm.LongTermMemoryCreate)
    : gmap string Py.pyval :=
  <["id" := Py.PStr (match Longterm.c_id memory_data with
                     | Some i => if String.eqb i "" then Http.generate_id e "ltm" else i
                     | None => Http.generate_id e "ltm"
                     end)]>
  (<["entity_id" := Py.PStr (Longterm.c_entity_id memory_data)]>
  (<["summary" := Py.PStr (Longterm.c_summary memory_data)]>
  (<["metadata" := Py.PDict (Working.or_dict (Longterm.c_metadata memory_data) ∅)]>
  (<["timestamp" := Py.PStr (now e)]>
  (<["tenant_id" := Py.PStr tenant]> ∅))))).

(** The items a read of [tenant] for [eid] selects. *)
Definition scoped (tenant eid : string) (l : list (gmap string Py.pyval))
    : list (gmap string Py.pyval) :=
  List.filter (DynamoDB.holds (DynamoDB.Eq "tenant_id" tenant))
    (List.filter (DynamoDB.holds (DynamoDB.Eq "entity_id" eid)) l).

End LongtermSpec.

Module TextSpec.

(** Every character of [s] satisfies [p]. *)
Fixpoint all_chars (p : ascii -> bool) (s : string) : bool :=
  match s with
  | EmptyString => true
  | String ch s' => p ch && all_chars p s'
  end.

(** [0-9a-f] *)
Definition lower_hex (ch : ascii) : bool :=
  let n := N_of_ascii ch in
  ((48 <=? n) && (n <=? 57) || (97 <=? n) && (n <=? 102))%N.

(** A character [int(_, 16)] accepts. *)
Definition hex_char (ch : ascii) : bool :=
  match Semantic.hex_value ch with Some _ => true | None => false end.

End TextSpec.

Module HandlerSpec.

(** A string of ASCII characters, on which [upper] is what the model of
    [Http.upper] computes. *)
Definition ascii_only (s : string) : Prop :=
  TextSpec.all_chars (fun ch => (N_of_ascii ch <? 128)%N) s = true.

End HandlerSpec.

Module SemanticSpec.

(** Component [i] of the placeholder embedding for the digest [h]. *)
Definition component (h : string) (i : nat) : float :=
  match String.get (i mod 32) h with
  | Some ch =>
      match Semantic.hex_value ch with
      | Some d => (PrimFloat.of_uint63 (Uint63.of_Z d) / 15 - 1)%float
      | None => 0%float
      end
  | None => 0%float
  end.

(** [-1 <= x <= 1] on floats *)
Definition in_unit_range (x : float) : Prop :=
  PrimFloat.leb (-1)%float x = true /\ PrimFloat.leb x 1%float = true.

(** What the Lambda does once the adapter is made. *)
Definition dispatched (e : env) (ev : Http.event) (adapter : OpenSearch.client)
    : Http.response * OpenSearch.client :=
  let internal := Http.create_error_response e 500 "Internal server error" in
  if String.eqb (Http.method_of ev "") "POST" then
    match Semantic.handle_add_memory e ev adapter with
    | (Py.Ok r, adapter') => (r, adapter')
    | (Py.Raise _, adapter') => (internal, adapter')
    end
  else if String.eqb (Http.method_of ev "") "GET" then
    match Semantic.handle_query_memory e ev adapter with
    | Py.Ok r => (r, adapter)
    | Py.Raise _ => (internal, adapter)
    end
  else (Http.create_error_response e 405 ("Unsupported method: " ++ Http.method_of ev ""),
        adapter).

End SemanticSpec.

Module MoreSamples.
Import Py.

(** A semantic write whose [metadata] names a tenant and an agent of its
    own, next to a key the handler does not stamp. *)
Definition stamped_event : Http.event :=
  {| Http.httpMethod := Some "POST";
     Http.headers := None;
     Http.queryStringParameters := None;
     Http.ev_body :=
       Some (<["content" := PStr "a"]>
            (<["tenant_id" := PStr "tenant-a"]>
            (<["metadata" := PDict (<["tenant_id" := PStr "tenant-z"]>
                                   (<["agent_id" := PStr "agent-z"]>
                                   (<["topic" := PStr "pets"]> ∅)))]> ∅))) |}.

(** A semantic write that brings an embedding of two components. *)
Definition short_embedding_event : Http.event :=
  {| Http.httpMethod := Some "POST";
     Http.headers := None;
     Http.queryStringParameters := None;
     Http.ev_body :=
       Some (<["content" := PStr "a"]>
            (<["embedding" := PList [PFloat 0.5; PFloat 0.25]]> ∅)) |}.

End MoreSamples.

(** * Properties *)

Example sha256_empty :
  SHA256.hexdigest "" = "e3b0c44298fc1c149afbf4c8996fb92427ae41e4649b934ca495991b7852b855".
Proof. vm_compute. reflexivity. Qed.

Example sha256_abc :
  SHA256.hexdigest "abc" = "ba7816bf8f01cfea414140de5dae2223b00361a396177a9cb410ff61f20015ad".
Proof. vm_compute. reflexivity. Qed.

Example sha256_two_blocks :
  SHA256.hexdigest
    "hello world, this is a message longer than fifty-five bytes to need two blocks!"
  = "d2e8afd0c520e7d86a0acabdc332f701f0cce256a6cf00e24497de9f87752478".
Proof. vm_compute. reflexivity. Qed.

Example hash_content_a : Utils.hash_content "a" = "ca978112ca1bbdca".
Proof. vm_compute. reflexivity. Qed.

(** The threshold filter of the design document's example. *)
Example threshold_filter :
  Utils.merge_and_rank_results [Samples.cand_a; Samples.cand_low] 10 (7 # 10)
  = [Samples.cand_a].
Proof. vm_compute. reflexivity. Qed.

Example merge_demo :
  Utils.merge_and_rank_results [Samples.cand_b; Samples.dup_lo; Samples.cand_x; Samples.dup_hi] 10 (7#10)
  = [Samples.cand_x; Samples.dup_hi; Samples.cand_b].
Proof. vm_compute. reflexivity. Qed.

(** ** Ranking and deduplication ([merge_and_rank_results]) *)

Module RankingFacts.
Import Py Utils RankingSpec.

(** *** The order on sort keys *)

Lemma ascii_compare_trans (a b c : ascii) :
  Ascii.compare a b = Lt -> Ascii.compare b c = Lt -> Ascii.compare a c = Lt.
Proof.
  unfold Ascii.compare. rewrite !N.compare_lt_iff. apply N.lt_trans.
Qed.

Lemma string_lt_trans (s1 s2 s3 : string) :
  String.compare s1 s2 = Lt -> String.compare s2 s3 = Lt -> String.compare s1 s3 = Lt.
Proof.
  revert s2 s3. induction s1 as [|a s1 IH]; intros [|b s2] [|c s3]; simpl; try congruence.
  destruct (Ascii.compare a b) eqn:Hab; try discriminate;
    destruct (Ascii.compare b c) eqn:Hbc; try discriminate; intros H12 H23.
  - apply Ascii.compare_eq_iff in Hab, Hbc. subst.
    replace (Ascii.compare c c) with Eq
      by (symmetry; unfold Ascii.compare; apply N.compare_refl).
    eauto.
  - apply Ascii.compare_eq_iff in Hab. subst. now rewrite Hbc.
  - apply Ascii.compare_eq_iff in Hbc. subst. now rewrite Hab.
  - now rewrite (ascii_compare_trans _ _ _ Hab Hbc).
Qed.

Lemma string_compare_refl (s : string) : String.compare s s = Eq.
Proof.
  induction s as [|a s IH]; simpl; [reflexivity|].
  replace (Ascii.compare a a) with Eq; [assumption|].
  symmetry. unfold Ascii.compare. apply N.compare_refl.
Qed.

(** [key_lt] is the lexicographic order: score first, then timestamp. *)
Lemma key_lt_spec (k1 k2 : Q * string) :
  key_lt k1 k2 = true <->
  (fst k1 < fst k2)%Q \/ ((fst k1 == fst k2)%Q /\ String.compare (snd k1) (snd k2) = Lt).
Proof.
  unfold key_lt, String.ltb. destruct (Qeq_bool (fst k1) (fst k2)) eqn:E.
  - apply Qeq_bool_eq in E. split.
    + destruct (String.compare (snd k1) (snd k2)); try discriminate. auto.
    + intros [H | [_ H]]; [|now rewrite H].
      exfalso. apply (Qlt_not_eq _ _ H E).
  - apply Qeq_bool_neq in E. rewrite negb_true_iff. split.
    + intros H. left. apply Qnot_le_lt. intros Hle.
      apply Qle_bool_iff in Hle. congruence.
    + intros [H | [H _]]; [|contradiction].
      destruct (Qle_bool (fst k2) (fst k1)) eqn:Hle; [|reflexivity].
      apply Qle_bool_iff in Hle. exfalso. apply (Qlt_not_le _ _ H Hle).
Qed.

Lemma key_lt_asym (k1 k2 : Q * string) : key_lt k1 k2 = true -> key_lt k2 k1 = false.
Proof.
  intros H. apply not_true_is_false. intros H'.
  apply key_lt_spec in H, H'.
  destruct H as [H | [He H]], H' as [H' | [He' H']].
  - apply (Qlt_irrefl (fst k1)). eapply Qlt_trans; eassumption.
  - apply (Qlt_not_eq _ _ H). now symmetry.
  - apply (Qlt_not_eq _ _ H'). now symmetry.
  - pose proof (string_lt_trans _ _ _ H H') as Hc.
    rewrite string_compare_refl in Hc. discriminate.
Qed.

(** "Does not sort after": the complement of [key_lt] is transitive. *)
Lemma key_ge_trans (a b c : Q * string) :
  key_lt a b = false -> key_lt b c = false -> key_lt a c = false.
Proof.
  intros Hab Hbc. apply not_true_is_false. intros Hac.
  apply not_true_iff_false in Hab, Hbc.
  rewrite key_lt_spec in Hab, Hbc. apply key_lt_spec in Hac.
  destruct (Qlt_le_dec (fst a) (fst b)) as [Hlt | Hle]; [apply Hab; auto|].
  destruct (Qlt_le_dec (fst b) (fst c)) as [Hlt' | Hle']; [apply Hbc; auto|].
  destruct Hac as [Hac | [Heq Hs]].
  - apply (Qlt_irrefl (fst a)).
    eapply Qlt_le_trans; [eassumption|]. eapply Qle_trans; eassumption.
  - assert (Hab' : (fst a == fst b)%Q).
    { apply Qle_antisym; [|assumption]. rewrite Heq. assumption. }
    assert (Hbc' : (fst b == fst c)%Q) by (rewrite <- Hab'; assumption).
    destruct (String.compare (snd a) (snd b)) eqn:C1.
    + apply String.compare_eq_iff in C1. apply Hbc. right. split; [assumption|].
      now rewrite <- C1.
    + apply Hab. auto.
    + apply Hbc. right. split; [assumption|].
      apply string_lt_trans with (snd a); [|assumption].
      rewrite String.compare_antisym, C1. reflexivity.
Qed.

(** *** Sorting *)

Lemma insert_desc_In x y l : In y (insert_desc x l) <-> y = x \/ In y l.
Proof.
  induction l as [|z l IH]; simpl; [intuition|].
  destruct (key_lt (sort_key x) (sort_key z)); simpl; [rewrite IH|]; intuition.
Qed.

Lemma sorted_reverse_In x l : In x (sorted_reverse l) <-> In x l.
Proof.
  induction l as [|y l IH]; simpl; [reflexivity|].
  rewrite insert_desc_In, IH. intuition.
Qed.

Lemma insert_desc_sorted x l :
  StronglySorted ge_key l -> StronglySorted ge_key (insert_desc x l).
Proof.
  induction 1 as [|y l Hs IH Hall]; simpl.
  - repeat constructor.
  - destruct (key_lt (sort_key x) (sort_key y)) eqn:Hxy.
    + constructor; [assumption|].
      apply List.Forall_forall. intros z Hz. apply insert_desc_In in Hz as [-> | Hz].
      * now apply key_lt_asym.
      * rewrite List.Forall_forall in Hall. now apply Hall.
    + constructor; [now constructor|].
      constructor; [exact Hxy|].
      rewrite List.Forall_forall in Hall |- *. intros z Hz.
      eapply key_ge_trans; [exact Hxy | now apply Hall].
Qed.

Lemma sorted_reverse_sorted l : StronglySorted ge_key (sorted_reverse l).
Proof.
  induction l as [|x l IH]; simpl; [constructor | now apply insert_desc_sorted].
Qed.

(** Sorting a list that is already in order gives it back: the sort is
    stable, so equal keys are not swapped. *)
Lemma sorted_reverse_id l : StronglySorted ge_key l -> sorted_reverse l = l.
Proof.
  induction 1 as [|x l Hs IH Hall]; simpl; [reflexivity|].
  rewrite IH. destruct l as [|y l']; [reflexivity|]. simpl.
  inversion Hall as [|? ? Hxy _]; subst. unfold ge_key in Hxy. now rewrite Hxy.
Qed.

Lemma StronglySorted_sublist {A} (R : A -> A -> Prop) (l1 l2 : list A) :
  l1 `sublist_of` l2 -> StronglySorted R l2 -> StronglySorted R l1.
Proof.
  induction 1 as [|x l1 l2 Hsub IH|x l1 l2 Hsub IH]; intros Hs.
  - constructor.
  - inversion Hs as [|? ? Hs' Hall]; subst. constructor; [auto|].
    rewrite List.Forall_forall in Hall |- *. intros y Hy. apply Hall.
    apply list_elem_of_In. eapply elem_of_sublist; [|exact Hsub].
    now apply list_elem_of_In.
  - inversion Hs; subst. auto.
Qed.

(** *** Deduplication *)

Lemma not_seen_after_add (h h' : string) (seen : gset string) :
  h <> h' -> h ∉ seen -> h ∉ ({[h']} ∪ seen : gset string).
Proof.
  intros Hne Hs Hu. apply elem_of_union in Hu as [Hu | Hu]; [|exact (Hs Hu)].
  apply elem_of_singleton in Hu. exact (Hne Hu).
Qed.

Lemma unique_loop_sublist seen l : unique_loop seen l `sublist_of` l.
Proof.
  revert seen. induction l as [|r l IH]; intros seen; simpl; [constructor|].
  destruct (decide _); [apply sublist_cons | apply sublist_skip]; apply IH.
Qed.

Lemma unique_loop_fresh seen l x :
  In x (unique_loop seen l) -> fingerprint x ∉ seen.
Proof.
  revert seen. induction l as [|r l IH]; intros seen; simpl; [tauto|].
  destruct (decide _) as [Hin | Hnin]; [apply IH|].
  intros [<- | Hx]; [exact Hnin|].
  apply IH in Hx. set_solver.
Qed.

Lemma unique_loop_NoDup seen l : NoDup (map fingerprint (unique_loop seen l)).
Proof.
  revert seen. induction l as [|r l IH]; intros seen; simpl; [constructor|].
  destruct (decide _) as [Hin | Hnin]; [apply IH|].
  simpl. constructor; [|apply IH].
  intros Hr. apply list_elem_of_In, in_map_iff in Hr as (y & Hy & Hin).
  apply unique_loop_fresh in Hin. unfold fingerprint in Hy, Hin.
  rewrite Hy in Hin. set_solver.
Qed.

(** Nothing is dropped from a list whose fingerprints are distinct and not
    yet seen. *)
Lemma unique_loop_id seen l :
  NoDup (map fingerprint l) -> (forall x, In x l -> fingerprint x ∉ seen) ->
  unique_loop seen l = l.
Proof.
  revert seen. induction l as [|r l IH]; intros seen Hnd Hfresh; simpl; [reflexivity|].
  apply NoDup_cons in Hnd as [Hr Hnd].
  destruct (decide _) as [Hin | Hnin].
  - exfalso. apply (Hfresh r); [now left | exact Hin].
  - f_equal. apply IH; [assumption|]. intros x Hx.
    assert (fingerprint x <> fingerprint r).
    { intros Heq. apply Hr. rewrite <- Heq.
      apply list_elem_of_In, in_map. assumption. }
    apply not_seen_after_add; [assumption | apply Hfresh; now right].
Qed.

(** *** Truncation *)

Lemma slice_to_sublist {A} (l : list A) n : slice_to l n `sublist_of` l.
Proof. unfold slice_to. destruct (0 <=? n); apply sublist_take. Qed.

Lemma slice_to_id {A} (l : list A) n :
  0 <= n -> (Z.of_nat (length l) <= n) -> slice_to l n = l.
Proof.
  intros Hn Hlen. unfold slice_to.
  destruct (0 <=? n) eqn:E; [|apply Z.leb_gt in E; lia].
  apply take_ge. lia.
Qed.

Lemma slice_to_length {A} (l : list A) n :
  0 <= n -> Z.of_nat (length (slice_to l n)) <= n.
Proof.
  intros Hn. unfold slice_to.
  destruct (0 <=? n) eqn:E; [|apply Z.leb_gt in E; lia].
  rewrite length_take. lia.
Qed.

(** *** The shape of the output *)

Lemma merge_sublist_sorted results max_results thr :
  merge_and_rank_results results max_results thr
    `sublist_of` sorted_reverse (List.filter (passes thr) results).
Proof.
  unfold merge_and_rank_results.
  etransitivity; [apply slice_to_sublist | apply unique_loop_sublist].
Qed.

Lemma merge_In results max_results thr x :
  In x (merge_and_rank_results results max_results thr) ->
  In x results /\ passes thr x = true.
Proof.
  intros Hx. apply list_elem_of_In in Hx.
  eapply elem_of_sublist in Hx; [|apply merge_sublist_sorted].
  apply list_elem_of_In, sorted_reverse_In, List.filter_In in Hx. exact Hx.
Qed.

Lemma merge_sorted results max_results thr :
  StronglySorted ge_key (merge_and_rank_results results max_results thr).
Proof.
  eapply StronglySorted_sublist; [apply merge_sublist_sorted|].
  apply sorted_reverse_sorted.
Qed.

Lemma merge_NoDup results max_results thr :
  NoDup (map fingerprint (merge_and_rank_results results max_results thr)).
Proof.
  unfold merge_and_rank_results.
  eapply sublist_NoDup; [apply unique_loop_NoDup|].
  apply (fmap_sublist fingerprint). apply slice_to_sublist.
Qed.

Lemma filter_id {A} (p : A -> bool) (l : list A) :
  (forall x, In x l -> p x = true) -> List.filter p l = l.
Proof.
  induction l as [|x l IH]; intros H; simpl; [reflexivity|].
  rewrite (H x (or_introl eq_refl)). f_equal. apply IH. intros y Hy. apply H. now right.
Qed.

(** A kept element is the first of its fingerprint. *)
Lemma unique_loop_first seen l x :
  In x (unique_loop seen l) ->
  exists l1 l2, l = (l1 ++ x :: l2)%list /\
                forall y, In y l1 -> fingerprint y <> fingerprint x.
Proof.
  revert seen. induction l as [|r l IH]; intros seen; simpl; [tauto|].
  destruct (decide _) as [Hin | Hnin].
  - intros Hx. pose proof (unique_loop_fresh _ _ _ Hx) as Hfx.
    destruct (IH _ Hx) as (l1 & l2 & -> & Hl1).
    exists (r :: l1), l2. split; [reflexivity|].
    intros y [<- | Hy]; [|now apply Hl1].
    intros Heq. apply Hfx. rewrite <- Heq. exact Hin.
  - intros [<- | Hx].
    + exists [], l. split; [reflexivity|]. intros y [].
    + pose proof (unique_loop_fresh _ _ _ Hx) as Hfx.
      destruct (IH _ Hx) as (l1 & l2 & -> & Hl1).
      exists (r :: l1), l2. split; [reflexivity|].
      intros y [<- | Hy]; [|now apply Hl1].
      intros Heq. apply Hfx. unfold fingerprint in Heq. set_solver.
Qed.

(** In sorted input, a candidate that outranks every other candidate of
    its fingerprint is kept. *)
Lemma unique_loop_keeps_best seen l a :
  StronglySorted ge_key l -> In a l -> fingerprint a ∉ seen ->
  (forall y, In y l -> fingerprint y = fingerprint a ->
             y = a \/ key_lt (sort_key y) (sort_key a) = true) ->
  In a (unique_loop seen l).
Proof.
  intros Hs. revert seen.
  induction Hs as [|y l Hs IH Hall]; intros seen Ha Hfa Hbest; simpl; [contradiction|].
  rewrite List.Forall_forall in Hall.
  assert (Hrest : forall z, In z l -> fingerprint z = fingerprint a ->
                            z = a \/ key_lt (sort_key z) (sort_key a) = true)
    by (intros z Hz; apply Hbest; now right).
  destruct (decide _) as [Hin | Hnin].
  - destruct Ha as [-> | Ha]; [contradiction|]. now apply IH.
  - destruct Ha as [-> | Ha]; [now left|].
    destruct (decide (fingerprint y = fingerprint a)) as [Heq | Hne].
    + destruct (Hbest y (or_introl eq_refl) Heq) as [-> | Hlt]; [now left|].
      specialize (Hall a Ha). unfold ge_key in Hall. congruence.
    + right. apply IH; [assumption| |assumption].
      apply not_seen_after_add; [|assumption].
      intros E. apply Hne. symmetry. exact E.
Qed.

Lemma StronglySorted_app_tail {A} (R : A -> A -> Prop) (l1 l2 : list A) :
  StronglySorted R (l1 ++ l2) -> StronglySorted R l2.
Proof.
  induction l1 as [|x l1 IH]; simpl; [tauto|].
  intros H. inversion H; subst. auto.
Qed.

Lemma score_lt_key_lt (a b : result) :
  (relevance_score b < relevance_score a)%Q -> key_lt (sort_key b) (sort_key a) = true.
Proof. intros H. apply key_lt_spec. left. exact H. Qed.

(** *** Truncation comes last *)

Lemma insert_desc_length x l : length (insert_desc x l) = S (length l).
Proof.
  induction l as [|y l IH]; simpl; [reflexivity|].
  destruct (key_lt _ _); simpl; [now rewrite IH | reflexivity].
Qed.

Lemma sorted_reverse_length l : length (sorted_reverse l) = length l.
Proof.
  induction l as [|x l IH]; simpl; [reflexivity|].
  now rewrite insert_desc_length, IH.
Qed.

Lemma unique_length_le results thr :
  (length (unique_loop ∅ (sorted_reverse (List.filter (passes thr) results)))
   <= length results)%nat.
Proof.
  etransitivity; [apply sublist_length, unique_loop_sublist|].
  rewrite sorted_reverse_length. apply List.filter_length_le.
Qed.

Lemma ranked_unfold results thr :
  ranked results thr = unique_loop ∅ (sorted_reverse (List.filter (passes thr) results)).
Proof.
  unfold ranked, merge_and_rank_results. apply slice_to_id; [lia|].
  pose proof (unique_length_le results thr). lia.
Qed.

(** The output is the whole ranking cut by [[:max_results]]. *)
Lemma merge_is_ranked_cut results max_results thr :
  merge_and_rank_results results max_results thr
  = slice_to (ranked results thr) max_results.
Proof. rewrite ranked_unfold. reflexivity. Qed.

Lemma slice_to_kept {A} (l : list A) n : length (slice_to l n) = kept (length l) n.
Proof.
  unfold slice_to, kept. destruct (0 <=? n) eqn:E; rewrite length_take; [reflexivity|].
  apply Z.leb_gt in E. lia.
Qed.

(** In a list without repetition, [[:n]] keeps the element at index [i]
    exactly when [i] is below the number of elements kept. *)
Lemma slice_to_In {A} (l : list A) (n : Z) (i : nat) (x : A) :
  NoDup l -> l !! i = Some x ->
  In x (slice_to l n) <-> (i < kept (length l) n)%nat.
Proof.
  intros Hnd Hi. pose proof (lookup_lt_Some _ _ _ Hi) as Hlt.
  rewrite <- list_elem_of_In.
  assert (Htake : forall k, x ∈ take k l <-> (i < k)%nat).
  { intros k. rewrite elem_of_take. split.
    - intros (j & Hj & Hjk). now rewrite (NoDup_lookup l i j x Hnd Hi Hj).
    - intros Hik. eauto. }
  unfold slice_to, kept. destruct (0 <=? n) eqn:E; rewrite Htake; [lia|].
  apply Z.leb_gt in E. lia.
Qed.

Lemma ranked_NoDup results thr : NoDup (ranked results thr).
Proof. apply (NoDup_fmap_1 fingerprint). apply merge_NoDup. Qed.

End RankingFacts.

(** C6, as amended.  Ranking is idempotent when [max_results] is not
    negative: applying [merge_and_rank_results] to its own output, with the
    same [max_results] and threshold, returns that output unchanged. *)
Theorem merge_and_rank_idempotent
    (results : list Utils.result) (max_results : Z) (relevance_threshold : Q) :
  0 <= max_results ->
  Utils.merge_and_rank_results
    (Utils.merge_and_rank_results results max_results relevance_threshold)
    max_results relevance_threshold
  = Utils.merge_and_rank_results results max_results relevance_threshold.
Proof.
  intros Hmax.
  set (out := Utils.merge_and_rank_results results max_results relevance_threshold).
  assert (Hlen : Z.of_nat (length out) <= max_results)
    by (apply RankingFacts.slice_to_length; assumption).
  unfold Utils.merge_and_rank_results at 1.
  rewrite RankingFacts.filter_id
    by (intros x Hx; apply (RankingFacts.merge_In _ _ _ _ Hx)).
  rewrite RankingFacts.sorted_reverse_id by apply RankingFacts.merge_sorted.
  rewrite RankingFacts.unique_loop_id;
    [ | apply RankingFacts.merge_NoDup | intros; set_solver ].
  apply RankingFacts.slice_to_id; assumption.
Qed.

Lemma merge_and_rank_idempotent_witness :
  Utils.merge_and_rank_results
    (Utils.merge_and_rank_results
       [Samples.cand_b; Samples.dup_lo; Samples.cand_x; Samples.dup_hi] 10 (7 # 10))
    10 (7 # 10)
  = Utils.merge_and_rank_results
      [Samples.cand_b; Samples.dup_lo; Samples.cand_x; Samples.dup_hi] 10 (7 # 10).
Proof. apply merge_and_rank_idempotent. lia. Defined.

(** C6, as stated, fails for a negative [max_results]: the slice
    [unique_results[:-1]] drops the last element each time it is applied. *)
Lemma merge_and_rank_not_idempotent_negative_max :
  Utils.merge_and_rank_results [Samples.cand_a; Samples.cand_b] (-1) 0 = [Samples.cand_a]
  /\ Utils.merge_and_rank_results
       (Utils.merge_and_rank_results [Samples.cand_a; Samples.cand_b] (-1) 0) (-1) 0
     = []
  /\ Utils.merge_and_rank_results
       (Utils.merge_and_rank_results [Samples.cand_a; Samples.cand_b] (-1) 0) (-1) 0
     <> Utils.merge_and_rank_results [Samples.cand_a; Samples.cand_b] (-1) 0.
Proof. vm_compute. repeat split; discriminate. Qed.

(** C7, as amended.  Of two candidates with the same content that both
    pass the threshold, the one with the lower score is never in the
    output, whatever [max_results] is.  The one with the higher score, when
    it outranks every other candidate of its fingerprint that passes the
    threshold, has a place in the whole ranking, and it is in the output
    exactly when that place is among those [[:max_results]] keeps: the
    output is the whole ranking cut by [[:max_results]]. *)
Theorem dedup_keeps_higher_ranked
    (results : list Utils.result) (a b : Utils.result)
    (max_results : Z) (relevance_threshold : Q) :
  In a results -> In b results ->
  Utils.content a = Utils.content b ->
  (Utils.relevance_score b < Utils.relevance_score a)%Q ->
  Utils.passes relevance_threshold a = true ->
  Utils.passes relevance_threshold b = true ->
  ~ In b (Utils.merge_and_rank_results results max_results relevance_threshold)
  /\ Utils.merge_and_rank_results results max_results relevance_threshold
     = Py.slice_to (RankingSpec.ranked results relevance_threshold) max_results
  /\ ((forall x, In x results -> Utils.passes relevance_threshold x = true ->
                Utils.hash_content (Utils.content x) = Utils.hash_content (Utils.content a) ->
                x = a \/ Utils.key_lt (Utils.sort_key x) (Utils.sort_key a) = true) ->
      exists i,
        RankingSpec.ranked results relevance_threshold !! i = Some a
        /\ (In a (Utils.merge_and_rank_results results max_results relevance_threshold)
            <-> (i < RankingSpec.kept
                       (length (RankingSpec.ranked results relevance_threshold))
                       max_results)%nat)).
Proof.
  intros Ha Hb Hc Hlt Hpa Hpb.
  pose proof (RankingFacts.score_lt_key_lt _ _ Hlt) as Hkey.
  set (S := Utils.sorted_reverse (List.filter (Utils.passes relevance_threshold) results)).
  assert (HS : StronglySorted RankingSpec.ge_key S)
    by apply RankingFacts.sorted_reverse_sorted.
  assert (HaS : In a S)
    by (apply RankingFacts.sorted_reverse_In, List.filter_In; auto).
  split; [|split; [apply RankingFacts.merge_is_ranked_cut|]].
  - intros Hin. apply list_elem_of_In in Hin.
    eapply elem_of_sublist in Hin; [|apply RankingFacts.slice_to_sublist].
    apply list_elem_of_In, RankingFacts.unique_loop_first in Hin
      as (l1 & l2 & HSeq & Hl1).
    fold S in HSeq. rewrite HSeq in HS, HaS.
    apply in_app_or in HaS as [Ha1 | [Hab | Ha2]].
    + apply (Hl1 a Ha1). unfold RankingSpec.fingerprint. now rewrite Hc.
    + subst b. apply (Qlt_irrefl _ Hlt).
    + apply RankingFacts.StronglySorted_app_tail in HS.
      inversion HS as [|? ? _ Hall]; subst.
      rewrite List.Forall_forall in Hall. specialize (Hall a Ha2).
      unfold RankingSpec.ge_key in Hall. congruence.
  - intros Hbest.
    assert (Hin : In a (RankingSpec.ranked results relevance_threshold)).
    { rewrite RankingFacts.ranked_unfold. fold S.
      apply RankingFacts.unique_loop_keeps_best; [assumption | assumption | set_solver |].
      intros y Hy. apply RankingFacts.sorted_reverse_In, List.filter_In in Hy.
      apply Hbest; tauto. }
    apply list_elem_of_In, list_elem_of_lookup_1 in Hin as [i Hi].
    exists i. split; [exact Hi|].
    rewrite RankingFacts.merge_is_ranked_cut.
    apply RankingFacts.slice_to_In; [apply RankingFacts.ranked_NoDup | exact Hi].
Qed.

Lemma dedup_keeps_higher_ranked_witness :
  ~ In Samples.dup_lo
      (Utils.merge_and_rank_results [Samples.dup_hi; Samples.dup_lo; Samples.cand_b] 2 (7 # 10))
  /\ In Samples.dup_hi
       (Utils.merge_and_rank_results [Samples.dup_hi; Samples.dup_lo; Samples.cand_b] 2 (7 # 10)).
Proof.
  destruct (dedup_keeps_higher_ranked
              [Samples.dup_hi; Samples.dup_lo; Samples.cand_b]
              Samples.dup_hi Samples.dup_lo 2 (7 # 10)) as (Hlo & _ & Hhi).
  - simpl; tauto.
  - simpl; tauto.
  - reflexivity.
  - reflexivity.
  - reflexivity.
  - reflexivity.
  - split; [exact Hlo|].
    destruct Hhi as (i & Hi & Hiff).
    + intros x [<- | [<- | [<- | []]]]; vm_compute; intros; try discriminate; auto.
    + apply Hiff.
      assert (Hlen : (i < 2)%nat) by (apply lookup_lt_Some in Hi; vm_compute in Hi; lia).
      destruct i as [|[|i]]; [| |lia]; vm_compute in Hi |- *; try discriminate; lia.
Defined.

(** C7, as stated, fails: with [max_results = 1] and a better-ranked third
    candidate, neither of the two duplicates is in the output. *)
Lemma dedup_not_exactly_one_when_truncated :
  Utils.content Samples.dup_hi = Utils.content Samples.dup_lo
  /\ Utils.r_id Samples.dup_hi <> Utils.r_id Samples.dup_lo
  /\ (Utils.relevance_score Samples.dup_lo < Utils.relevance_score Samples.dup_hi)%Q
  /\ Utils.passes (7 # 10) Samples.dup_hi = true
  /\ Utils.passes (7 # 10) Samples.dup_lo = true
  /\ Utils.merge_and_rank_results
       [Samples.cand_x; Samples.dup_hi; Samples.dup_lo] 1 (7 # 10) = [Samples.cand_x]
  /\ ~ In Samples.dup_hi
         (Utils.merge_and_rank_results
            [Samples.cand_x; Samples.dup_hi; Samples.dup_lo] 1 (7 # 10))
  /\ ~ In Samples.dup_lo
         (Utils.merge_and_rank_results
            [Samples.cand_x; Samples.dup_hi; Samples.dup_lo] 1 (7 # 10)).
Proof.
  repeat split; try (vm_compute; congruence).
  - vm_compute. intros [H | []]. discriminate.
  - vm_compute. intros [H | []]. discriminate.
Qed.

(** ** Binary64 facts behind the similarity function *)

Module FloatFacts.
Import SimilaritySpec.

Lemma digits2_lower (p : positive) : 2 ^ (Zpos (digits2_pos p) - 1) <= Zpos p.
Proof.
  induction p as [p IH|p IH|]; cbn [digits2_pos].
  - rewrite Pos2Z.inj_succ. replace (Z.succ (Zpos (digits2_pos p)) - 1)
      with (Z.succ (Zpos (digits2_pos p) - 1)) by lia.
    rewrite Z.pow_succ_r by lia. lia.
  - rewrite Pos2Z.inj_succ. replace (Z.succ (Zpos (digits2_pos p)) - 1)
      with (Z.succ (Zpos (digits2_pos p) - 1)) by lia.
    rewrite Z.pow_succ_r by lia. lia.
  - simpl. lia.
Qed.

Lemma digits2_upper (p : positive) : Zpos p < 2 ^ Zpos (digits2_pos p).
Proof.
  induction p as [p IH|p IH|]; cbn [digits2_pos].
  - rewrite Pos2Z.inj_succ, Z.pow_succ_r by lia. lia.
  - rewrite Pos2Z.inj_succ, Z.pow_succ_r by lia. lia.
  - simpl. lia.
Qed.

(** One step of the right shift halves the mantissa. *)
Lemma shr_1_m (mrs : shr_record) :
  0 <= shr_m mrs -> shr_m (shr_1 mrs) = shr_m mrs / 2.
Proof.
  destruct mrs as [m r s]. cbn [shr_m shr_1]. intros Hm.
  destruct m as [|[p|p|]|p]; cbn [shr_m]; try lia; try reflexivity.
  - apply Z.div_unique with 1; lia.
  - apply Z.div_unique with 0; lia.
Qed.

Lemma shr_iter_m (n : positive) (mrs : shr_record) :
  0 <= shr_m mrs -> shr_m (SpecFloat.iter_pos shr_1 n mrs) = shr_m mrs / 2 ^ Zpos n.
Proof.
  revert mrs. induction n as [n IH|n IH|]; intros mrs Hm; cbn [SpecFloat.iter_pos].
  - assert (H1 : 0 <= shr_m (shr_1 mrs))
      by (rewrite shr_1_m by assumption; apply Z.div_pos; lia).
    assert (H2 : 0 <= shr_m (SpecFloat.iter_pos shr_1 n (shr_1 mrs)))
      by (rewrite IH by assumption; apply Z.div_pos; [assumption|apply Z.pow_pos_nonneg; lia]).
    rewrite IH, IH, shr_1_m by assumption.
    rewrite !Z.div_div by (first [apply Z.pow_nonzero; lia | apply Z.pow_pos_nonneg; lia | lia]).
    f_equal. assert (E : Zpos n~1 = 1 + Zpos n + Zpos n) by lia.
    rewrite E, !Z.pow_add_r by lia. change (2 ^ 1) with 2. ring.
  - assert (H2 : 0 <= shr_m (SpecFloat.iter_pos shr_1 n mrs))
      by (rewrite IH by assumption; apply Z.div_pos; [assumption|apply Z.pow_pos_nonneg; lia]).
    rewrite IH, IH by assumption.
    rewrite Z.div_div by (first [apply Z.pow_nonzero; lia | apply Z.pow_pos_nonneg; lia | lia]).
    f_equal. assert (E : Zpos n~0 = Zpos n + Zpos n) by lia.
    now rewrite E, Z.pow_add_r by lia.
  - rewrite shr_1_m by assumption. reflexivity.
Qed.

Lemma shr_record_of_loc_m m l : shr_m (shr_record_of_loc m l) = m.
Proof. destruct l as [|[]]; reflexivity. Qed.

Lemma pow2_div (a b : Z) : 0 <= b <= a -> 2 ^ a / 2 ^ b = 2 ^ (a - b).
Proof.
  intros H. replace a with ((a - b) + b) at 1 by lia.
  rewrite Z.pow_add_r by lia. apply Z.div_mul.
  apply Z.pow_nonzero; lia.
Qed.

Lemma shr_fexp_at_least (k m e : Z) (l : location) :
  emin <= k -> at_least k m e ->
  at_least k (shr_m (fst (shr_fexp prec emax m e l))) (snd (shr_fexp prec emax m e l)).
Proof.
  intros Hk [H1 H2]. unfold shr_fexp, shr.
  destruct m as [|p|p]; try lia. cbn [Zdigits2].
  pose proof (digits2_lower p) as Hlo. pose proof (digits2_upper p) as Hup.
  set (d := Zpos (digits2_pos p)) in *.
  assert (Hd : 1 <= d) by (unfold d; lia).
  destruct (fexp prec emax (d + e) - e) as [|n|n] eqn:Hn; cbn [fst snd];
    rewrite ?shr_record_of_loc_m; try (split; assumption).
  rewrite shr_iter_m by (rewrite shr_record_of_loc_m; lia).
  rewrite shr_record_of_loc_m.
  unfold fexp, FloatOps.emin, SpecFloat.emin, prec, emax in Hn, Hk.
  change (3 - 1024 - 53) with (-1074) in *.
  destruct (Z.max_spec (d + e - 53) (-1074)) as [[Hlt Hmax]|[Hge Hmax]];
    rewrite Hmax in Hn.
  - (* the exponent is pinned at emin *)
    assert (Hp : Zpos n = -1074 - e) by lia.
    assert (Hke : Zpos n <= k - e) by lia.
    assert (Hdiv : 2 ^ (k - e) / 2 ^ Zpos n <= Zpos p / 2 ^ Zpos n)
      by (apply Z.div_le_mono; [apply Z.pow_pos_nonneg; lia | assumption]).
    rewrite pow2_div in Hdiv by lia.
    assert (Hone : 1 <= 2 ^ (k - e - Zpos n))
      by (apply (Z.pow_le_mono_r 2 0); lia).
    split; [lia|]. replace (k - (e + Zpos n)) with (k - e - Zpos n) by lia. lia.
  - (* the mantissa keeps [prec] digits *)
    assert (Hp : Zpos n = d - 53) by lia.
    assert (Hdiv : 2 ^ (d - 1) / 2 ^ Zpos n <= Zpos p / 2 ^ Zpos n)
      by (apply Z.div_le_mono; [apply Z.pow_pos_nonneg; lia | assumption]).
    rewrite pow2_div in Hdiv by lia.
    replace (d - 1 - Zpos n) with 52 in Hdiv by lia.
    assert (H52 : 1 <= 2 ^ 52) by (apply (Z.pow_le_mono_r 2 0); lia).
    split; [lia|].
    destruct (Z.le_gt_cases 0 (k - (e + Zpos n))) as [Hpos|Hneg].
    + assert (Hlt : k - e < d).
      { apply (Z.pow_lt_mono_r_iff 2); lia. }
      assert (2 ^ (k - (e + Zpos n)) <= 2 ^ 52) by (apply Z.pow_le_mono_r; lia).
      lia.
    + rewrite Z.pow_neg_r by lia. lia.
Qed.

Lemma shr_fexp_not_negative (m e : Z) (l : location) :
  0 <= m -> 0 <= shr_m (fst (shr_fexp prec emax m e l)).
Proof.
  intros Hm. unfold shr_fexp, shr.
  destruct (fexp prec emax (Zdigits2 m + e) - e) as [|n|n]; cbn [fst];
    rewrite ?shr_iter_m, ?shr_record_of_loc_m; rewrite ?shr_record_of_loc_m;
    try assumption.
  apply Z.div_pos; [assumption | apply Z.pow_pos_nonneg; lia].
Qed.

Lemma round_nearest_even_le (m : Z) (l : location) : m <= round_nearest_even m l.
Proof. destruct l as [|[]]; cbn; try lia. destruct (Z.even m); lia. Qed.

(** The sign of a rounded non-negative mantissa is the sign asked for. *)
Lemma binary_round_aux_sign (s : bool) (m e : Z) (l : location) :
  0 <= m -> has_sign s (binary_round_aux prec emax s m e l).
Proof.
  intros Hm. unfold binary_round_aux.
  pose proof (shr_fexp_not_negative m e l Hm) as H1.
  destruct (shr_fexp prec emax m e l) as [mrs1 e1]. cbn [fst] in H1.
  pose proof (round_nearest_even_le (shr_m mrs1) (loc_of_shr_record mrs1)) as Hr.
  pose proof (shr_fexp_not_negative
                (round_nearest_even (shr_m mrs1) (loc_of_shr_record mrs1)) e1 loc_Exact
                ltac:(lia)) as H2.
  destruct (shr_fexp prec emax _ e1 loc_Exact) as [mrs2 e2]. cbn [fst] in H2.
  destruct (shr_m mrs2) as [|p|p]; try lia; cbn; [reflexivity|].
  destruct (e2 <=? emax - prec); reflexivity.
Qed.

(** Rounding a mantissa that stands for at least [2 ^ k], with [k] not
    below the smallest exponent, gives a finite number that still stands for
    at least [2 ^ k], or an infinity: never a zero. *)
Lemma binary_round_aux_at_least (s : bool) (k m e : Z) (l : location) :
  emin <= k -> at_least k m e -> large s k (binary_round_aux prec emax s m e l).
Proof.
  intros Hk Hm. unfold binary_round_aux.
  pose proof (shr_fexp_at_least k m e l Hk Hm) as H1.
  destruct (shr_fexp prec emax m e l) as [mrs1 e1]. cbn [fst snd] in H1.
  pose proof (round_nearest_even_le (shr_m mrs1) (loc_of_shr_record mrs1)) as Hr.
  assert (Hm1 : at_least k (round_nearest_even (shr_m mrs1) (loc_of_shr_record mrs1)) e1)
    by (destruct H1; split; lia).
  pose proof (shr_fexp_at_least k _ e1 loc_Exact Hk Hm1) as H2.
  destruct (shr_fexp prec emax _ e1 loc_Exact) as [mrs2 e2]. cbn [fst snd] in H2.
  destruct (shr_m mrs2) as [|p|p]; try (destruct H2; lia).
  destruct (e2 <=? emax - prec); cbn; [split; [reflexivity|assumption] | reflexivity].
Qed.

(** The product of two mantissas. *)
Lemma at_least_mul (k1 k2 m1 m2 e1 e2 : Z) :
  at_least k1 m1 e1 -> at_least k2 m2 e2 -> at_least (k1 + k2) (m1 * m2) (e1 + e2).
Proof.
  intros [H1 H1'] [H2 H2']. split; [nia|].
  destruct (Z.le_gt_cases 0 (k1 - e1)) as [Ha|Ha];
    destruct (Z.le_gt_cases 0 (k2 - e2)) as [Hb|Hb].
  - replace (k1 + k2 - (e1 + e2)) with ((k1 - e1) + (k2 - e2)) by lia.
    rewrite Z.pow_add_r by lia.
    assert (0 < 2 ^ (k1 - e1)) by (apply Z.pow_pos_nonneg; lia).
    assert (0 < 2 ^ (k2 - e2)) by (apply Z.pow_pos_nonneg; lia).
    nia.
  - destruct (Z.le_gt_cases 0 (k1 + k2 - (e1 + e2))) as [Hc|Hc].
    + assert (2 ^ (k1 + k2 - (e1 + e2)) <= 2 ^ (k1 - e1)) by (apply Z.pow_le_mono_r; lia).
      nia.
    + rewrite Z.pow_neg_r by lia. nia.
  - destruct (Z.le_gt_cases 0 (k1 + k2 - (e1 + e2))) as [Hc|Hc].
    + assert (2 ^ (k1 + k2 - (e1 + e2)) <= 2 ^ (k2 - e2)) by (apply Z.pow_le_mono_r; lia).
      nia.
    + rewrite Z.pow_neg_r by lia. nia.
  - rewrite Z.pow_neg_r by lia. nia.
Qed.

(** The exponent of a valid finite number is not below the smallest one. *)
Lemma bounded_exponent (m : positive) (e : Z) : bounded prec emax m e = true -> emin <= e.
Proof.
  unfold bounded, canonical_mantissa, fexp. intros H.
  apply andb_prop in H as [H _]. apply Z.eqb_eq in H.
  unfold FloatOps.emin, SpecFloat.emin in *. lia.
Qed.

(** The square root of a positive valid number is at least [2 ^ -537]. *)
Lemma SFsqrt_at_least (m : positive) (e : Z) :
  bounded prec emax m e = true ->
  large false (-537) (SFsqrt prec emax (S754_finite false m e)).
Proof.
  intros Hb. apply bounded_exponent in Hb.
  unfold FloatOps.emin, SpecFloat.emin, prec, emax in Hb.
  change (3 - 1024 - 53) with (-1074) in Hb.
  cbn [SFsqrt]. unfold SFsqrt_core_binary.
  set (e' := Z.min _ (Z.div2 e)).
  assert (He' : 2 * e' <= e).
  { assert (e' <= Z.div2 e) by apply Z.le_min_r.
    pose proof (Zdiv2_odd_eqn e). destruct (Z.odd e); lia. }
  set (m' := match e - 2 * e' with Z0 => Zpos m | Zpos _ => Z.shiftl (Zpos m) (e - 2 * e') | Zneg _ => 0 end).
  assert (Hm' : m' = Zpos m * 2 ^ (e - 2 * e')).
  { unfold m'. destruct (e - 2 * e') as [|p|p] eqn:Hs; try lia.
    now rewrite Z.shiftl_mul_pow2 by lia. }
  pose proof (Z.sqrtrem_sqrt m') as Hq.
  destruct (Z.sqrtrem m') as [q r]. cbn [fst] in Hq. subst q.
  apply binary_round_aux_at_least.
  - unfold FloatOps.emin, SpecFloat.emin, prec, emax. lia.
  - assert (Hpow : 0 < 2 ^ (e - 2 * e')) by (apply Z.pow_pos_nonneg; lia).
    assert (H1 : 1 <= m') by nia.
    split.
    + change 1 with (Z.sqrt 1). apply Z.sqrt_le_mono. lia.
    + destruct (Z.le_gt_cases 0 (-537 - e')) as [Hc|Hc].
      * rewrite <- (Z.sqrt_square (2 ^ (-537 - e'))) by (apply Z.pow_nonneg; lia).
        apply Z.sqrt_le_mono. rewrite <- Z.pow_add_r by lia.
        assert (2 ^ (-537 - e' + (-537 - e')) <= 2 ^ (e - 2 * e'))
          by (apply Z.pow_le_mono_r; lia).
        nia.
      * rewrite Z.pow_neg_r by lia. apply Z.sqrt_nonneg.
Qed.

(** The product of two numbers that are each at least [2 ^ -537] does not
    underflow to zero. *)
Lemma SFmul_large (x y : spec_float) :
  x = S754_nan \/ large false (-537) x ->
  y = S754_nan \/ large false (-537) y ->
  SFmul prec emax x y = S754_nan \/ large false (-1074) (SFmul prec emax x y).
Proof.
  intros [->|Hx]; [now left|]. intros [->|Hy]; [destruct x; now left|].
  destruct x as [sx|sx| |sx mx ex]; try contradiction;
    destruct y as [sy|sy| |sy my ey]; try contradiction; cbn in Hx, Hy.
  - subst. right. reflexivity.
  - destruct Hy as [-> _]. subst. right. reflexivity.
  - destruct Hx as [-> _]. subst. right. reflexivity.
  - destruct Hx as [-> Hx], Hy as [-> Hy]. right. cbn [SFmul xorb].
    apply binary_round_aux_at_least.
    + unfold FloatOps.emin, SpecFloat.emin, prec, emax. lia.
    + rewrite Pos2Z.inj_mul. change (-1074) with (-537 + -537).
      now apply at_least_mul.
Qed.

Lemma eqb_zero (f : float) :
  (f =? 0)%float = match Prim2SF f with S754_zero _ => true | _ => false end.
Proof.
  rewrite FloatAxioms.eqb_spec. change (Prim2SF 0) with (S754_zero false).
  destruct (Prim2SF f) as [s|[]| |[] m e]; reflexivity.
Qed.

(** A square root that is not zero is a NaN, or at least [2 ^ -537]. *)
Lemma sqrt_not_zero (x : float) :
  (sqrt x =? 0)%float = false ->
  Prim2SF (sqrt x) = S754_nan \/ large false (-537) (Prim2SF (sqrt x)).
Proof.
  rewrite eqb_zero, sqrt_spec. unfold SF64sqrt.
  pose proof (Prim2SF_valid x) as Hv.
  destruct (Prim2SF x) as [s|[]| |[] m e]; cbn [SFsqrt]; try discriminate;
    intros _; try (now left); try (right; reflexivity).
  right. now apply SFsqrt_at_least.
Qed.

(** The guard of the similarity function is enough: two magnitudes that
    are each non-zero have a non-zero product. *)
Lemma magnitudes_product_not_zero (x y : float) :
  (sqrt x =? 0)%float = false -> (sqrt y =? 0)%float = false ->
  (sqrt x * sqrt y =? 0)%float = false.
Proof.
  intros Hx%sqrt_not_zero Hy%sqrt_not_zero.
  rewrite eqb_zero, mul_spec. unfold SF64mul.
  destruct (SFmul_large _ _ Hx Hy) as [->|H]; [reflexivity|].
  destruct (SFmul prec emax _ _); try contradiction; reflexivity.
Qed.

(** *** Signs *)

Lemma binary_round_sign (s : bool) (m : positive) (e : Z) :
  has_sign s (binary_round prec emax s m e).
Proof.
  unfold binary_round. destruct (shl_align m e _) as [mz ez].
  apply binary_round_aux_sign. lia.
Qed.

Lemma binary_normalize_sign (z e : Z) :
  0 <= z -> has_sign false (binary_normalize prec emax z e false).
Proof.
  destruct z as [|p|p]; intros Hz; [reflexivity| |lia].
  apply binary_round_sign.
Qed.

Lemma SFldexp_sign (s : bool) (x : spec_float) (e : Z) :
  has_sign s x -> has_sign s (SFldexp prec emax x e).
Proof.
  destruct x as [s'|s'| |s' m e']; cbn [SFldexp]; try (intros H; exact H).
  cbn. intros ->. apply binary_round_sign.
Qed.

Lemma SF2Prim_sign (x : spec_float) :
  has_sign false x -> has_sign false (Prim2SF (SF2Prim x)).
Proof.
  destruct x as [s|s| |s m e]; cbn [has_sign]; try intros ->; try contradiction;
    try reflexivity.
  cbn [SF2Prim]. unfold Z.ldexp. rewrite ldshiftexp_spec.
  apply SFldexp_sign. rewrite of_uint63_spec.
  apply binary_normalize_sign. apply Uint63.to_Z_bounded.
Qed.

Lemma SFadd_not_negative (x y : spec_float) :
  sf_not_negative x -> sf_not_negative y -> sf_not_negative (SFadd prec emax x y).
Proof.
  intros [->|Hx]; [now left|]. intros [->|Hy]; [destruct x; now left|].
  destruct x as [sx|sx| |sx mx ex]; try contradiction;
    destruct y as [sy|sy| |sy my ey]; try contradiction;
    cbn in Hx, Hy; subst; try (right; reflexivity).
  right. cbn [SFadd cond_Zopp]. apply binary_normalize_sign. lia.
Qed.

Lemma SFmul_square_not_negative (x : spec_float) :
  sf_not_negative (SFmul prec emax x x).
Proof.
  destruct x as [[]|[]| |s m e]; try (now left); try (right; reflexivity).
  right. cbn [SFmul]. replace (xorb s s) with false by (now destruct s).
  apply binary_round_aux_sign. lia.
Qed.

Lemma SFmul_not_negative (x y : spec_float) :
  sf_not_negative x -> sf_not_negative y -> sf_not_negative (SFmul prec emax x y).
Proof.
  intros [->|Hx]; [now left|]. intros [->|Hy]; [destruct x; now left|].
  destruct x as [sx|sx| |sx mx ex]; try contradiction;
    destruct y as [sy|sy| |sy my ey]; try contradiction;
    cbn in Hx, Hy; subst; try (now left); try (right; reflexivity).
  right. cbn [SFmul xorb]. apply binary_round_aux_sign. lia.
Qed.

End FloatFacts.

(** ** Cosine similarity ([calculate_relevance_score]) *)

Module SimilarityFacts.
Import Py Utils SimilaritySpec FloatFacts.

Lemma fold_holds {A B} (P : B -> Prop) (step : res B -> A -> res B) (l : list A) :
  (forall acc x, In x l -> holds P acc -> holds P (step acc x)) ->
  forall init, holds P init -> holds P (fold_left step l init).
Proof.
  induction l as [|x l IH]; intros Hstep init Hinit; [exact Hinit|].
  cbn [fold_left]. apply IH.
  - intros acc y Hy. apply Hstep. now right.
  - apply Hstep; [now left | exact Hinit].
Qed.

Lemma fold_only_overflow {A B} (step : res B -> A -> res B) (l : list A) :
  (forall acc x, only_overflow acc -> only_overflow (step acc x)) ->
  forall init, only_overflow init -> only_overflow (fold_left step l init).
Proof.
  intros Hstep. induction l as [|x l IH]; intros init Hinit; [exact Hinit|].
  cbn [fold_left]. apply IH, Hstep, Hinit.
Qed.

(** *** Nothing but [OverflowError] *)

Lemma to_float_only_overflow (z : Z) : only_overflow (to_float z).
Proof. unfold to_float. destruct (binary_normalize _ _ _ _ _); cbn; auto. Qed.

Lemma mul_only_overflow (a b : num) : only_overflow (mul a b).
Proof.
  destruct a as [x|f], b as [y|g]; cbn; auto.
  - pose proof (to_float_only_overflow x). destruct (to_float x); cbn; auto.
  - pose proof (to_float_only_overflow y). destruct (to_float y); cbn; auto.
Qed.

Lemma add_only_overflow (a b : num) : only_overflow (add a b).
Proof.
  destruct a as [x|f], b as [y|g]; cbn; auto.
  - pose proof (to_float_only_overflow x). destruct (to_float x); cbn; auto.
  - pose proof (to_float_only_overflow y). destruct (to_float y); cbn; auto.
Qed.

Lemma py_sum_only_overflow {A} (term : A -> res num) (l : list A) :
  (forall x, only_overflow (term x)) -> only_overflow (py_sum term l).
Proof.
  intros Hterm. unfold py_sum. apply fold_only_overflow; [|exact I].
  intros [a|e] x Hacc; cbn in *; [|exact Hacc].
  pose proof (Hterm x) as Ht. destruct (term x) as [t|e]; cbn in *; [|exact Ht].
  apply add_only_overflow.
Qed.

Lemma dot_product_only_overflow (q d : list num) : only_overflow (dot_product q d).
Proof. apply py_sum_only_overflow. intros [a b]. apply mul_only_overflow. Qed.

Lemma magnitude_only_overflow (v : list num) : only_overflow (magnitude v).
Proof.
  unfold magnitude.
  pose proof (py_sum_only_overflow (fun a => mul a a) v (fun a => mul_only_overflow a a)) as H.
  destruct (py_sum _ v) as [[z|f]|e]; cbn in *; auto.
  pose proof (to_float_only_overflow z). destruct (to_float z); cbn; auto.
Qed.

(** A magnitude is a square root. *)
Lemma magnitude_is_sqrt (v : list num) (m : float) :
  magnitude v = Ok m -> exists f, m = sqrt f.
Proof.
  unfold magnitude. destruct (py_sum _ v) as [[z|f]|e]; cbn; try discriminate.
  - destruct (to_float z) as [f|e]; cbn; [|discriminate]. intros [= <-]. now exists f.
  - intros [= <-]. now exists f.
Qed.

Lemma truediv_only_overflow (a : num) (b : float) :
  (b =? 0)%float = false -> only_overflow (truediv a b).
Proof.
  intros Hb. unfold truediv. destruct a as [z|f]; cbn.
  - pose proof (to_float_only_overflow z). destruct (to_float z); cbn; auto.
    now rewrite Hb.
  - now rewrite Hb.
Qed.

(** *** The two cases *)

Lemma zero_case_dec (q d : list num) : zero_case q d \/ ~ zero_case q d.
Proof.
  unfold zero_case, zero_magnitude.
  destruct q as [|a q]; [auto|]. destruct d as [|b d]; [auto|].
  destruct (magnitude (a :: q)) as [ma|ea];
    [destruct (ma =? 0)%float eqn:Ha; [left; right; right; left; eauto|]|];
    (destruct (magnitude (b :: d)) as [mb|eb];
     [destruct (mb =? 0)%float eqn:Hb; [left; right; right; right; eauto|]|]);
    right; intros [H|[H|[[m [H1 H2]]|[m [H1 H2]]]]]; congruence.
Qed.

Lemma zero_case_result (q d : list num) :
  zero_case q d ->
  calculate_relevance_score q d = Ok 0%float
  \/ calculate_relevance_score q d = Raise OverflowError.
Proof.
  intros Hz. unfold calculate_relevance_score.
  destruct q as [|a q]; [now left|]. destruct d as [|b d]; [now left|].
  pose proof (dot_product_only_overflow (a :: q) (b :: d)) as Hdot.
  destruct (dot_product (a :: q) (b :: d)) as [dot|e]; cbn [bind only_overflow] in *;
    [|subst; now right].
  pose proof (magnitude_only_overflow (a :: q)) as Hq.
  destruct (magnitude (a :: q)) as [ma|e] eqn:Ea; cbn [bind only_overflow] in *;
    [|subst; now right].
  pose proof (magnitude_only_overflow (b :: d)) as Hd.
  destruct (magnitude (b :: d)) as [mb|e] eqn:Eb; cbn [bind only_overflow] in *;
    [|subst; now right].
  destruct Hz as [H|[H|[[m [H1 H2]]|[m [H1 H2]]]]]; try discriminate.
  - rewrite Ea in H1. injection H1 as <-. rewrite H2. now left.
  - rewrite Eb in H1. injection H1 as <-. rewrite H2, orb_true_r. now left.
Qed.

Lemma division_case_result (q d : list num) (dot : num) (ma mb : float) :
  dot_product q d = Ok dot -> magnitude q = Ok ma -> magnitude d = Ok mb ->
  ~ zero_case q d ->
  (ma =? 0)%float = false /\ (mb =? 0)%float = false
  /\ (ma * mb =? 0)%float = false
  /\ calculate_relevance_score q d = truediv dot (ma * mb)%float.
Proof.
  intros Hdot Hma Hmb Hz.
  assert (Ha : (ma =? 0)%float = false).
  { destruct (ma =? 0)%float eqn:E; [|reflexivity].
    exfalso. apply Hz. right. right. left. now exists ma. }
  assert (Hb : (mb =? 0)%float = false).
  { destruct (mb =? 0)%float eqn:E; [|reflexivity].
    exfalso. apply Hz. right. right. right. now exists mb. }
  repeat split; try assumption.
  - destruct (magnitude_is_sqrt _ _ Hma) as [x ->].
    destruct (magnitude_is_sqrt _ _ Hmb) as [y ->].
    now apply magnitudes_product_not_zero.
  - unfold calculate_relevance_score.
    destruct q as [|a q]; [exfalso; apply Hz; now left|].
    destruct d as [|b d]; [exfalso; apply Hz; right; now left|].
    rewrite Hdot, Hma, Hmb. cbn [bind]. now rewrite Ha, Hb.
Qed.

Lemma never_divides_by_zero (q d : list num) :
  only_overflow (calculate_relevance_score q d).
Proof.
  destruct (zero_case_dec q d) as [Hz|Hz].
  - destruct (zero_case_result q d Hz) as [-> | ->]; cbn; auto.
  - unfold calculate_relevance_score.
    destruct q as [|a q]; [exact I|]. destruct d as [|b d]; [exact I|].
    pose proof (dot_product_only_overflow (a :: q) (b :: d)) as Hdot.
    destruct (dot_product (a :: q) (b :: d)) as [dot|e] eqn:Edot; cbn [bind]; [|exact Hdot].
    pose proof (magnitude_only_overflow (a :: q)) as Hq.
    destruct (magnitude (a :: q)) as [ma|e] eqn:Ea; cbn [bind]; [|exact Hq].
    pose proof (magnitude_only_overflow (b :: d)) as Hd.
    destruct (magnitude (b :: d)) as [mb|e] eqn:Eb; cbn [bind]; [|exact Hd].
    destruct (division_case_result _ _ _ _ _ Edot Ea Eb Hz) as (Ha & Hb & Hab & _).
    rewrite Ha, Hb. cbn [orb]. now apply truediv_only_overflow.
Qed.

(** *** Vectors of floats *)

Lemma mul_floats (a b : num) :
  is_float a = true -> is_float b = true -> exists f, mul a b = Ok (NFloat f).
Proof. destruct a, b; try discriminate. intros _ _. cbn. eauto. Qed.

Lemma add_float_sum (s t : num) :
  float_sum s -> is_float t = true -> exists f, add s t = Ok (NFloat f).
Proof.
  destruct t as [|g]; [discriminate|]. intros [-> | Hs] _.
  - cbn. eauto.
  - destruct s; [discriminate|]. cbn. eauto.
Qed.

Lemma py_sum_floats {A} (term : A -> res num) (l : list A) :
  (forall x, In x l -> exists f, term x = Ok (NFloat f)) ->
  exists s, py_sum term l = Ok s /\ float_sum s.
Proof.
  intros Hterm. unfold py_sum.
  assert (H : forall init : res num,
             (exists s, init = Ok s /\ float_sum s) ->
             exists s, fold_left (fun acc x => bind acc (fun a => bind (term x) (fun t => add a t)))
                         l init = Ok s /\ float_sum s).
  { induction l as [|x l IH]; intros init Hinit; [exact Hinit|].
    cbn [fold_left]. apply IH.
    - intros y Hy. apply Hterm. now right.
    - destruct Hinit as (s & -> & Hs). destruct (Hterm x ltac:(now left)) as [f ->].
      cbn [bind]. destruct (add_float_sum s (NFloat f) Hs eq_refl) as [g ->].
      exists (NFloat g). split; [reflexivity | now right]. }
  apply H. exists (NInt 0). split; [reflexivity | now left].
Qed.

Lemma floats_In (v : list num) (a : num) : floats v -> In a v -> is_float a = true.
Proof. unfold floats. rewrite forallb_forall. auto. Qed.

Lemma dot_product_floats (q d : list num) :
  floats q -> floats d -> exists s, dot_product q d = Ok s /\ float_sum s.
Proof.
  intros Hq Hd. apply py_sum_floats. intros [a b] Hab.
  apply mul_floats.
  - apply (floats_In q); [assumption|]. eapply in_combine_l, Hab.
  - apply (floats_In d); [assumption|]. eapply in_combine_r, Hab.
Qed.

Lemma pow_half_float_sum (s : num) : float_sum s -> exists m, pow_half s = Ok m.
Proof.
  intros [-> | Hs]; [cbn; eauto|]. destruct s; [discriminate|]. cbn. eauto.
Qed.

Lemma magnitude_floats (v : list num) : floats v -> exists m, magnitude v = Ok m.
Proof.
  intros Hv. unfold magnitude.
  destruct (py_sum_floats (fun a => mul a a) v) as (s & -> & Hs).
  - intros a Ha. apply mul_floats; now apply (floats_In v).
  - cbn [bind]. now apply pow_half_float_sum.
Qed.

Lemma truediv_float_sum (s : num) (b : float) :
  float_sum s -> (b =? 0)%float = false -> exists r, truediv s b = Ok r.
Proof.
  intros [-> | Hs] Hb; unfold truediv.
  - cbn. rewrite Hb. eauto.
  - destruct s; [discriminate|]. cbn. rewrite Hb. eauto.
Qed.

Lemma floats_result (q d : list num) :
  floats q -> floats d ->
  (exists r, calculate_relevance_score q d = Ok r)
  /\ (zero_case q d -> calculate_relevance_score q d = Ok 0%float).
Proof.
  intros Hq Hd.
  assert (Hok : exists r, calculate_relevance_score q d = Ok r).
  { destruct (zero_case_dec q d) as [Hz|Hz].
    - destruct q as [|a q]; [cbn; eauto|]. destruct d as [|b d]; [cbn; eauto|].
      unfold calculate_relevance_score.
      destruct (dot_product_floats _ _ Hq Hd) as (dot & -> & Hdot).
      destruct (magnitude_floats _ Hq) as [ma Ea]. destruct (magnitude_floats _ Hd) as [mb Eb].
      rewrite Ea, Eb. cbn [bind].
      destruct ((ma =? 0)%float || (mb =? 0)%float) eqn:E; [eauto|].
      exfalso. apply orb_false_elim in E as [E1 E2].
      destruct Hz as [H|[H|[[m [H1 H2]]|[m [H1 H2]]]]]; congruence.
    - destruct (dot_product_floats _ _ Hq Hd) as (dot & Edot & Hdot).
      destruct (magnitude_floats _ Hq) as [ma Ea]. destruct (magnitude_floats _ Hd) as [mb Eb].
      destruct (division_case_result _ _ _ _ _ Edot Ea Eb Hz) as (_ & _ & Hab & ->).
      now apply truediv_float_sum. }
  split; [exact Hok|].
  intros Hz. destruct (zero_case_result q d Hz) as [H|H]; [exact H|].
  destruct Hok as [r Hr]. congruence.
Qed.

(** *** Vectors of zeros *)

Lemma is_zero_square (a : num) :
  is_zero a = true -> holds plain_zero (mul a a).
Proof.
  destruct a as [z|f]; cbn.
  - intros H%Z.eqb_eq. now subst.
  - rewrite eqb_zero, mul_spec. unfold SF64mul.
    destruct (Prim2SF f) as [[]|s| |s m e]; try discriminate; reflexivity.
Qed.

Lemma plain_zero_add (s t : num) :
  plain_zero s -> plain_zero t -> holds plain_zero (add s t).
Proof.
  destruct s as [x|f], t as [y|g]; cbn; intros Hs Ht; subst.
  - reflexivity.
  - change (to_float 0) with (Ok 0%float). cbn.
    rewrite add_spec, Ht. reflexivity.
  - change (to_float 0) with (Ok 0%float). cbn.
    rewrite add_spec, Hs. reflexivity.
  - rewrite add_spec, Hs, Ht. reflexivity.
Qed.

Lemma zero_vector_magnitude (v : list num) :
  forallb is_zero v = true -> zero_magnitude v.
Proof.
  intros Hv. unfold zero_magnitude, magnitude.
  assert (H : holds plain_zero (py_sum (fun a => mul a a) v)).
  { unfold py_sum. apply fold_holds; [|reflexivity].
    intros [s|e] a Ha Hs; cbn in *; [|exact I].
    rewrite forallb_forall in Hv. pose proof (is_zero_square a (Hv a Ha)) as Ht.
    destruct (mul a a) as [t|e]; cbn in *; [|exact I].
    now apply plain_zero_add. }
  assert (Hf : forall s, plain_zero s -> exists m, pow_half s = Ok m /\ (m =? 0)%float = true).
  { intros [z|f] Hs; cbn in Hs; subst; cbn.
    - change (to_float 0) with (Ok 0%float). cbn. eexists. split; reflexivity.
    - eexists. split; [reflexivity|]. now rewrite eqb_zero, sqrt_spec, Hs. }
  destruct (py_sum _ v) as [s|e] eqn:E; cbn in *.
  - now apply Hf.
  - (* squares of zeros do not overflow *)
    exfalso. revert E. unfold py_sum.
    assert (Hno : forall init : res num,
               (exists s, init = Ok s /\ plain_zero s) ->
               fold_left (fun acc x => bind acc (fun a => bind (mul x x) (fun t => add a t)))
                 v init <> Raise e).
    { clear H. induction v as [|a v IH]; intros init (s & -> & Hs); [discriminate|].
      cbn [fold_left]. cbn in Hv. apply andb_prop in Hv as [Ha Hv].
      apply IH; [assumption|]. cbn [bind].
      pose proof (is_zero_square a Ha) as Ht.
      destruct a as [z|f]; cbn in Ht |- *.
      - pose proof (plain_zero_add s (NInt (z * z)) Hs Ht) as Hst.
        destruct (add s (NInt (z * z))) as [u|e'] eqn:Eu; cbn in Hst.
        + eauto.
        + exfalso. destruct s as [x|g]; cbn in Eu; [discriminate|].
          cbn in Ht. rewrite Ht in Eu. discriminate.
      - pose proof (plain_zero_add s (NFloat (f * f)) Hs Ht) as Hst.
        destruct (add s (NFloat (f * f))) as [u|e'] eqn:Eu; cbn in Hst.
        + eauto.
        + exfalso. destruct s as [x|g]; cbn in Eu, Hs; [|discriminate].
          subst x. discriminate. }
    apply Hno. exists (NInt 0). split; reflexivity.
Qed.

(** *** The base of the power is never negative *)

Lemma to_float_not_negative (z : Z) :
  0 <= z -> holds (fun f => sf_not_negative (Prim2SF f)) (to_float z).
Proof.
  intros Hz. unfold to_float.
  pose proof (binary_normalize_sign z 0 Hz) as H.
  destruct (binary_normalize prec emax z 0 false) as [s|s| |s m e] eqn:E; cbn [holds];
    try exact I; try contradiction; right; now apply SF2Prim_sign.
Qed.

Lemma square_not_negative (a : num) : holds not_negative (mul a a).
Proof.
  destruct a as [z|f]; cbn; [nia|].
  rewrite mul_spec. apply SFmul_square_not_negative.
Qed.

Lemma add_not_negative (s t : num) :
  not_negative s -> not_negative t -> holds not_negative (add s t).
Proof.
  destruct s as [x|f], t as [y|g]; cbn; intros Hs Ht.
  - lia.
  - pose proof (to_float_not_negative x Hs) as Hx.
    destruct (to_float x) as [f|e]; cbn in *; [|exact I].
    rewrite add_spec. now apply SFadd_not_negative.
  - pose proof (to_float_not_negative y Ht) as Hy.
    destruct (to_float y) as [g|e]; cbn in *; [|exact I].
    rewrite add_spec. now apply SFadd_not_negative.
  - rewrite add_spec. now apply SFadd_not_negative.
Qed.

Lemma squares_are_not_negative (v : list num) :
  holds not_negative (py_sum (fun a => mul a a) v).
Proof.
  unfold py_sum. apply fold_holds; [|cbn; lia].
  intros [s|e] a _ Hs; cbn in *; [|exact I].
  pose proof (square_not_negative a) as Ht.
  destruct (mul a a) as [t|e]; cbn in *; [|exact I].
  now apply add_not_negative.
Qed.

End SimilarityFacts.

(** C9, as amended.  On vectors of floats [calculate_relevance_score]
    returns a float and never raises, and the float is exactly 0.0 when
    either vector is empty or has zero magnitude.  On all vectors, of ints
    or floats, it
    never divides by zero and raises nothing but [OverflowError], which
    takes a component that is no float; in the zero case it returns 0.0
    unless it raises; the division is performed only when both vectors are
    non-empty with non-zero magnitudes, and then the product of the
    magnitudes, its divisor, is not zero either.  A vector whose components
    are all zero has zero magnitude. *)
Theorem similarity_total_on_zero_case (query_embedding doc_embedding : list Utils.num) :
  (SimilaritySpec.floats query_embedding -> SimilaritySpec.floats doc_embedding ->
   (exists r, Utils.calculate_relevance_score query_embedding doc_embedding = Py.Ok r)
   /\ (SimilaritySpec.zero_case query_embedding doc_embedding ->
       Utils.calculate_relevance_score query_embedding doc_embedding = Py.Ok 0%float))
  /\ Utils.calculate_relevance_score query_embedding doc_embedding
     <> Py.Raise Py.ZeroDivisionError
  /\ (forall e,
        Utils.calculate_relevance_score query_embedding doc_embedding = Py.Raise e ->
        e = Py.OverflowError
        /\ ~ (SimilaritySpec.floats query_embedding /\ SimilaritySpec.floats doc_embedding))
  /\ (SimilaritySpec.zero_case query_embedding doc_embedding ->
      Utils.calculate_relevance_score query_embedding doc_embedding = Py.Ok 0%float
      \/ Utils.calculate_relevance_score query_embedding doc_embedding
         = Py.Raise Py.OverflowError)
  /\ (forall dot magnitude_a magnitude_b,
        Utils.dot_product query_embedding doc_embedding = Py.Ok dot ->
        Utils.magnitude query_embedding = Py.Ok magnitude_a ->
        Utils.magnitude doc_embedding = Py.Ok magnitude_b ->
        ~ SimilaritySpec.zero_case query_embedding doc_embedding ->
        (magnitude_a =? 0)%float = false /\ (magnitude_b =? 0)%float = false
        /\ (magnitude_a * magnitude_b =? 0)%float = false
        /\ Utils.calculate_relevance_score query_embedding doc_embedding
           = Utils.truediv dot (magnitude_a * magnitude_b)%float)
  /\ (forallb SimilaritySpec.is_zero query_embedding = true
      \/ forallb SimilaritySpec.is_zero doc_embedding = true ->
      SimilaritySpec.zero_case query_embedding doc_embedding).
Proof.
  pose proof (SimilarityFacts.never_divides_by_zero query_embedding doc_embedding) as Hov.
  split; [apply SimilarityFacts.floats_result|].
  split; [intros H; rewrite H in Hov; discriminate Hov|].
  split.
  { intros e He. rewrite He in Hov. split; [exact Hov|].
    intros [Hq Hd].
    destruct (SimilarityFacts.floats_result _ _ Hq Hd) as [[r Hr] _]. congruence. }
  split; [apply SimilarityFacts.zero_case_result|].
  split; [apply SimilarityFacts.division_case_result|].
  intros [H|H]; apply SimilarityFacts.zero_vector_magnitude in H; unfold SimilaritySpec.zero_case; auto.
Qed.

Lemma similarity_total_on_zero_case_witness :
  Utils.calculate_relevance_score [Utils.NFloat 0; Utils.NFloat 0] [Utils.NFloat 1; Utils.NFloat 2]
  = Py.Ok 0%float
  /\ Utils.calculate_relevance_score [Utils.NFloat 0x1p-600] [Utils.NFloat 1] = Py.Ok 0%float
  /\ Utils.calculate_relevance_score [Utils.NFloat 3; Utils.NFloat 4] [Utils.NFloat 3; Utils.NFloat 4]
     = Utils.truediv (Utils.NFloat 25) (5 * 5)%float.
Proof.
  split; [|split].
  - apply (similarity_total_on_zero_case
             [Utils.NFloat 0; Utils.NFloat 0] [Utils.NFloat 1; Utils.NFloat 2]);
      [reflexivity | reflexivity |].
    right. right. left. exists 0%float. split; reflexivity.
  - apply (similarity_total_on_zero_case [Utils.NFloat 0x1p-600] [Utils.NFloat 1]);
      [reflexivity | reflexivity |].
    right. right. left. exists 0%float. split; reflexivity.
  - apply (similarity_total_on_zero_case
             [Utils.NFloat 3; Utils.NFloat 4] [Utils.NFloat 3; Utils.NFloat 4]);
      try reflexivity.
    intros [H|[H|[[m [H1 H2]]|[m [H1 H2]]]]]; try discriminate;
      vm_compute in H1; injection H1 as <-; vm_compute in H2; discriminate.
Defined.

(** C9, as stated, fails where a component is an [int] too large for a
    float: the function raises [OverflowError], also when the other vector
    has zero magnitude and 0.0 was to be returned. *)
Lemma similarity_raises_on_a_large_int :
  SimilaritySpec.zero_case [Utils.NInt 0] [Utils.NInt (10 ^ 200)]
  /\ Utils.calculate_relevance_score [Utils.NInt 0] [Utils.NInt (10 ^ 200)]
     = Py.Raise Py.OverflowError
  /\ Utils.calculate_relevance_score [Utils.NInt (10 ^ 200)] [Utils.NInt (10 ^ 200)]
     = Py.Raise Py.OverflowError.
Proof.
  split; [|split].
  - right. right. left. exists 0%float. split; reflexivity.
  - vm_compute. reflexivity.
  - vm_compute. reflexivity.
Qed.

(** The squares of a small float underflow (here the float nearest to
    1e-200): the vector counts as one of zero magnitude. *)
Example similarity_of_a_tiny_vector :
  Utils.calculate_relevance_score [Utils.NFloat 0x1.87e92154ef7acp-665] [Utils.NFloat 0x1.87e92154ef7acp-665] = Py.Ok 0%float.
Proof. reflexivity. Qed.

Example similarity_of_ints :
  Utils.calculate_relevance_score [Utils.NInt 3; Utils.NInt 4] [Utils.NInt 3; Utils.NInt 4]
  = Py.Ok 1%float.
Proof. reflexivity. Qed.

(** ** The Redis adapter *)

Module RedisFacts.
Import Py Redis RedisSpec.

(** A TTL the server takes: [SETEX] with that expiry. *)
Lemma set_positive e key v t c :
  reachable c = true -> takes e t ->
  set e key v (Some t) c = (Ok true, stored key v (Some t) (SETEX key t (Dumps v)) c).
Proof.
  intros Hr [Ht Hacc]. unfold set, client_setex, command, stored.
  destruct (t =? 0) eqn:E0; [apply Z.eqb_eq in E0; lia|]. cbn [negb].
  rewrite Hr, Hacc.
  destruct (t <? - 2 ^ 63) eqn:E1; [apply Z.ltb_lt in E1; lia|].
  destruct (2 ^ 63 - 1 <? t) eqn:E2; [apply Z.ltb_lt in E2; lia|].
  destruct (t <=? 0) eqn:E3; [apply Z.leb_le in E3; lia|]. reflexivity.
Qed.

(** A zero TTL is falsy: plain [SET], no expiry. *)
Lemma set_zero e key v c :
  reachable c = true ->
  set e key v (Some 0) c = (Ok true, stored key v None (SET key (Dumps v)) c).
Proof. intros Hr. unfold set, client_set, command, stored. simpl. now rewrite Hr. Qed.

(** Any other TTL reaches the server, which refuses it and stores nothing. *)
Lemma set_refused e key v t c :
  reachable c = true -> t <> 0 -> ~ takes e t ->
  exists msg,
    set e key v (Some t) c
    = (Raise (ResponseError msg), logged (SETEX key t (Dumps v)) c).
Proof.
  intros Hr Ht Hno. unfold set, client_setex, command, logged.
  destruct (t =? 0) eqn:E0; [apply Z.eqb_eq in E0; lia|]. cbn [negb].
  rewrite Hr.
  destruct ((t <? - 2 ^ 63) || (2 ^ 63 - 1 <? t)) eqn:E1; [eauto|].
  destruct ((t <=? 0) || negb (redis_accepts_expiry e t)) eqn:E2; [eauto|].
  exfalso. apply Hno.
  apply orb_false_elim in E1 as [E1 E1'], E2 as [E2 E2'].
  apply Z.ltb_ge in E1, E1'. apply Z.leb_gt in E2. apply negb_false_iff in E2'.
  split; [lia | assumption].
Qed.

Lemma negative_not_taken e t : t < 0 -> ~ takes e t.
Proof. intros Ht [H _]. lia. Qed.

Lemma takes_dec e t : takes e t \/ ~ takes e t.
Proof.
  unfold takes.
  destruct (redis_accepts_expiry e t); [|right; intros [_ H]; discriminate].
  destruct (Z_lt_dec 0 t); [|right; lia].
  destruct (Z_le_dec t (2 ^ 63 - 1)); [left; split; [lia | reflexivity] | right; lia].
Qed.

Lemma get_reachable key c :
  reachable c = true ->
  get key c = (Ok (loads <$> (fst <$> db c !! key)), logged (GET key) c).
Proof.
  intros Hr. unfold get, try_except, mbind, client_get, command, logged. rewrite Hr.
  simpl. destruct (db c !! key) as [[v ttl]|]; reflexivity.
Qed.

Lemma comprehension_decode_str (ks : list reply_key) :
  (forall k, In k ks -> exists s, k = KStr s) ->
  comprehension decode ks = Ok [] \/ exists x, comprehension decode ks = Raise x.
Proof.
  destruct ks as [|k ks]; [now left|]. intros H. right.
  destruct (H k (or_introl eq_refl)) as [s ->]. simpl. eauto.
Qed.

(** With [decode_responses=True] the adapter's [keys] always returns the
    empty list: the replies are [str], and [str] has no [decode]. *)
Lemma keys_decoded e pattern c :
  decode_responses c = true ->
  keys e pattern c = (Ok [], logged (KEYS pattern) c).
Proof.
  intros Hd. unfold keys, try_except, mbind, client_keys, command, logged.
  destruct (reachable c) eqn:Hr; [|reflexivity]. simpl.
  unfold lift.
  destruct (comprehension_decode_str (matching e pattern c)) as [-> | [x ->]];
    [|reflexivity..].
  unfold matching. rewrite Hd. intros k Hk.
  apply in_map_iff in Hk as (s & <- & _). eauto.
Qed.

End RedisFacts.

(** ** Short-term memory *)

Module ShorttermFacts.
Import Py Http Redis Shortterm RedisSpec ShorttermSpec.
#[local] Arguments Redis.set : simpl never.

Lemma shortterm_add_memory_unfold e body c v md sid t :
  body !! "content" = Some v -> is_content v = true ->
  get_d body "metadata" (PDict ∅) = PDict md ->
  get_d body "session_id" (PStr "") = PStr sid ->
  get_d body "ttl_seconds" (PInt 604800) = PInt t ->
  add_memory e body c
  = (let m := memory_of e v md t sid in
     match Redis.set e (generate_id e "stm") (to_dict m) (Some t) c with
     | (Ok true, c1) =>
         if negb (String.eqb sid "") then
           match Redis.set e ("session:" ++ sid ++ ":" ++ generate_id e "stm")
                           (to_dict m) (Some t) c1 with
           | (Ok _, c2) => (Ok (created e t), c2)
           | (Raise x, c2) => (Raise x, c2)
           end
         else (Ok (created e t), c1)
     | (Ok false, c1) => (Ok (create_error_response e 500 "Failed to store memory"), c1)
     | (Raise x, c1) => (Raise x, c1)
     end).
Proof.
  intros Hc Hv Hm Hs Ht. unfold add_memory, Utils.validate_required_fields.
  simpl. rewrite Hc.
  destruct v; try discriminate Hv; simpl;
    unfold Py.get; rewrite Hc, Hm, Ht, Hs; simpl;
    unfold mbind at 1; unfold lift at 1; simpl;
    unfold mbind at 1; unfold memory_of; cbv zeta;
    match goal with
    | |- context [Redis.set e _ (to_dict ?m) _ c] =>
        destruct (Redis.set e (generate_id e "stm") (to_dict m) (Some t) c)
          as [[[|]|x] c1]; simpl; try reflexivity;
        destruct (String.eqb sid ""); simpl; [reflexivity|];
        unfold mbind;
        destruct (Redis.set e ("session:" ++ sid ++ ":" ++ generate_id e "stm")
                            (to_dict m) (Some t) c1) as [[b|x] c2]; reflexivity
    end.
Qed.

Lemma stored_lookup c key v ttl k :
  db (RedisSpec.stored key v ttl k c) !! key = Some (Dumps v, ttl).
Proof. simpl. apply lookup_insert_eq. Qed.


(** [ttl_seconds = 0]: accepted, stored with a plain [SET] (no expiry). *)
Lemma shortterm_add_memory_zero e body c :
  well_typed body -> reachable c = true ->
  body !! "ttl_seconds" = Some (PInt 0) ->
  resolves e body c 0 None.
Proof.
  intros ((v & Hc & Hv) & (md & Hm) & (sid & Hs)) Hr Ht. unfold resolves.
  rewrite (shortterm_add_memory_unfold e body c v md sid 0);
    [|assumption..|unfold get_d; now rewrite Ht]. cbv zeta.
  rewrite RedisFacts.set_zero by assumption.
  destruct (String.eqb sid "") eqn:Esid; cbn [negb].
  - eexists. split; [reflexivity|].
    eexists. split; [apply stored_lookup | reflexivity].
  - rewrite RedisFacts.set_zero by assumption.
    eexists. split; [reflexivity|].
    eexists. split;
      [ cbn [db RedisSpec.stored]; rewrite lookup_insert;
        case_decide; [reflexivity | apply lookup_insert_eq]
      | reflexivity ].
Qed.

(** A [ttl_seconds] the server does not take is not validated either: the
    first thing that happens is the [SETEX] command carrying it, and the
    server's refusal is what the caller sees. *)
Lemma shortterm_add_memory_refused e body c t :
  well_typed body -> reachable c = true ->
  get_d body "ttl_seconds" (PInt 604800) = PInt t -> t <> 0 -> ~ takes e t ->
  exists doc msg,
    add_memory e body c
    = (Raise (ResponseError msg),
       RedisSpec.logged (SETEX (generate_id e "stm") t doc) c).
Proof.
  intros ((v & Hc & Hv) & (md & Hm) & (sid & Hs)) Hr Ht H0 Hno.
  rewrite (shortterm_add_memory_unfold e body c v md sid t) by assumption. cbv zeta.
  destruct (RedisFacts.set_refused e (generate_id e "stm")
              (to_dict (memory_of e v md t sid)) t c Hr H0 Hno) as [msg ->].
  eauto.
Qed.

End ShorttermFacts.

(** ** Working memory *)

Module WorkingFacts.
Import Py Http Redis Working RedisSpec ShorttermSpec WorkingSpec.
#[local] Arguments Redis.set : simpl never.

Lemma working_add_memory_unfold e tenant_id memory_data c :
  add_memory e tenant_id memory_data c
  = match Redis.set e (key_of e tenant_id memory_data) (dict (memory_of e memory_data))
                    (Some (or_int (c_ttl_seconds memory_data) 3600)) c with
    | (Ok true, c1) => (Ok (response_of e tenant_id memory_data), c1)
    | (Ok false, c1) => (Raise (Exception_ "Failed to store working memory"), c1)
    | (Raise x, c1) => (Raise x, c1)
    end.
Proof.
  unfold add_memory, mbind. cbn [ttl_seconds].
  fold (memory_of e memory_data). fold (key_of e tenant_id memory_data).
  destruct (Redis.set _ _ _ _ c) as [[[|]|x] c1]; reflexivity.
Qed.

(** A write whose TTL resolves to a positive [t] succeeds, reports [t] and
    stores the document under the composite key with expiry [t]. *)
Lemma working_add_memory_positive e tenant_id memory_data c t :
  reachable c = true -> or_int (c_ttl_seconds memory_data) 3600 = t -> takes e t ->
  add_memory e tenant_id memory_data c
  = (Ok (response_of e tenant_id memory_data),
     RedisSpec.stored (key_of e tenant_id memory_data) (dict (memory_of e memory_data))
       (Some t)
       (SETEX (key_of e tenant_id memory_data) t (Dumps (dict (memory_of e memory_data))))
       c).
Proof.
  intros Hr Ht Hpos. rewrite working_add_memory_unfold, Ht.
  now rewrite RedisFacts.set_positive.
Qed.

Lemma working_add_memory_refused e tenant_id memory_data c t :
  reachable c = true -> or_int (c_ttl_seconds memory_data) 3600 = t -> ~ takes e t ->
  exists doc msg,
    add_memory e tenant_id memory_data c
    = (Raise (ResponseError msg),
       RedisSpec.logged (SETEX (key_of e tenant_id memory_data) t doc) c).
Proof.
  intros Hr Ht Hno. rewrite working_add_memory_unfold, Ht.
  assert (H0 : t <> 0).
  { subst t. destruct (c_ttl_seconds memory_data) as [t|]; cbn; [|lia].
    destruct (t =? 0) eqn:E; [lia | now apply Z.eqb_neq in E]. }
  destruct (RedisFacts.set_refused e (key_of e tenant_id memory_data)
              (dict (memory_of e memory_data)) t c Hr H0 Hno) as [msg ->].
  eauto.
Qed.

Lemma working_add_memory_resolves e tenant_id memory_data c t :
  reachable c = true -> or_int (c_ttl_seconds memory_data) 3600 = t -> takes e t ->
  resolves e tenant_id memory_data c t.
Proof.
  intros Hr Ht Hpos. unfold resolves.
  rewrite (working_add_memory_positive e tenant_id memory_data c t) by assumption.
  eexists _, _. split; [reflexivity|]. split; [simpl; now rewrite Ht|].
  eexists. split; [apply ShorttermFacts.stored_lookup|].
  simpl. now rewrite Ht.
Qed.

(** The POST branch of the Lambda: tenant and session come from the body,
    and a body without [ttl_seconds] gets 3600. *)
Example working_post_defaults :
  match lambda_post Samples.demo_env Samples.wm_post_body Samples.fresh_redis with
  | (Ok resp, c) =>
      statusCode resp = 201
      /\ body resp !! "ttl_seconds" = Some (PInt 3600)
      /\ body resp !! "tenant_id" = Some (PStr "tenant-a")
      /\ log c = [SETEX (redis_key "tenant-a" "s1" (generate_id Samples.demo_env "wm")) 3600
                        (Dumps (dict (memory_of Samples.demo_env Samples.wm_create)))]
  | _ => False
  end.
Proof. vm_compute. repeat split; reflexivity. Qed.

End WorkingFacts.



(** ** Zero and negative TTLs *)

Module TtlFacts.
Import Py Http Redis.

(** A working-memory write with [ttl_seconds = 0] is treated like one
    without [ttl_seconds]: it resolves to 3600. *)
Lemma working_zero_ttl_is_the_default e tenant_id memory_data c :
  reachable c = true ->
  Working.c_ttl_seconds memory_data = Some 0 ->
  RedisSpec.takes e 3600 ->
  WorkingSpec.resolves e tenant_id memory_data c 3600.
Proof.
  intros Hr H0 Htakes.
  apply WorkingFacts.working_add_memory_resolves; [assumption| |assumption].
  now rewrite H0.
Qed.

(** A short-term write with [ttl_seconds = 0] is accepted and stored by a
    plain [SET]. *)
Lemma shortterm_zero_ttl_is_stored e body c :
  ShorttermSpec.well_typed body -> reachable c = true ->
  body !! "ttl_seconds" = Some (PInt 0) ->
  ShorttermSpec.resolves e body c 0 None.
Proof. intros. now apply ShorttermFacts.shortterm_add_memory_zero. Qed.

(** A negative [ttl_seconds] is not validated by either handler: it goes
    unchanged into the [SETEX] command, which the store refuses, so that
    nothing is persisted. *)
Lemma negative_ttl_persists_nothing :
  (forall e body c t,
     ShorttermSpec.well_typed body -> reachable c = true ->
     body !! "ttl_seconds" = Some (PInt t) -> t < 0 ->
     exists doc msg,
       Shortterm.add_memory e body c
       = (Raise (ResponseError msg),
          RedisSpec.logged (SETEX (generate_id e "stm") t doc) c))
  /\ (forall e tenant_id memory_data c t,
        reachable c = true ->
        Working.c_ttl_seconds memory_data = Some t -> t < 0 ->
        exists doc msg,
          Working.add_memory e tenant_id memory_data c
          = (Raise (ResponseError msg),
             RedisSpec.logged (SETEX (WorkingSpec.key_of e tenant_id memory_data) t doc) c)).
Proof.
  split.
  - intros e body c t Hwt Hr Ht Hneg.
    apply ShorttermFacts.shortterm_add_memory_refused;
      [assumption..| |lia|now apply RedisFacts.negative_not_taken].
    unfold get_d. now rewrite Ht.
  - intros e tenant_id memory_data c t Hr Ht Hneg.
    apply WorkingFacts.working_add_memory_refused;
      [assumption| |now apply RedisFacts.negative_not_taken].
    rewrite Ht. simpl.
    destruct (t =? 0) eqn:E; [apply Z.eqb_eq in E; lia | reflexivity].
Qed.

Example negative_ttl_on_the_samples :
  exists doc msg,
    Working.add_memory Samples.demo_env "tenant-a" (Samples.wm_create_ttl (-5))
      Samples.fresh_redis
    = (Raise (ResponseError msg),
       RedisSpec.logged
         (SETEX (WorkingSpec.key_of Samples.demo_env "tenant-a" (Samples.wm_create_ttl (-5)))
            (-5) doc)
         Samples.fresh_redis).
Proof. eexists _, _. vm_compute. reflexivity. Qed.

End TtlFacts.

(** C4 at the failing input.  A short-term write with [ttl_seconds = 0]
    is not rejected.  It returns 201, exactly one store command, a plain
    [SET], is sent, and the record is persisted with [ttl_seconds = 0] and
    no expiry at all. *)
Lemma zero_ttl_is_persisted :
  exists c',
    Shortterm.add_memory Samples.demo_env Samples.body_ttl_zero Samples.fresh_redis
    = (Py.Ok (ShorttermSpec.created Samples.demo_env 0), c')
    /\ Http.statusCode (ShorttermSpec.created Samples.demo_env 0) = 201
    /\ (exists doc, Redis.log c' = [Redis.SET (Http.generate_id Samples.demo_env "stm") doc])
    /\ ShorttermSpec.stored_with c' (Http.generate_id Samples.demo_env "stm") 0 None.
Proof.
  eexists. split; [vm_compute; reflexivity|].
  split; [reflexivity|].
  split; [eexists; vm_compute; reflexivity|].
  eexists. split; vm_compute; reflexivity.
Qed.

(** ** Reading working memory back *)

Module WorkingReadFacts.
Import Py Http Redis Working.

Lemma getattr_id mem : getattr mem "id" = Raise (AttributeError "WorkingMemoryBase" "id").
Proof. reflexivity. Qed.

(** The response of the loop body is built from [mem.id], an attribute
    [WorkingMemoryBase] does not have: the body never appends. *)
Lemma get_memories_step_empty e tenant_id key c l c' :
  get_memories_step e tenant_id key c = (Ok l, c') -> l = [].
Proof.
  unfold get_memories_step, mbind.
  destruct (Redis.get key c) as [[[v|]|x] c1]; try (unfold ret; congruence).
  destruct v as [| | | | | |d|]; simpl;
    try (unfold ret, raise; congruence);
    try (match goal with |- (if ?b then _ else _) _ = _ -> _ => destruct b end;
         unfold ret, raise; congruence).
  destruct (bool_decide (d = ∅)); [unfold ret; congruence|].
  unfold lift. destruct (parse_WorkingMemoryBase d) as [mem|x]; simpl; [|congruence].
  destruct (load_content e (content mem)); simpl; congruence.
Qed.

Lemma get_memories_loop_empty e tenant_id keys c l c' :
  get_memories_loop e tenant_id keys c = (Ok l, c') -> l = [].
Proof.
  revert c l c'. induction keys as [|key keys IH]; intros c l c'; simpl.
  - unfold ret. congruence.
  - unfold mbind at 1.
    destruct (get_memories_step e tenant_id key c) as [[found|x] c1] eqn:Hstep;
      [|congruence].
    apply get_memories_step_empty in Hstep. subst found.
    unfold mbind.
    destruct (get_memories_loop e tenant_id keys c1) as [[rest|x] c2] eqn:Hloop;
      [|congruence].
    apply IH in Hloop. subst rest. unfold ret. simpl. congruence.
Qed.

(** Whatever the store holds and however the client is configured,
    [get_memories] never returns a record. *)
Lemma get_memories_empty e tenant_id session_id limit c l c' :
  get_memories e tenant_id session_id limit c = (Ok l, c') -> l = [].
Proof.
  unfold get_memories, mbind.
  destruct (Redis.keys e _ c) as [[ks|x] c1]; [|congruence].
  apply get_memories_loop_empty.
Qed.

(** With the client as the adapter creates it, the scan itself already
    yields nothing. *)
Lemma get_memories_decoded e tenant_id session_id limit c :
  decode_responses c = true ->
  exists pattern,
    get_memories e tenant_id session_id limit c = (Ok [], RedisSpec.logged (KEYS pattern) c).
Proof.
  intros Hd. unfold get_memories, mbind. eexists.
  rewrite RedisFacts.keys_decoded by assumption.
  unfold slice_to. destruct (0 <=? limit); rewrite take_nil; reflexivity.
Qed.

End WorkingReadFacts.

(** C2: the write half holds, the read half does not.  A working-memory
    write whose expiry the store takes stores the record, with its
    [memory_id], content and [ttl_seconds], under
    [tenant:{tenant_id}:session:{session_id}:memory:{memory_id}]; a write
    whose expiry the store refuses raises and stores nothing.  Either way
    the following [get_memories] for the same tenant and session returns the
    empty list. *)
Theorem working_write_then_get_returns_nothing
    (e : env) (tenant_id : string) (memory_data : Working.WorkingMemoryCreate)
    (server : gmap string (Redis.json_text * option Z)) (limit : Z) (t : Z) :
  Working.or_int (Working.c_ttl_seconds memory_data) 3600 = t -> 0 < t ->
  exists out c1 c2,
    Working.add_memory e tenant_id memory_data (Redis.RedisAdapter server true) = (out, c1)
    /\ (RedisSpec.takes e t ->
        exists r,
          out = Py.Ok r
          /\ Redis.db c1 !! ("tenant:" ++ tenant_id ++ ":session:"
                              ++ Working.c_session_id memory_data
                              ++ ":memory:" ++ Working.r_memory_id r)
             = Some (Redis.Dumps (Working.dict (WorkingSpec.memory_of e memory_data)), Some t)
          /\ Working.memory_id (WorkingSpec.memory_of e memory_data) = Working.r_memory_id r
          /\ Working.content (WorkingSpec.memory_of e memory_data) = Working.r_content r
          /\ Working.ttl_seconds (WorkingSpec.memory_of e memory_data) = Some t)
    /\ (~ RedisSpec.takes e t ->
        (exists msg, out = Py.Raise (Py.ResponseError msg)) /\ Redis.db c1 = server)
    /\ Working.get_memories e tenant_id (Some (Working.c_session_id memory_data)) limit c1
       = (Py.Ok [], c2).
Proof.
  intros Ht Hpos.
  destruct (RedisFacts.takes_dec e t) as [Htakes | Hno].
  - rewrite (WorkingFacts.working_add_memory_positive e tenant_id memory_data _ t)
      by (reflexivity || assumption).
    destruct (WorkingReadFacts.get_memories_decoded e tenant_id
                (Some (Working.c_session_id memory_data)) limit
                (RedisSpec.stored (WorkingSpec.key_of e tenant_id memory_data)
                   (Working.dict (WorkingSpec.memory_of e memory_data)) (Some t)
                   (Redis.SETEX (WorkingSpec.key_of e tenant_id memory_data) t
                      (Redis.Dumps (Working.dict (WorkingSpec.memory_of e memory_data))))
                   (Redis.RedisAdapter server true)))
      as [pattern Hget]; [reflexivity|].
    eexists _, _, _. split; [reflexivity|].
    split; [|split; [intros H; contradiction | exact Hget]].
    intros _. eexists. split; [reflexivity|].
    split; [apply ShorttermFacts.stored_lookup|].
    split; [reflexivity|]. split; [reflexivity|].
    simpl. now rewrite Ht.
  - destruct (WorkingFacts.working_add_memory_refused e tenant_id memory_data
                (Redis.RedisAdapter server true) t eq_refl Ht Hno) as (doc & msg & ->).
    destruct (WorkingReadFacts.get_memories_decoded e tenant_id
                (Some (Working.c_session_id memory_data)) limit
                (RedisSpec.logged (Redis.SETEX (WorkingSpec.key_of e tenant_id memory_data) t doc)
                   (Redis.RedisAdapter server true)))
      as [pattern Hget]; [reflexivity|].
    eexists _, _, _. split; [reflexivity|].
    split; [intros H; contradiction|].
    split; [intros _; split; [eauto | reflexivity] | exact Hget].
Qed.

Lemma working_write_then_get_returns_nothing_witness :
  exists r c1 c2,
    Working.add_memory Samples.demo_env "tenant-a" Samples.wm_create
      (Redis.RedisAdapter ∅ true) = (Py.Ok r, c1)
    /\ Redis.db c1 !! ("tenant:" ++ "tenant-a" ++ ":session:"
                        ++ Working.c_session_id Samples.wm_create
                        ++ ":memory:" ++ Working.r_memory_id r)
       = Some (Redis.Dumps (Working.dict (WorkingSpec.memory_of Samples.demo_env Samples.wm_create)),
               Some 3600)
    /\ Working.memory_id (WorkingSpec.memory_of Samples.demo_env Samples.wm_create)
       = Working.r_memory_id r
    /\ Working.content (WorkingSpec.memory_of Samples.demo_env Samples.wm_create)
       = Working.r_content r
    /\ Working.ttl_seconds (WorkingSpec.memory_of Samples.demo_env Samples.wm_create)
       = Some 3600
    /\ Working.get_memories Samples.demo_env "tenant-a"
         (Some (Working.c_session_id Samples.wm_create)) 10 c1
       = (Py.Ok [], c2).
Proof.
  destruct (working_write_then_get_returns_nothing Samples.demo_env "tenant-a"
              Samples.wm_create ∅ 10 3600) as (out & c1 & c2 & Hadd & Htakes & _ & Hget);
    [reflexivity | lia |].
  destruct Htakes as (r & -> & Hdb & Hid & Hcontent & Httl).
  { split; [lia | reflexivity]. }
  exists r, c1, c2. repeat split; assumption.
Defined.

(** The stored key does match the scan pattern: the server reports it, and
    it is the adapter's [decode] of a [str] that loses it. *)
Example working_scan_sees_the_key :
  Redis.matching Samples.demo_env "tenant:tenant-a:session:s1:memory:*"
    (snd (Working.add_memory Samples.demo_env "tenant-a" Samples.wm_create
            Samples.fresh_redis))
  = [Redis.KStr "tenant:tenant-a:session:s1:memory:wm_123e4567-e89b-42d3-a456-426614174000"].
Proof. vm_compute. reflexivity. Qed.

(** ** Tenant isolation on reads *)

Module IsolationFacts.
Import Py Http.

(** [get_memory] of the short-term handler reads [memory_id], [session_id]
    and [limit] only: a tenant named by the requester changes nothing. *)
Lemma shortterm_get_ignores_tenant e params tenant :
  Shortterm.get_memory e (<["tenant_id" := tenant]> params)
  = Shortterm.get_memory e (delete "tenant_id" params).
Proof.
  unfold Shortterm.get_memory, Shortterm.param.
  rewrite !lookup_insert_ne, !lookup_delete_ne by discriminate. reflexivity.
Qed.

(** The short-term point lookup returns whatever document is stored under
    the id. *)
Lemma shortterm_point_lookup e params memory_id v ttl c :
  Redis.reachable c = true ->
  params !! "memory_id" = Some memory_id -> memory_id <> "" ->
  params !! "limit" = None ->
  Redis.db c !! memory_id = Some (Redis.Dumps v, ttl) -> truthy v = true ->
  exists resp c',
    Shortterm.get_memory e params c = (Ok resp, c')
    /\ statusCode resp = 200
    /\ body resp !! "memories" = Some (PList [v]).
Proof.
  intros Hr Hm Hne Hl Hdb Hv. unfold Shortterm.get_memory, Shortterm.param.
  rewrite Hm, Hl. simpl py_int.
  destruct (String.eqb memory_id "") eqn:E; [apply String.eqb_eq in E; contradiction|].
  unfold Redis.mbind at 1. unfold Redis.lift at 1.
  unfold Redis.mbind at 1. unfold Redis.mbind at 1.
  rewrite RedisFacts.get_reachable by assumption.
  rewrite Hdb. simpl. rewrite Hv. simpl.
  eexists _, _. split; [reflexivity|]. split; reflexivity.
Qed.

(** Long-term reads are scoped: a returned response comes from an item of
    the table whose [tenant_id] is the handler's tenant and whose
    [entity_id] is the one asked for. *)
Lemma longterm_get_scoped tenant entity_id_ t resp :
  Longterm.get_memory tenant entity_id_ t = Ok (Some resp) ->
  Longterm.tenant_id resp = tenant
  /\ exists r, In r (DynamoDB.items t)
               /\ r !! "tenant_id" = Some (PStr tenant)
               /\ r !! "entity_id" = Some (PStr entity_id_)
               /\ Longterm.response_of tenant r = Ok resp.
Proof.
  unfold Longterm.get_memory, DynamoDB.query_items.
  destruct (DynamoDB.t_reachable t); [|discriminate].
  destruct (List.filter _ (List.filter _ (DynamoDB.items t))) as [|r rs] eqn:Hq;
    [discriminate|].
  assert (Hin : In r (List.filter (DynamoDB.holds (DynamoDB.Eq "tenant_id" tenant))
                        (List.filter (DynamoDB.holds (DynamoDB.Eq "entity_id" entity_id_))
                           (DynamoDB.items t))))
    by (rewrite Hq; now left).
  apply List.filter_In in Hin as [Hin Ht]. apply List.filter_In in Hin as [Hin He].
  destruct (Longterm.response_of tenant r) as [resp'|x] eqn:Hresp; simpl; [|discriminate].
  intros [= <-]. split.
  - unfold Longterm.response_of in Hresp.
    repeat match type of Hresp with
           | context [Longterm.subscript ?m ?k] =>
               destruct (Longterm.subscript m k); simpl in Hresp; [|discriminate]
           end.
    repeat match type of Hresp with
           | context [match ?v with _ => _ end] => destruct v; try discriminate
           end.
    now injection Hresp as <-.
  - exists r. split; [assumption|].
    unfold DynamoDB.holds in Ht, He.
    destruct (r !! "tenant_id") as [[]|]; try discriminate.
    destruct (r !! "entity_id") as [[]|]; try discriminate.
    apply String.eqb_eq in Ht, He. subst. auto.
Qed.

(** An item of another tenant is never what a long-term read returns. *)
Lemma longterm_cross_tenant tenant_a tenant_b entity_id_ t resp r :
  tenant_a <> tenant_b ->
  r !! "tenant_id" = Some (PStr tenant_a) ->
  Longterm.get_memory tenant_b entity_id_ t = Ok (Some resp) ->
  Longterm.response_of tenant_b r = Ok resp ->
  exists r', In r' (DynamoDB.items t) /\ r' <> r
             /\ Longterm.response_of tenant_b r' = Ok resp.
Proof.
  intros Hne Hr Hget Hresp.
  destruct (longterm_get_scoped _ _ _ _ Hget) as (_ & r' & Hin & Ht & _ & Hresp').
  exists r'. repeat split; try assumption. intros ->. congruence.
Qed.

End IsolationFacts.

(** C1 at the failing input.  Tenant A stores a short-term memory; tenant
    B asks for it by A's memory id and gets it: status 200, one memory, A's
    content.  The stored record has no [tenant_id] to compare with. *)
Theorem shortterm_point_lookup_crosses_tenants :
  exists c1 resp c2 record,
    Shortterm.add_memory Samples.demo_env Samples.body_of_A Samples.fresh_redis
    = (Py.Ok (ShorttermSpec.created Samples.demo_env 604800), c1)
    /\ Samples.body_of_A !! "tenant_id" = Some (Py.PStr "tenant-a")
    /\ Samples.params_of_B !! "tenant_id" = Some "tenant-b"
    /\ Samples.params_of_B !! "memory_id" = Some (Http.generate_id Samples.demo_env "stm")
    /\ Shortterm.get_memory Samples.demo_env Samples.params_of_B c1 = (Py.Ok resp, c2)
    /\ Http.statusCode resp = 200
    /\ Http.body resp !! "memories" = Some (Py.PList [Py.PDict record])
    /\ Http.body resp !! "count" = Some (Py.PInt 1)
    /\ record !! "content" = Some (Py.PStr "secret of tenant A")
    /\ record !! "tenant_id" = None.
Proof.
  eexists _, _, _, _.
  split; [vm_compute; reflexivity|].
  split; [vm_compute; reflexivity|].
  split; [vm_compute; reflexivity|].
  split; [vm_compute; reflexivity|].
  split; [vm_compute; reflexivity|].
  split; [reflexivity|].
  split; [vm_compute; reflexivity|].
  split; [vm_compute; reflexivity|].
  split; vm_compute; reflexivity.
Qed.

Example longterm_read_is_scoped :
  match Longterm.get_memory "tenant-b" "user-1" Samples.ltm_table with
  | Py.Ok (Some r) =>
      Longterm.summary r = Py.PStr "likes coffee" /\ Longterm.memory_id r = "ltm_2"
  | _ => False
  end.
Proof. vm_compute. split; reflexivity. Qed.

(** ** Tenant stamping on writes *)

Module StampingFacts.
Import Py Http.

(** The semantic Lambda never reads the headers. *)
Lemma semantic_add_ignores_headers e m h h' q b adapter :
  Semantic.handle_add_memory e (Event m h q b) adapter
  = Semantic.handle_add_memory e (Event m h' q b) adapter.
Proof. reflexivity. Qed.

(** The long-term Lambda stamps the header tenant; the body's [tenant_id]
    is not read. *)
Lemma longterm_post_ignores_body_tenant e m h q b t tenant :
  b !! "entity_id" <> None ->
  Longterm.lambda_post e (Event m h q (Some (<["tenant_id" := tenant]> b))) t
  = Longterm.lambda_post e (Event m h q (Some b)) t.
Proof.
  intros Hb. unfold Longterm.lambda_post. cbn [ev_body].
  assert (Hne : b <> ∅) by (intros ->; apply Hb, lookup_empty).
  assert (Hne' : <["tenant_id" := tenant]> b <> ∅) by apply insert_non_empty.
  rewrite !bool_decide_eq_false_2 by assumption.
  unfold Py.get. simpl List.filter.
  rewrite !lookup_insert_ne by discriminate. reflexivity.
Qed.

Lemma longterm_update_stamps_handler_tenant e tenant memory_data t r t' :
  Longterm.update_memory e tenant memory_data t = (Ok r, t') ->
  Longterm.tenant_id r = tenant
  /\ exists item, In item (DynamoDB.items t')
                  /\ item !! "tenant_id" = Some (PStr tenant)
                  /\ item !! "entity_id" = Some (PStr (Longterm.c_entity_id memory_data)).
Proof.
  unfold Longterm.update_memory, DynamoDB.put_item.
  destruct (DynamoDB.t_reachable t); simpl; [|discriminate].
  intros [= <- <-]. split; [reflexivity|].
  eexists. split; [apply in_or_app; right; left; reflexivity|].
  split; reflexivity.
Qed.

(** [app.py]: the header wins over the body when both are present. *)
Lemma app_header_wins headers body h :
  headers !! "X-Tenant-ID" = Some h -> h <> "" ->
  App.add_semantic_memory_tenant headers body = PStr h.
Proof.
  intros Hh Hne. unfold App.add_semantic_memory_tenant, py_or. rewrite Hh. simpl.
  destruct (String.eqb h "") eqn:E; [apply String.eqb_eq in E; contradiction|].
  reflexivity.
Qed.

End StampingFacts.

(** C3 at the failing input.  A semantic write arrives with header
    [X-Tenant-ID: tenant-a] and [tenant_id: tenant-b] in the body: it is
    accepted with status 201 and the stored document records [tenant-b]. *)
Theorem semantic_add_persists_payload_tenant :
  Longterm.header_tenant Samples.spoofed_event = "tenant-a"
  /\ Http.extract_body Samples.spoofed_event !! "tenant_id" = Some (Py.PStr "tenant-b")
  /\ Samples.status_of
       (fst (Semantic.handle_add_memory Samples.demo_env Samples.spoofed_event
               (Samples.empty_index true)))
     = Some 201
  /\ Samples.persisted_tenant
       (snd (Semantic.handle_add_memory Samples.demo_env Samples.spoofed_event
               (Samples.empty_index true)))
       (Http.generate_id Samples.demo_env "sem")
     = Some (Py.PStr "tenant-b").
Proof. repeat split; vm_compute; reflexivity. Qed.

(** ** Search failures and the semantic query *)

Module SearchFacts.
Import Py Http.

Lemma getattr_search_by_vector :
  OpenSearch.getattr "search_by_vector"
  = Raise (AttributeError "OpenSearchAdapter" "search_by_vector").
Proof. reflexivity. Qed.

Lemma getattr_search_by_text :
  OpenSearch.getattr "search_by_text"
  = Raise (AttributeError "OpenSearchAdapter" "search_by_text").
Proof. reflexivity. Qed.

(** [handle_query_memory] never returns search results: the two methods it
    calls are not defined by [OpenSearchAdapter], so a well-formed query
    ends in [AttributeError] (a 500 response of the Lambda), whether the
    index is reachable or not. *)
Lemma handle_query_memory_no_results e ev adapter resp :
  Semantic.handle_query_memory e ev adapter = Ok resp -> statusCode resp = 400.
Proof.
  unfold Semantic.handle_query_memory.
  destruct (Shortterm.param _ "query"); [|intros [= <-]; reflexivity].
  destruct (Semantic.effective_limit e _); simpl; [|discriminate].
  destruct (Semantic.effective_min_score e _); simpl; [|discriminate].
  destruct (String.eqb _ "vector").
  - destruct (Semantic.generate_embedding e s); simpl; discriminate.
  - destruct (String.eqb _ "text"); simpl; [discriminate|].
    intros [= <-]. reflexivity.
Qed.

End SearchFacts.

(** C8, as amended.  When the search client's call fails, the adapter's
    [search_vector] and [search_text] return the empty list instead of
    raising.  The result carries no flag: it is the list a reachable index
    without hits returns. *)
Theorem search_failure_degrades_to_empty_list
    (c : OpenSearch.client) (vector : list float) (query_text : string)
    (size : Z) (min_score : float) :
  OpenSearch.reachable c = false ->
  OpenSearch.search_vector vector size min_score c = []
  /\ OpenSearch.search_text query_text size c = []
  /\ (forall c',
        OpenSearch.reachable c' = true ->
        OpenSearch.answer c'
          (OpenSearch.Query size (Some min_score) (OpenSearch.ByVector vector)) = [] ->
        OpenSearch.search_vector vector size min_score c'
        = OpenSearch.search_vector vector size min_score c).
Proof.
  intros Hdown. unfold OpenSearch.search_vector, OpenSearch.search_text.
  rewrite Hdown. repeat split.
  intros c' Hup Hnone. now rewrite Hup, Hnone.
Qed.

Lemma search_failure_degrades_to_empty_list_witness :
  OpenSearch.search_vector [0.5%float] 10 0.5%float (Samples.empty_index false) = []
  /\ OpenSearch.search_text "cats" 10 (Samples.empty_index false) = []
  /\ OpenSearch.search_vector [0.5%float] 10 0.5%float (Samples.empty_index true)
     = OpenSearch.search_vector [0.5%float] 10 0.5%float (Samples.empty_index false).
Proof.
  destruct (search_failure_degrades_to_empty_list (Samples.empty_index false)
              [0.5%float] "cats" 10 0.5%float eq_refl) as (Hv & Ht & Hsame).
  split; [exact Hv|]. split; [exact Ht|].
  apply Hsame; reflexivity.
Defined.

(** C8, as stated, fails on the flag: the result of a failed search is the
    same value as the result of a search without hits, so nothing computed
    from it can tell the caller that it is degraded. *)
Lemma failed_search_is_not_flagged :
  OpenSearch.search_vector [0.5%float] 10 0.5%float (Samples.empty_index false)
  = OpenSearch.search_vector [0.5%float] 10 0.5%float (Samples.empty_index true)
  /\ ~ (exists degraded : list (gmap string Py.pyval) -> bool,
          degraded (OpenSearch.search_vector [0.5%float] 10 0.5%float
                      (Samples.empty_index false)) = true
          /\ degraded (OpenSearch.search_vector [0.5%float] 10 0.5%float
                         (Samples.empty_index true)) = false).
Proof.
  split; [reflexivity|].
  intros (degraded & Hdown & Hup).
  change (OpenSearch.search_vector [0.5%float] 10 0.5%float (Samples.empty_index false))
    with (@nil (gmap string Py.pyval)) in Hdown.
  change (OpenSearch.search_vector [0.5%float] 10 0.5%float (Samples.empty_index true))
    with (@nil (gmap string Py.pyval)) in Hup.
  congruence.
Qed.

(** The Lambda's query handler answers a well-formed query with an
    exception, whether the index is reachable or not. *)
Example semantic_query_raises :
  Semantic.handle_query_memory Samples.demo_env
    (Samples.query_event Samples.plain_query) (Samples.empty_index true)
  = Py.Raise (Py.AttributeError "OpenSearchAdapter" "search_by_vector")
  /\ Semantic.handle_query_memory Samples.demo_env
       (Samples.query_event Samples.plain_query) (Samples.empty_index false)
     = Py.Raise (Py.AttributeError "OpenSearchAdapter" "search_by_vector").
Proof. split; vm_compute; reflexivity. Qed.

(** ** Query parameter clamping *)

Module ClampFacts.
Import Py Http Semantic.

Lemma clamp_int_bounds n : 1 <= min_int (max_int n 1) 100 <= 100.
Proof.
  unfold min_int, max_int.
  destruct (n <? 1) eqn:E1; [simpl; lia|].
  apply Z.ltb_ge in E1.
  destruct (100 <? n) eqn:E2; [lia|]. apply Z.ltb_ge in E2. lia.
Qed.

(** Whatever the caller supplies, a limit that parses is clamped to
    [1, 100]; an absent limit is 10. *)
Lemma effective_limit_bounds e params n :
  effective_limit e params = Ok n -> 1 <= n <= 100.
Proof.
  unfold effective_limit. destruct (py_int e _); simpl; [|discriminate].
  intros [= <-]. apply clamp_int_bounds.
Qed.

Lemma effective_limit_default e params :
  params !! "limit" = None -> effective_limit e params = Ok 10.
Proof. intros H. unfold effective_limit. rewrite H. reflexivity. Qed.

Lemma effective_min_score_default e params :
  params !! "min_score" = None ->
  effective_min_score e params = Ok 0x1.6666666666666p-1%float.
Proof. intros H. unfold effective_min_score. rewrite H. reflexivity. Qed.

(** The clamped score is never below 0 and never above 1 ... *)
Lemma clamp_float_not_outside x :
  PrimFloat.ltb (min_float (max_float x 0) 1) 0 = false
  /\ PrimFloat.ltb 1 (min_float (max_float x 0) 1) = false.
Proof.
  unfold min_float, max_float.
  destruct (PrimFloat.ltb x 0) eqn:E1.
  - change (PrimFloat.ltb 1 0) with false. cbv iota. split; reflexivity.
  - destruct (PrimFloat.ltb 1 x) eqn:E2; [split; reflexivity | split; assumption].
Qed.

(** ... and is the parsed value itself unless that is below 0 or above 1:
    a NaN compares false both ways and passes through. *)
Lemma clamp_float_passes x :
  PrimFloat.ltb x 0 = false -> PrimFloat.ltb 1 x = false ->
  min_float (max_float x 0) 1 = x.
Proof. intros E1 E2. unfold min_float, max_float. now rewrite E1, E2. Qed.

End ClampFacts.

(** C10 at the failing input.  For the query string [min_score=nan],
    [float("nan")] is a NaN, [max(nan, 0.0)] and [min(nan, 1.0)] keep it,
    and the effective [min_score] is a NaN: neither [0.0 <= min_score] nor
    [min_score <= 1.0] holds.  The limit of the same request is the
    default 10. *)
Theorem min_score_nan_is_not_clamped :
  float_of_str Samples.demo_env "nan" = Some PrimFloat.nan
  /\ Semantic.effective_min_score Samples.demo_env Samples.nan_query = Py.Ok PrimFloat.nan
  /\ PrimFloat.leb 0 PrimFloat.nan = false
  /\ PrimFloat.leb PrimFloat.nan 1 = false
  /\ Semantic.effective_limit Samples.demo_env Samples.nan_query = Py.Ok 10.
Proof. repeat split; vm_compute; reflexivity. Qed.

Example limit_is_clamped :
  Semantic.effective_limit Samples.demo_env Samples.plain_query = Py.Ok 100.
Proof. vm_compute. reflexivity. Qed.

(** * Further properties of the code *)

(** ** The output of [merge_and_rank_results] *)

(** X1.  Whatever the input, the output of [merge_and_rank_results] holds
    only candidates of the input that reach the threshold, is in
    descending order of (score, timestamp), has pairwise distinct content
    fingerprints, and, for a non-negative [max_results], has at most
    [max_results] elements. *)
Theorem merge_and_rank_output_shape
    (results : list Utils.result) (max_results : Z) (relevance_threshold : Q) :
  (forall x, In x (Utils.merge_and_rank_results results max_results relevance_threshold) ->
             In x results /\ (relevance_threshold <= Utils.relevance_score x)%Q)
  /\ StronglySorted RankingSpec.ge_key
       (Utils.merge_and_rank_results results max_results relevance_threshold)
  /\ NoDup (map RankingSpec.fingerprint
              (Utils.merge_and_rank_results results max_results relevance_threshold))
  /\ (0 <= max_results ->
      Z.of_nat (length (Utils.merge_and_rank_results results max_results
                          relevance_threshold)) <= max_results).
Proof.
  split.
  - intros x Hx. apply RankingFacts.merge_In in Hx as [Hin Hp].
    split; [assumption|]. now apply Qle_bool_iff.
  - split; [apply RankingFacts.merge_sorted|].
    split; [apply RankingFacts.merge_NoDup|].
    intros Hmax. now apply RankingFacts.slice_to_length.
Qed.

(** ** Cosine similarity *)

Module CosineFacts.
Import Py Utils SimilaritySpec SimilarityFacts.

Lemma float_mul_comm (x y : float) : (x * y)%float = (y * x)%float.
Proof.
  apply Prim2SF_inj. rewrite !mul_spec. unfold SF64mul.
  destruct (Prim2SF x) as [sx|sx| |sx mx ex], (Prim2SF y) as [sy|sy| |sy my ey];
    cbn [SFmul]; rewrite ?(xorb_comm sx sy); try reflexivity.
  now rewrite Pos.mul_comm, Z.add_comm.
Qed.

Lemma mul_comm (a b : num) : mul a b = mul b a.
Proof.
  destruct a as [x|f], b as [y|g]; cbn.
  - now rewrite Z.mul_comm.
  - destruct (to_float x); cbn; [now rewrite float_mul_comm | reflexivity].
  - destruct (to_float y); cbn; [now rewrite float_mul_comm | reflexivity].
  - now rewrite float_mul_comm.
Qed.

Lemma dot_product_comm (q d : list num) : dot_product q d = dot_product d q.
Proof.
  unfold dot_product, py_sum. generalize (Ok (NInt 0)) as acc.
  revert d. induction q as [|a q IH]; intros [|b d] acc; cbn [combine fold_left fst snd];
    try reflexivity.
  rewrite (mul_comm a b). apply IH.
Qed.

End CosineFacts.

(** X3.  [calculate_relevance_score] is symmetric in its two arguments:
    for all vectors of ints and floats, swapping them gives the same float,
    or the same exception. *)
Theorem similarity_symmetric (query_embedding doc_embedding : list Utils.num) :
  Utils.calculate_relevance_score query_embedding doc_embedding
  = Utils.calculate_relevance_score doc_embedding query_embedding.
Proof.
  unfold Utils.calculate_relevance_score.
  destruct query_embedding as [|a q], doc_embedding as [|b d]; try reflexivity.
  rewrite (CosineFacts.dot_product_comm (a :: q) (b :: d)).
  destruct (Utils.dot_product (b :: d) (a :: q)) as [dot|e]; cbn [Py.bind]; [|reflexivity].
  pose proof (SimilarityFacts.magnitude_only_overflow (a :: q)) as Hq.
  pose proof (SimilarityFacts.magnitude_only_overflow (b :: d)) as Hd.
  destruct (Utils.magnitude (a :: q)) as [ma|ea], (Utils.magnitude (b :: d)) as [mb|eb];
    cbn [Py.bind SimilaritySpec.only_overflow] in *; try reflexivity.
  - now rewrite orb_comm, CosineFacts.float_mul_comm.
  - congruence.
Qed.

(** ** Chunking ([chunk_text]) *)

Module ChunkFacts.
Import Utils.

Lemma substring_length_le (n m : nat) (s : string) :
  (String.length (String.substring n m s) <= m)%nat.
Proof.
  revert n m. induction s as [|c s IH]; intros [|n] [|m]; simpl; try lia.
  - specialize (IH 0%nat m). lia.
  - apply (IH n 0%nat).
  - apply (IH n (S m)).
Qed.

Lemma str_slice_length (s : string) (a b : Z) :
  a <= b -> Z.of_nat (String.length (str_slice s a b)) <= b - a.
Proof.
  intros Hab. unfold str_slice, norm_index.
  pose proof (substring_length_le
                (Z.to_nat (if a <? 0 then Z.max (Z.of_nat (String.length s) + a) 0
                           else Z.min a (Z.of_nat (String.length s))))
                (Z.to_nat ((if b <? 0 then Z.max (Z.of_nat (String.length s) + b) 0
                            else Z.min b (Z.of_nat (String.length s)))
                           - (if a <? 0 then Z.max (Z.of_nat (String.length s) + a) 0
                              else Z.min a (Z.of_nat (String.length s))))) s) as H.
  destruct (a <? 0) eqn:Ea, (b <? 0) eqn:Eb;
    rewrite ?Z.ltb_lt, ?Z.ltb_ge in Ea, Eb; lia.
Qed.

Lemma substring_length_le_whole (n m : nat) (s : string) :
  (String.length (String.substring n m s) <= String.length s)%nat.
Proof.
  revert n m. induction s as [|c s IH]; intros [|n] [|m]; simpl; try lia.
  - specialize (IH 0%nat m). lia.
  - specialize (IH n 0%nat). lia.
  - specialize (IH n (S m)). lia.
Qed.

Lemma str_slice_prefix_length (s : string) (b : Z) :
  Z.of_nat (String.length (str_slice s 0 b)) <= Z.of_nat (String.length s).
Proof. unfold str_slice. apply Nat2Z.inj_le, substring_length_le_whole. Qed.

Lemma rfind_from_lt (s : string) (ch : ascii) (i acc : Z) :
  acc < i -> rfind_from s ch i acc < i + Z.of_nat (String.length s).
Proof.
  revert i acc. induction s as [|c s IH]; intros i acc Hacc; simpl; [lia|].
  specialize (IH (i + 1) (if Ascii.eqb c ch then i else acc)).
  destruct (Ascii.eqb c ch); lia.
Qed.

Lemma rfind_lt (s : string) (ch : ascii) : rfind s ch < Z.of_nat (String.length s).
Proof. unfold rfind. pose proof (rfind_from_lt s ch 0 (-1)). lia. Qed.

Lemma lstrip_length (s : string) : (String.length (lstrip s) <= String.length s)%nat.
Proof. induction s as [|c s IH]; simpl; [lia|]. destruct (is_space c); simpl; lia. Qed.

Lemma rstrip_length (s : string) : (String.length (rstrip s) <= String.length s)%nat.
Proof.
  induction s as [|c s IH]; simpl; [lia|].
  destruct (rstrip s); [destruct (is_space c)|]; simpl in *; lia.
Qed.

Lemma strip_length (s : string) : (String.length (strip s) <= String.length s)%nat.
Proof.
  unfold strip. pose proof (rstrip_length (lstrip s)). pose proof (lstrip_length s). lia.
Qed.

(** One pass: the chunk is no longer than [chunk_size], and the next
    [start] is at most [start + chunk_size - overlap]. *)
Lemma chunk_step_bounds (text : string) (chunk_size overlap start : Z) :
  0 <= chunk_size ->
  Z.of_nat (String.length (fst (chunk_step text chunk_size overlap start))) <= chunk_size
  /\ snd (chunk_step text chunk_size overlap start) <= start + chunk_size - overlap.
Proof.
  intros Hcs. unfold chunk_step.
  pose proof (str_slice_length text start (start + chunk_size)) as Hlen.
  pose proof (rfind_lt (str_slice text start (start + chunk_size)) " ") as Hr.
  pose proof (str_slice_prefix_length (str_slice text start (start + chunk_size))
                (rfind (str_slice text start (start + chunk_size)) " ")) as Hp.
  destruct (start + chunk_size <? Z.of_nat (String.length text));
    [destruct (8 * chunk_size <? 10 * rfind _ _)|];
    simpl; match goal with |- context [strip ?c] => pose proof (strip_length c) end; lia.
Qed.

(** One pass makes progress when the overlap is at most four fifths of
    the chunk size. *)
Lemma chunk_step_progress (text : string) (chunk_size overlap start : Z) :
  0 < chunk_size -> 5 * overlap <= 4 * chunk_size ->
  start < snd (chunk_step text chunk_size overlap start).
Proof.
  intros Hcs Hov. unfold chunk_step.
  destruct (start + chunk_size <? Z.of_nat (String.length text));
    [destruct (8 * chunk_size <? 10 * rfind _ _) eqn:E|]; simpl; lia.
Qed.

Lemma chunk_loop_more_fuel (fuel fuel' : nat) text chunk_size overlap start chunks out :
  chunk_loop fuel text chunk_size overlap start chunks = Some out ->
  (fuel <= fuel')%nat ->
  chunk_loop fuel' text chunk_size overlap start chunks = Some out.
Proof.
  revert fuel' start chunks. induction fuel as [|fuel IH]; intros fuel' start chunks;
    simpl; [discriminate|].
  intros H Hle. destruct fuel' as [|fuel']; [lia|]. simpl.
  destruct (start <? Z.of_nat (String.length text)); [|assumption].
  destruct (chunk_step text chunk_size overlap start) as [chunk start'].
  destruct (Z.of_nat (String.length text) <=? start'); [assumption|].
  apply IH; [assumption | lia].
Qed.

(** With an overlap of at least the chunk size the loop never ends. *)
Lemma chunk_loop_hangs (fuel : nat) text chunk_size overlap start chunks :
  0 <= chunk_size -> chunk_size <= overlap ->
  start <= 0 -> 0 < Z.of_nat (String.length text) ->
  chunk_loop fuel text chunk_size overlap start chunks = None.
Proof.
  intros Hcs Hov. revert start chunks.
  induction fuel as [|fuel IH]; intros start chunks Hstart Hlen; simpl; [reflexivity|].
  destruct (start <? Z.of_nat (String.length text)) eqn:E;
    [|apply Z.ltb_ge in E; lia].
  pose proof (chunk_step_bounds text chunk_size overlap start Hcs) as [_ Hnext].
  destruct (chunk_step text chunk_size overlap start) as [chunk start']. simpl in Hnext.
  destruct (Z.of_nat (String.length text) <=? start') eqn:E';
    [apply Z.leb_le in E'; lia|].
  apply IH; lia.
Qed.

(** With a small overlap the loop ends within [len(text) - start] passes,
    and every chunk it adds is at most [chunk_size] long. *)
Lemma chunk_loop_ends (fuel : nat) text chunk_size overlap start chunks :
  0 < chunk_size -> 5 * overlap <= 4 * chunk_size ->
  (1 <= fuel)%nat -> Z.of_nat (String.length text) - start <= Z.of_nat fuel ->
  Forall (fun c => Z.of_nat (String.length c) <= chunk_size) chunks ->
  exists out,
    chunk_loop fuel text chunk_size overlap start chunks = Some out
    /\ Forall (fun c => Z.of_nat (String.length c) <= chunk_size) out
    /\ (start < Z.of_nat (String.length text) -> out <> []).
Proof.
  intros Hcs Hov. revert start chunks.
  induction fuel as [|fuel IH]; intros start chunks Hfuel Hmeasure Hall; [lia|].
  simpl. destruct (start <? Z.of_nat (String.length text)) eqn:E.
  - pose proof (chunk_step_bounds text chunk_size overlap start ltac:(lia)) as [Hc _].
    pose proof (chunk_step_progress text chunk_size overlap start Hcs Hov) as Hp.
    destruct (chunk_step text chunk_size overlap start) as [chunk start'].
    simpl in Hc, Hp.
    assert (Hall' : Forall (fun c => Z.of_nat (String.length c) <= chunk_size)
                           (chunks ++ [chunk]))
      by (apply Forall_app; split; [assumption | repeat constructor; assumption]).
    destruct (Z.of_nat (String.length text) <=? start') eqn:E'.
    + eexists. split; [reflexivity|]. split; [assumption|].
      intros _ Hnil. now apply app_eq_nil in Hnil as [_ Hnil].
    + apply Z.leb_gt in E'.
      destruct (IH start' (chunks ++ [chunk])%list) as (out & Hout & Hforall & Hne);
        [lia | lia | assumption |].
      exists out. split; [assumption|]. split; [assumption|].
      intros _. apply Hne. assumption.
  - apply Z.ltb_ge in E. eexists. split; [reflexivity|]. split; [assumption|]. lia.
Qed.

End ChunkFacts.

(** X4.  [chunk_text] never returns when the chunk size is not negative,
    the text is longer than one chunk and the overlap is at least the chunk
    size: [start] never moves forward, so however many passes the loop is
    given, it is still running. *)
Theorem chunk_text_hangs_on_large_overlap
    (fuel : nat) (text : string) (chunk_size overlap : Z) :
  0 <= chunk_size -> chunk_size < Z.of_nat (String.length text) ->
  chunk_size <= overlap ->
  Utils.chunk_text fuel text chunk_size overlap = None.
Proof.
  intros Hcs Hlen Hov. unfold Utils.chunk_text.
  destruct (Z.of_nat (String.length text) <=? chunk_size) eqn:E;
    [apply Z.leb_le in E; lia|].
  apply ChunkFacts.chunk_loop_hangs; lia.
Qed.

Lemma chunk_text_hangs_on_large_overlap_witness :
  Utils.chunk_text 1000 "one two three" 5 5 = None.
Proof. apply chunk_text_hangs_on_large_overlap; simpl; lia. Defined.

(** X5.  With a positive chunk size and an overlap of at most four fifths
    of it, [chunk_text] returns after at most [len(text)] passes of its
    loop; the result is not empty and no chunk is longer than
    [chunk_size]. *)
Theorem chunk_text_ends_with_bounded_chunks
    (text : string) (chunk_size overlap : Z) :
  0 < chunk_size -> 5 * overlap <= 4 * chunk_size ->
  exists chunks,
    (forall fuel, (String.length text <= fuel)%nat ->
                  Utils.chunk_text fuel text chunk_size overlap = Some chunks)
    /\ chunks <> []
    /\ Forall (fun c => Z.of_nat (String.length c) <= chunk_size) chunks.
Proof.
  intros Hcs Hov. unfold Utils.chunk_text.
  destruct (Z.of_nat (String.length text) <=? chunk_size) eqn:E.
  - apply Z.leb_le in E. exists [text]. split; [reflexivity|].
    split; [discriminate | repeat constructor; assumption].
  - apply Z.leb_gt in E.
    destruct (ChunkFacts.chunk_loop_ends (String.length text) text chunk_size overlap 0 [])
      as (out & Hout & Hall & Hne); try lia; [constructor|].
    exists out. split; [|split; [apply Hne; lia | assumption]].
    intros fuel Hfuel. eapply ChunkFacts.chunk_loop_more_fuel; eassumption.
Qed.

Lemma chunk_text_ends_with_bounded_chunks_witness :
  exists chunks,
    (forall fuel, (String.length "one two three four" <= fuel)%nat ->
                  Utils.chunk_text fuel "one two three four" 8 2 = Some chunks)
    /\ chunks <> []
    /\ Forall (fun c => Z.of_nat (String.length c) <= 8) chunks.
Proof. apply chunk_text_ends_with_bounded_chunks; lia. Defined.

Example chunk_text_demo :
  Utils.chunk_text 18 "one two three four" 8 2 = Some ["one two"; "wo three"; "ee four"; "r"].
Proof. vm_compute. reflexivity. Qed.

(** ** The Redis adapter: writes, reads and deletes *)

Module RedisMoreFacts.
Import Py Redis RedisSpec.

Lemma set_none e key v c :
  reachable c = true ->
  set e key v None c = (Ok true, stored key v None (SET key (Dumps v)) c).
Proof. intros Hr. unfold set, client_set, command, stored. now rewrite Hr. Qed.

(** A write with no TTL, TTL 0 or a TTL the server takes stores the value. *)
Lemma set_stores e key v ttl c :
  reachable c = true -> (forall t, ttl = Some t -> t = 0 \/ takes e t) ->
  exists expiry k, set e key v ttl c = (Ok true, stored key v expiry k c).
Proof.
  intros Hr Httl. destruct ttl as [t|].
  - destruct (Httl t eq_refl) as [-> | Htakes].
    + eexists _, _. now apply RedisFacts.set_zero.
    + eexists _, _. now apply RedisFacts.set_positive.
  - eexists _, _. now apply set_none.
Qed.

Lemma get_result key c :
  fst (get key c) = Ok (if reachable c then loads <$> (fst <$> db c !! key) else None).
Proof.
  unfold get, try_except, mbind, client_get, command.
  destruct (reachable c); [|reflexivity]. simpl.
  destruct (db c !! key) as [[v ttl]|]; reflexivity.
Qed.

(** What the comprehension of [get_multiple] can give. *)
Lemma mget_comprehension (values : list (option json_text)) :
  comprehension
    (fun v => match v with
              | Some t => let* d := deserialize_memory_str t in Ok (Some d)
              | None => Ok None
              end) values
  = Ok (repeat None (length values))
  \/ exists x,
       comprehension
         (fun v => match v with
                   | Some t => let* d := deserialize_memory_str t in Ok (Some d)
                   | None => Ok None
                   end) values
       = Raise x.
Proof.
  set (f := fun v : option json_text =>
              match v with
              | Some t => let* d := deserialize_memory_str t in Ok (Some d)
              | None => Ok None
              end).
  induction values as [|[t|] values IH].
  - now left.
  - right. eexists. reflexivity.
  - cbn [comprehension length repeat]. unfold f at 1 3. cbn [bind].
    destruct IH as [H | [x H]]; rewrite H; cbn [bind]; eauto.
Qed.

Lemma get_multiple_result keys c :
  exists c', get_multiple keys c = (Ok (repeat None (length keys)), c').
Proof.
  unfold get_multiple, try_except, mbind, client_mget, command.
  destruct (reachable c); [|eexists; reflexivity]. cbv beta iota zeta. unfold lift.
  destruct (mget_comprehension (map (fun k => fst <$> db c !! k) keys)) as [-> | [x ->]].
  - rewrite length_map. eexists. reflexivity.
  - eexists. reflexivity.
Qed.

Lemma delete_reachable key c :
  reachable c = true ->
  Redis.delete key c
  = (Ok (bool_decide (is_Some (db c !! key))),
     Client true (decode_responses c) (base.delete key (db c)) (log c ++ [DEL key])).
Proof.
  intros Hr. unfold Redis.delete, try_except, mbind, client_delete, command.
  rewrite Hr. simpl. unfold ret.
  destruct (db c !! key) as [x|]; reflexivity.
Qed.

End RedisMoreFacts.

(** X6.  Round trip through the Redis adapter: on a reachable store, after
    [set(key, value, ttl)] with no TTL, with TTL 0 or with a positive TTL
    that the store takes as expiry, [get(key)] returns [value], and [get]
    of every other key returns what it returned before. *)
Theorem redis_set_then_get
    (e : env) (key : string) (value : Py.pyval) (ttl_seconds : option Z) (c : Redis.client) :
  Redis.reachable c = true ->
  (forall t, ttl_seconds = Some t -> t = 0 \/ RedisSpec.takes e t) ->
  exists c1,
    Redis.set e key value ttl_seconds c = (Py.Ok true, c1)
    /\ fst (Redis.get key c1) = Py.Ok (Some value)
    /\ forall key', key' <> key -> fst (Redis.get key' c1) = fst (Redis.get key' c).
Proof.
  intros Hr Httl.
  destruct (RedisMoreFacts.set_stores e key value ttl_seconds c Hr Httl) as (expiry & k & Hset).
  eexists. split; [exact Hset|].
  rewrite !RedisMoreFacts.get_result. cbn [Redis.reachable Redis.db RedisSpec.stored].
  rewrite Hr. split.
  - now rewrite lookup_insert_eq.
  - intros key' Hne. rewrite !RedisMoreFacts.get_result.
    cbn [Redis.reachable Redis.db RedisSpec.stored]. rewrite Hr.
    now rewrite lookup_insert_ne by congruence.
Qed.

Lemma redis_set_then_get_witness :
  exists c1,
    Redis.set Samples.demo_env "k" (Py.PStr "v") (Some 60) Samples.fresh_redis = (Py.Ok true, c1)
    /\ fst (Redis.get "k" c1) = Py.Ok (Some (Py.PStr "v"))
    /\ forall key', key' <> "k" ->
                    fst (Redis.get key' c1) = fst (Redis.get key' Samples.fresh_redis).
Proof.
  apply redis_set_then_get; [reflexivity|]. intros t [= <-].
  right. split; [lia | reflexivity].
Defined.

(** X7.  [get_multiple] returns one entry per requested key and every
    entry is [None], whatever the store holds: the replies are [str], and
    [deserialize_memory] needs a dictionary, so a key that exists makes the
    call fall into the [except] branch. *)
Theorem redis_get_multiple_finds_nothing (keys : list string) (c : Redis.client) :
  exists c', Redis.get_multiple keys c = (Py.Ok (repeat None (length keys)), c').
Proof. apply RedisMoreFacts.get_multiple_result. Qed.

(** X8.  [delete] on a reachable store answers [True] exactly when the key
    was there, removes it and nothing else, and a following [get] finds
    nothing; on an unreachable store it answers [False] and raises
    nothing. *)
Theorem redis_delete_behaviour (key : string) (c : Redis.client) :
  exists b c',
    Redis.delete key c = (Py.Ok b, c')
    /\ (b = true <-> Redis.reachable c = true /\ is_Some (Redis.db c !! key))
    /\ Redis.db c' = (if Redis.reachable c then base.delete key (Redis.db c) else Redis.db c)
    /\ fst (Redis.get key c') = Py.Ok None.
Proof.
  destruct (Redis.reachable c) eqn:Hr.
  - rewrite RedisMoreFacts.delete_reachable by assumption.
    eexists _, _. split; [reflexivity|]. split; [|split; [reflexivity|]].
    + rewrite bool_decide_eq_true. tauto.
    + rewrite RedisMoreFacts.get_result. cbn [Redis.reachable Redis.db].
      now rewrite lookup_delete_eq.
  - unfold Redis.delete, Redis.try_except, Redis.mbind, Redis.client_delete, Redis.command.
    rewrite Hr. eexists _, _. split; [reflexivity|]. split; [|split; [reflexivity|]].
    + split; [discriminate | intros [? _]; discriminate].
    + rewrite RedisMoreFacts.get_result. reflexivity.
Qed.

(** ** Short-term memory: round trip, session keys, validation *)

Module ShorttermMoreFacts.
Import Py Http Redis Shortterm RedisSpec ShorttermSpec ShorttermKeys.
#[local] Arguments Redis.set : simpl never.

(** What a successful write leaves in the store. *)
Lemma add_memory_documents e body c v md sid t :
  body !! "content" = Some v -> is_content v = true ->
  get_d body "metadata" (PDict ∅) = PDict md ->
  get_d body "session_id" (PStr "") = PStr sid ->
  get_d body "ttl_seconds" (PInt 604800) = PInt t ->
  reachable c = true -> takes e t ->
  exists c1,
    add_memory e body c = (Ok (created e t), c1)
    /\ reachable c1 = true
    /\ db c1 !! generate_id e "stm"
       = Some (Dumps (to_dict (memory_of e v md t sid)), Some t)
    /\ (sid <> "" ->
        db c1 !! session_key e sid
        = Some (Dumps (to_dict (memory_of e v md t sid)), Some t)
        /\ log c1 = (log c ++ [SETEX (generate_id e "stm") t
                                 (Dumps (to_dict (memory_of e v md t sid)));
                               SETEX (session_key e sid) t
                                 (Dumps (to_dict (memory_of e v md t sid)))])%list)
    /\ (sid = "" ->
        log c1 = (log c ++ [SETEX (generate_id e "stm") t
                                 (Dumps (to_dict (memory_of e v md t sid)))])%list).
Proof.
  intros Hc Hv Hm Hs Ht Hr Hpos.
  rewrite (ShorttermFacts.shortterm_add_memory_unfold e body c v md sid t) by assumption.
  cbv zeta. rewrite RedisFacts.set_positive by assumption.
  destruct (String.eqb sid "") eqn:Esid; cbn [negb].
  - apply String.eqb_eq in Esid. eexists. split; [reflexivity|]. split; [assumption|].
    split; [apply lookup_insert_eq|]. split; [congruence | reflexivity].
  - apply String.eqb_neq in Esid.
    rewrite RedisFacts.set_positive by assumption.
    eexists. split; [reflexivity|]. split; [assumption|].
    cbn [db log stored]. split.
    + rewrite lookup_insert. case_decide; [reflexivity | apply lookup_insert_eq].
    + split; [|contradiction]. intros _. split; [apply lookup_insert_eq|].
      now rewrite <- app_assoc.
Qed.

Lemma to_dict_truthy m : truthy (to_dict m) = true.
Proof.
  unfold to_dict, truthy. apply negb_true_iff, bool_decide_eq_false_2, insert_non_empty.
Qed.

(** The response of a point lookup that finds a document. *)
Lemma point_lookup_response e params memory_id v ttl c :
  reachable c = true ->
  params !! "memory_id" = Some memory_id -> memory_id <> "" ->
  params !! "limit" = None ->
  db c !! memory_id = Some (Dumps v, ttl) -> truthy v = true ->
  get_memory e params c
  = (Ok (create_response 200
           (<["memories" := PList [v]]>
           (<["count" := PInt 1]>
           (<["query" := PDict (<["memory_id" := PStr memory_id]>
                               (<["session_id" := opt_str (params !! "session_id")]>
                               (<["limit" := PInt 10]> ∅)))]> ∅)))),
     logged (GET memory_id) c).
Proof.
  intros Hr Hm Hne Hl Hdb Hv. unfold get_memory, param.
  rewrite Hm, Hl. simpl py_int.
  destruct (String.eqb memory_id "") eqn:E; [apply String.eqb_eq in E; contradiction|].
  unfold mbind at 1. unfold lift at 1.
  unfold mbind at 1. unfold mbind at 1.
  rewrite RedisFacts.get_reachable by assumption.
  rewrite Hdb. simpl. rewrite Hv. reflexivity.
Qed.

End ShorttermMoreFacts.

(** X9.  Round trip through short-term memory: after a successful
    [add_memory] (fields of their declared types, reachable store, an
    effective TTL that is positive and that the store takes as expiry),
    [get_memory] with the returned [memory_id] answers 200 with exactly one
    memory, carrying the id, the content and the TTL that were written. *)
Theorem shortterm_write_then_read
    (e : env) (body : gmap string Py.pyval) (c : Redis.client) (t : Z) :
  ShorttermSpec.well_typed body -> Redis.reachable c = true ->
  Py.get_d body "ttl_seconds" (Py.PInt 604800) = Py.PInt t -> RedisSpec.takes e t ->
  exists c1 resp c2 record,
    Shortterm.add_memory e body c = (Py.Ok (ShorttermSpec.created e t), c1)
    /\ Shortterm.get_memory e {[ "memory_id" := Http.generate_id e "stm" ]} c1
       = (Py.Ok resp, c2)
    /\ Http.statusCode resp = 200
    /\ Http.body resp !! "memories" = Some (Py.PList [Py.PDict record])
    /\ Http.body resp !! "count" = Some (Py.PInt 1)
    /\ record !! "id" = Some (Py.PStr (Http.generate_id e "stm"))
    /\ record !! "content" = body !! "content"
    /\ record !! "ttl_seconds" = Some (Py.PInt t).
Proof.
  intros ((v & Hc & Hv) & (md & Hm) & (sid & Hs)) Hr Ht Hpos.
  destruct (ShorttermMoreFacts.add_memory_documents e body c v md sid t)
    as (c1 & Hadd & Hr1 & Hdoc & _); try assumption.
  exists c1. eexists _, _, _. split; [exact Hadd|].
  split.
  - apply (ShorttermMoreFacts.point_lookup_response e _ (Http.generate_id e "stm")
             (Shortterm.to_dict (ShorttermSpec.memory_of e v md t sid)) (Some t) c1);
      try assumption.
    + apply lookup_singleton_eq.
    + discriminate.
    + apply lookup_singleton_ne. discriminate.
    + apply ShorttermMoreFacts.to_dict_truthy.
  - split; [reflexivity|]. split; [reflexivity|]. split; [reflexivity|].
    split; [reflexivity|]. split; [now rewrite Hc | reflexivity].
Qed.

Lemma shortterm_write_then_read_witness :
  exists c1 resp c2 record,
    Shortterm.add_memory Samples.demo_env Samples.body_ttl_120 Samples.fresh_redis
    = (Py.Ok (ShorttermSpec.created Samples.demo_env 120), c1)
    /\ Shortterm.get_memory Samples.demo_env
         {[ "memory_id" := Http.generate_id Samples.demo_env "stm" ]} c1
       = (Py.Ok resp, c2)
    /\ Http.statusCode resp = 200
    /\ Http.body resp !! "memories" = Some (Py.PList [Py.PDict record])
    /\ Http.body resp !! "count" = Some (Py.PInt 1)
    /\ record !! "id" = Some (Py.PStr (Http.generate_id Samples.demo_env "stm"))
    /\ record !! "content" = Samples.body_ttl_120 !! "content"
    /\ record !! "ttl_seconds" = Some (Py.PInt 120).
Proof.
  apply shortterm_write_then_read;
    [|reflexivity|vm_compute; reflexivity|split; [lia | reflexivity]].
  split; [eexists; split; vm_compute; reflexivity|].
  split; eexists; vm_compute; reflexivity.
Defined.

(** X10.  A short-term write that names a session, with an effective TTL
    that is positive and that the store takes as expiry, stores the same
    document twice, under [memory_id] and under
    [session:{session_id}:{memory_id}], both with the effective TTL as
    expiry, by two [SETEX] commands; such a write without session sends
    only the first. *)
Theorem shortterm_session_write_stores_twice
    (e : env) (body : gmap string Py.pyval) (c : Redis.client)
    (v : Py.pyval) (md : gmap string Py.pyval) (sid : string) (t : Z) :
  body !! "content" = Some v -> ShorttermSpec.is_content v = true ->
  Py.get_d body "metadata" (Py.PDict ∅) = Py.PDict md ->
  Py.get_d body "session_id" (Py.PStr "") = Py.PStr sid ->
  Py.get_d body "ttl_seconds" (Py.PInt 604800) = Py.PInt t ->
  Redis.reachable c = true -> RedisSpec.takes e t ->
  exists c1 doc,
    Shortterm.add_memory e body c = (Py.Ok (ShorttermSpec.created e t), c1)
    /\ doc = Redis.Dumps (Shortterm.to_dict (ShorttermSpec.memory_of e v md t sid))
    /\ Redis.db c1 !! Http.generate_id e "stm" = Some (doc, Some t)
    /\ (sid <> "" ->
        Redis.db c1 !! ("session:" ++ sid ++ ":" ++ Http.generate_id e "stm")
        = Some (doc, Some t)
        /\ Redis.log c1
           = (Redis.log c
              ++ [Redis.SETEX (Http.generate_id e "stm") t doc;
                  Redis.SETEX ("session:" ++ sid ++ ":" ++ Http.generate_id e "stm") t doc])%list)
    /\ (sid = "" ->
        Redis.log c1 = (Redis.log c ++ [Redis.SETEX (Http.generate_id e "stm") t doc])%list).
Proof.
  intros Hc Hv Hm Hs Ht Hr Hpos.
  destruct (ShorttermMoreFacts.add_memory_documents e body c v md sid t)
    as (c1 & Hadd & _ & Hdoc & Hsession & Hplain); try assumption.
  exists c1. eexists. split; [exact Hadd|]. split; [reflexivity|].
  split; [exact Hdoc|]. split; assumption.
Qed.

Lemma shortterm_session_write_stores_twice_witness :
  exists c1 doc,
    Shortterm.add_memory Samples.demo_env Samples.body_ttl_120 Samples.fresh_redis
    = (Py.Ok (ShorttermSpec.created Samples.demo_env 120), c1)
    /\ doc = Redis.Dumps (Shortterm.to_dict
                            (ShorttermSpec.memory_of Samples.demo_env (Py.PStr "note") ∅ 120 "s1"))
    /\ Redis.db c1 !! Http.generate_id Samples.demo_env "stm" = Some (doc, Some 120)
    /\ ("s1" <> "" ->
        Redis.db c1 !! ("session:" ++ "s1" ++ ":" ++ Http.generate_id Samples.demo_env "stm")
        = Some (doc, Some 120)
        /\ Redis.log c1
           = (Redis.log Samples.fresh_redis
              ++ [Redis.SETEX (Http.generate_id Samples.demo_env "stm") 120 doc;
                  Redis.SETEX ("session:" ++ "s1" ++ ":"
                               ++ Http.generate_id Samples.demo_env "stm") 120 doc])%list)
    /\ ("s1" = "" ->
        Redis.log c1
        = (Redis.log Samples.fresh_redis
           ++ [Redis.SETEX (Http.generate_id Samples.demo_env "stm") 120 doc])%list).
Proof.
  apply (shortterm_session_write_stores_twice Samples.demo_env Samples.body_ttl_120
           Samples.fresh_redis (Py.PStr "note") ∅ "s1" 120);
    try (vm_compute; reflexivity); split; [lia | reflexivity].
Defined.



(** The scan of that witness does find the session key. *)
Example shortterm_session_scan_sees_the_key :
  fst (Redis.scan_keys Samples.demo_env "session:s1:*"
         (snd (Shortterm.add_memory Samples.demo_env Samples.body_ttl_120
                 Samples.fresh_redis)))
  = Py.Ok [Redis.KStr "session:s1:stm_123e4567-e89b-42d3-a456-426614174000"].
Proof. vm_compute. reflexivity. Qed.



(** ** The Lambda entry points of the Redis-backed handlers *)

Module HandlerFacts.
Import Py Http Redis.

Lemma shortterm_add_memory_status e body c resp c' :
  Shortterm.add_memory e body c = (Ok resp, c') ->
  statusCode resp = 201 \/ statusCode resp = 400 \/ statusCode resp = 500.
Proof.
  unfold Shortterm.add_memory, mbind, lift, ret.
  repeat match goal with
         | |- context [match ?x with _ => _ end] => destruct x eqn:?
         end; intros [= <- <-]; simpl; auto.
Qed.

Lemma shortterm_get_memory_status e params c resp c' :
  Shortterm.get_memory e params c = (Ok resp, c') ->
  statusCode resp = 200 \/ statusCode resp = 400.
Proof.
  unfold Shortterm.get_memory, mbind, lift, ret.
  repeat match goal with
         | |- context [match ?x with _ => _ end] => destruct x eqn:?
         end; intros [= <- <-]; simpl; auto.
Qed.

Lemma working_lambda_post_status e body c resp c' :
  Working.lambda_post e body c = (Ok resp, c') ->
  statusCode resp = 201 \/ statusCode resp = 400.
Proof.
  unfold Working.lambda_post, mbind, lift, ret.
  repeat match goal with
         | |- context [match ?x with _ => _ end] => destruct x eqn:?
         end; intros [= <- <-]; simpl; auto.
Qed.

Lemma measured_time t r :
  body (measure_execution_time t r) !! "execution_time_ms" = Some (PFloat t).
Proof. apply lookup_insert_eq. Qed.

Lemma measured_status t r : statusCode (measure_execution_time t r) = statusCode r.
Proof. reflexivity. Qed.

Lemma measured_error t r k :
  k <> "execution_time_ms" -> body (measure_execution_time t r) !! k = body r !! k.
Proof. intros H. apply lookup_insert_ne. congruence. Qed.
End HandlerFacts.

(** X13.  The short-term Lambda always answers: it never raises, the
    response carries the measured [execution_time_ms], the status is one of
    200, 201, 400 and 500; an unreachable store gives 500 for every request
    and is sent nothing; on a reachable store, a method spelled in ASCII
    that is neither POST nor GET gives 400 (not 405), after the [PING] of
    the constructor and no other command. *)
Theorem shortterm_handler_always_answers
    (e : env) (execution_time_ms : float) (ev : Http.event) (c : Redis.client) :
  exists resp c',
    Shortterm.lambda_handler e execution_time_ms ev c = (Py.Ok resp, c')
    /\ Http.body resp !! "execution_time_ms" = Some (Py.PFloat execution_time_ms)
    /\ (Http.statusCode resp = 200 \/ Http.statusCode resp = 201
        \/ Http.statusCode resp = 400 \/ Http.statusCode resp = 500)
    /\ (Redis.reachable c = false ->
        Http.statusCode resp = 500 /\ c' = c)
    /\ (Redis.reachable c = true ->
        HandlerSpec.ascii_only (default "" (Http.httpMethod ev)) ->
        Http.method_of ev "" <> "POST" -> Http.method_of ev "" <> "GET" ->
        Http.statusCode resp = 400
        /\ Http.body resp !! "error"
           = Some (Py.PStr ("Unsupported method: " ++ Http.method_of ev ""))
        /\ c' = RedisSpec.logged Redis.PING c).
Proof.
  unfold Shortterm.lambda_handler.
  unfold Redis.mbind at 1, Redis.try_except, Redis.mbind at 1, Redis.connect.
  unfold RedisSpec.logged.
  destruct (Redis.reachable c) eqn:Hr.
  - destruct (String.eqb_spec (Http.method_of ev "") "POST") as [Hp|Hp].
    + destruct (Shortterm.add_memory e (Http.extract_body ev) _) as [[resp|x] c1] eqn:Hadd.
      * eexists _, _. split; [reflexivity|]. split; [apply HandlerFacts.measured_time|].
        apply HandlerFacts.shortterm_add_memory_status in Hadd.
        split; [simpl; tauto|]. split; [discriminate|]. intros _ _ H. contradiction.
      * eexists _, _. split; [reflexivity|]. split; [apply HandlerFacts.measured_time|].
        split; [simpl; tauto|]. split; [discriminate|]. intros _ _ H. contradiction.
    + destruct (String.eqb_spec (Http.method_of ev "") "GET") as [Hg|Hg].
      * destruct (Shortterm.get_memory e (Http.extract_query_params ev) _)
          as [[resp|x] c1] eqn:Hget.
        -- eexists _, _. split; [reflexivity|]. split; [apply HandlerFacts.measured_time|].
           apply HandlerFacts.shortterm_get_memory_status in Hget.
           split; [simpl; tauto|]. split; [discriminate|]. intros _ _ _ H. contradiction.
        -- eexists _, _. split; [reflexivity|]. split; [apply HandlerFacts.measured_time|].
           split; [simpl; tauto|]. split; [discriminate|]. intros _ _ _ H. contradiction.
      * eexists _, _. split; [reflexivity|]. split; [apply HandlerFacts.measured_time|].
        split; [simpl; tauto|]. split; [discriminate|]. intros _ _ _ _.
        repeat split.
  - eexists _, _. split; [reflexivity|]. split; [apply HandlerFacts.measured_time|].
    split; [simpl; tauto|]. split; [|discriminate]. intros _. split; reflexivity.
Qed.

Example shortterm_handler_on_put :
  exists resp,
    Shortterm.lambda_handler Samples.demo_env 1%float
      (Http.Event (Some "put") None None None) Samples.fresh_redis
    = (Py.Ok resp, RedisSpec.logged Redis.PING Samples.fresh_redis)
    /\ Http.statusCode resp = 400.
Proof. eexists. split; vm_compute; reflexivity. Qed.

(** ** Working memory: keys, clearing, the Lambda *)

Module WorkingMoreFacts.
Import Py Http Redis Working WorkingKeys.

Lemma split_at_colon (a b r r' : string) :
  colon_free a = true -> colon_free b = true ->
  a ++ String ":" r = b ++ String ":" r' -> a = b /\ r = r'.
Proof.
  revert b. induction a as [|x a IH]; intros [|y b] Ha Hb H; simpl in *.
  - injection H as H. auto.
  - injection H as Hx _. subst y. simpl in Hb. discriminate.
  - injection H as Hx _. subst x. simpl in Ha. discriminate.
  - injection H as Hx H. subst y.
    apply andb_true_iff in Ha as [_ Ha]. apply andb_true_iff in Hb as [_ Hb].
    destruct (IH b Ha Hb H) as [-> ->]. auto.
Qed.

Lemma clear_memory_reachable tenant_id memory_id session_id c :
  reachable c = true ->
  clear_memory tenant_id memory_id session_id c
  = (Ok tt, Client true (decode_responses c)
              (base.delete (redis_key tenant_id session_id memory_id) (db c))
              (log c ++ [DEL (redis_key tenant_id session_id memory_id)])).
Proof.
  intros Hr. unfold clear_memory, mbind.
  now rewrite RedisMoreFacts.delete_reachable.
Qed.

Lemma connect_reachable c :
  reachable c = true -> connect c = (Ok tt, RedisSpec.logged PING c).
Proof. intros Hr. unfold connect, RedisSpec.logged. now rewrite Hr. Qed.

Lemma connect_unreachable c :
  reachable c = false -> connect c = (Raise (Exception_ "Redis connection failed"), c).
Proof. intros Hr. unfold connect. now rewrite Hr. Qed.

End WorkingMoreFacts.

(** X14.  Working-memory keys of different tenants, sessions or memories
    never coincide, provided tenant and session ids contain no [:]. *)
Theorem working_keys_do_not_collide (t s m t' s' m' : string) :
  WorkingKeys.colon_free t = true -> WorkingKeys.colon_free t' = true ->
  WorkingKeys.colon_free s = true -> WorkingKeys.colon_free s' = true ->
  Working.redis_key t s m = Working.redis_key t' s' m' ->
  t = t' /\ s = s' /\ m = m'.
Proof.
  intros Ht Ht' Hs Hs' H. unfold Working.redis_key in H.
  simpl in H. injection H as H.
  apply WorkingMoreFacts.split_at_colon in H as [-> H]; try assumption.
  simpl in H. injection H as H.
  apply WorkingMoreFacts.split_at_colon in H as [-> H]; try assumption.
  simpl in H. injection H as H. auto.
Qed.

Lemma working_keys_do_not_collide_witness :
  Working.redis_key "tenant-a" "s1" "wm_1" <> Working.redis_key "tenant-b" "s1" "wm_1"
  /\ Working.redis_key "tenant-a" "s1" "wm_1" <> Working.redis_key "tenant-a" "s2" "wm_1".
Proof.
  split; intros H.
  - apply (working_keys_do_not_collide "tenant-a" "s1" "wm_1" "tenant-b" "s1" "wm_1")
      in H as (Ht & _ & _); [discriminate Ht | reflexivity..].
  - apply (working_keys_do_not_collide "tenant-a" "s1" "wm_1" "tenant-a" "s2" "wm_1")
      in H as (_ & Hs & _); [discriminate Hs | reflexivity..].
Defined.

(** The restriction is needed: ids are taken from the request as they are,
    and with a [:] in them two tenants share a key. *)
Example working_keys_collide_with_colon :
  Working.redis_key "a:session:b" "c" "wm_1" = Working.redis_key "a" "b:session:c" "wm_1".
Proof. reflexivity. Qed.

(** X15.  [clear_memory] undoes [add_memory]: after a successful write (on
    a reachable store that takes the effective TTL as expiry) and the
    clearing of the returned id in the same tenant and session, the key is
    gone and every other key is as it was before the write. *)
Theorem working_clear_undoes_add
    (e : env) (tenant_id : string) (memory_data : Working.WorkingMemoryCreate)
    (c : Redis.client) (t : Z) :
  Redis.reachable c = true ->
  Working.or_int (Working.c_ttl_seconds memory_data) 3600 = t -> RedisSpec.takes e t ->
  exists r c1 c2,
    Working.add_memory e tenant_id memory_data c = (Py.Ok r, c1)
    /\ Working.clear_memory tenant_id (Working.r_memory_id r)
         (Working.c_session_id memory_data) c1 = (Py.Ok tt, c2)
    /\ Redis.db c2 !! Working.redis_key tenant_id (Working.c_session_id memory_data)
                        (Working.r_memory_id r) = None
    /\ (forall k, k <> Working.redis_key tenant_id (Working.c_session_id memory_data)
                         (Working.r_memory_id r) ->
                  Redis.db c2 !! k = Redis.db c !! k)
    /\ (Redis.db c !! Working.redis_key tenant_id (Working.c_session_id memory_data)
                        (Working.r_memory_id r) = None ->
        Redis.db c2 = Redis.db c).
Proof.
  intros Hr Ht Hpos.
  rewrite (WorkingFacts.working_add_memory_positive e tenant_id memory_data c t)
    by assumption.
  eexists _, _, _. split; [reflexivity|].
  rewrite WorkingMoreFacts.clear_memory_reachable by exact Hr.
  split; [reflexivity|]. cbn [Redis.db RedisSpec.stored WorkingSpec.response_of
                              Working.r_memory_id].
  fold (WorkingSpec.key_of e tenant_id memory_data).
  split; [apply lookup_delete_eq|].
  split.
  - intros k Hk. rewrite lookup_delete_ne by congruence.
    apply lookup_insert_ne. congruence.
  - intros Hfresh. now apply delete_insert_id.
Qed.

Lemma working_clear_undoes_add_witness :
  exists r c1 c2,
    Working.add_memory Samples.demo_env "tenant-a" Samples.wm_create Samples.fresh_redis
    = (Py.Ok r, c1)
    /\ Working.clear_memory "tenant-a" (Working.r_memory_id r)
         (Working.c_session_id Samples.wm_create) c1 = (Py.Ok tt, c2)
    /\ Redis.db c2 !! Working.redis_key "tenant-a" (Working.c_session_id Samples.wm_create)
                        (Working.r_memory_id r) = None
    /\ (forall k, k <> Working.redis_key "tenant-a" (Working.c_session_id Samples.wm_create)
                         (Working.r_memory_id r) ->
                  Redis.db c2 !! k = Redis.db Samples.fresh_redis !! k)
    /\ (Redis.db Samples.fresh_redis
          !! Working.redis_key "tenant-a" (Working.c_session_id Samples.wm_create)
               (Working.r_memory_id r) = None ->
        Redis.db c2 = Redis.db Samples.fresh_redis).
Proof.
  apply (working_clear_undoes_add Samples.demo_env "tenant-a" Samples.wm_create
           Samples.fresh_redis 3600);
    [reflexivity | reflexivity | split; [lia | reflexivity]].
Defined.

(** X16.  A DELETE with a [memory_id] and a session reports the memory as
    cleared whether or not it existed.  The session is the body's
    [session_id] when that is a non-empty string, else the one of the query
    string; for a body whose [session_id] is a string or absent, on a
    reachable store, the answer is 200, the commands sent are the [PING] of
    the constructor and one [DEL] of the composite key of the requested
    tenant (or [default_tenant]), and nothing else changes. *)
Theorem working_handler_delete_reports_cleared
    (e : env) (ev : Http.event) (c : Redis.client) (memory_id sid : string) :
  Http.method_of ev "" = "DELETE" -> Redis.reachable c = true ->
  Shortterm.param (Http.extract_query_params ev) "memory_id" = Some memory_id ->
  (forall v, Http.extract_body ev !! "session_id" = Some v -> exists s, v = Py.PStr s) ->
  Working.requested_session (Http.extract_body ev) (Http.extract_query_params ev)
  = Some sid ->
  sid <> "" ->
  exists c' key,
    key = Working.redis_key
            (default "default_tenant"
               (Shortterm.param (Http.extract_query_params ev) "tenant_id"))
            sid memory_id
    /\ Working.lambda_handler e ev c
       = (Py.Ok (Http.create_response 200
                   (<["message" := Py.PStr ("Memory " ++ memory_id ++ " cleared")]> ∅)), c')
    /\ Redis.db c' = delete key (Redis.db c)
    /\ Redis.log c' = (Redis.log c ++ [Redis.PING; Redis.DEL key])%list.
Proof.
  intros Hm Hr Hmem _ Hs Hsid. eexists _, _. split; [reflexivity|].
  unfold Working.lambda_handler, Redis.try_except. rewrite Hm, Hmem, Hs.
  change ("DELETE" =? "POST")%string with false.
  change ("DELETE" =? "GET")%string with false.
  change ("DELETE" =? "DELETE")%string with true.
  cbv beta iota zeta. unfold Redis.mbind at 1.
  rewrite WorkingMoreFacts.connect_reachable by exact Hr.
  apply String.eqb_neq in Hsid. rewrite Hsid.
  unfold Redis.mbind. rewrite WorkingMoreFacts.clear_memory_reachable by exact Hr.
  unfold Working.requested_tenant. change ("DELETE" =? "POST")%string with false.
  cbv beta iota. cbn [Redis.db Redis.log RedisSpec.logged].
  split; [reflexivity|]. split; [reflexivity|]. now rewrite <- app_assoc.
Qed.

Lemma working_handler_delete_reports_cleared_witness :
  exists c' key,
    key = Working.redis_key
            (default "default_tenant"
               (Shortterm.param
                  (Http.extract_query_params
                     (Http.Event (Some "DELETE") None
                        (Some (<["memory_id" := "wm_missing"]> {[ "session_id" := "s1" ]}))
                        None))
                  "tenant_id"))
            "s1" "wm_missing"
    /\ Working.lambda_handler Samples.demo_env
         (Http.Event (Some "DELETE") None
            (Some (<["memory_id" := "wm_missing"]> {[ "session_id" := "s1" ]})) None)
         Samples.fresh_redis
       = (Py.Ok (Http.create_response 200
                   (<["message" := Py.PStr ("Memory " ++ "wm_missing" ++ " cleared")]> ∅)), c')
    /\ Redis.db c' = delete key (Redis.db Samples.fresh_redis)
    /\ Redis.log c'
       = (Redis.log Samples.fresh_redis ++ [Redis.PING; Redis.DEL key])%list.
Proof.
  apply (working_handler_delete_reports_cleared Samples.demo_env
           (Http.Event (Some "DELETE") None
              (Some (<["memory_id" := "wm_missing"]> {[ "session_id" := "s1" ]})) None)
           Samples.fresh_redis "wm_missing" "s1");
    try (vm_compute; reflexivity); [|discriminate].
  intros v Hv. vm_compute in Hv. discriminate.
Defined.

(** X17.  The working-memory Lambda always answers: it never raises and
    the status is one of 200, 201, 400, 405 and 500.  A GET never lists a
    memory: it is answered 500, or 200 with count 0 and an empty list,
    whatever the store holds.  When the store cannot be reached every
    request, also one with an unsupported method or with missing fields,
    gets 500 and nothing is sent. *)
Theorem working_handler_always_answers (e : env) (ev : Http.event) (c : Redis.client) :
  exists resp c',
    Working.lambda_handler e ev c = (Py.Ok resp, c')
    /\ In (Http.statusCode resp) [200; 201; 400; 405; 500]
    /\ (Http.method_of ev "" = "GET" ->
        resp = Http.create_error_response e 500 "Internal server error"
        \/ resp = Http.create_response 200
                    (<["count" := Py.PInt 0]> (<["memories" := Py.PList []]> ∅)))
    /\ (Redis.reachable c = false ->
        resp = Http.create_error_response e 500 "Internal server error" /\ c' = c).
Proof.
  unfold Working.lambda_handler, Redis.try_except.
  cbv beta iota zeta. unfold Redis.mbind at 1, Redis.connect.
  destruct (Redis.reachable c) eqn:Hr.
  2: { eexists _, _. split; [reflexivity|]. split; [simpl; tauto|]. auto. }
  destruct (String.eqb_spec (Http.method_of ev "") "POST") as [Hp|Hp].
  { destruct (Working.lambda_post e (Http.extract_body ev) _) as [[resp|x] c1] eqn:Hpost.
    - eexists _, _. split; [reflexivity|].
      apply HandlerFacts.working_lambda_post_status in Hpost.
      split; [simpl; intuition congruence|].
      split; [intros Hg; rewrite Hg in Hp; discriminate|discriminate].
    - eexists _, _. split; [reflexivity|]. split; [simpl; tauto|].
      split; [auto|discriminate]. }
  destruct (String.eqb_spec (Http.method_of ev "") "GET") as [Hg|Hg].
  { unfold Redis.mbind at 1, Redis.lift.
    destruct (Http.py_int e _) as [limit|x];
      [|eexists _, _; split; [reflexivity|]; split; [simpl; tauto|];
        split; [auto|discriminate]].
    unfold Redis.mbind.
    destruct (Working.get_memories e _ _ limit _) as [[l|x] c1] eqn:Hget;
      [|eexists _, _; split; [reflexivity|]; split; [simpl; tauto|];
        split; [auto|discriminate]].
    apply WorkingReadFacts.get_memories_empty in Hget. subst l.
    eexists _, _. split; [reflexivity|]. split; [simpl; tauto|].
    split; [auto|discriminate]. }
  destruct (String.eqb (Http.method_of ev "") "DELETE").
  { destruct (Shortterm.param _ "memory_id") as [memory_id|];
      [|eexists _, _; split; [reflexivity|]; split; [simpl; tauto|];
        split; [intros H; contradiction|discriminate]].
    destruct (Working.requested_session _ _) as [sid|];
      [|eexists _, _; split; [reflexivity|]; split; [simpl; tauto|];
        split; [intros H; contradiction|discriminate]].
    destruct (String.eqb sid "");
      [eexists _, _; split; [reflexivity|]; split; [simpl; tauto|];
       split; [intros H; contradiction|discriminate]|].
    unfold Redis.mbind.
    rewrite WorkingMoreFacts.clear_memory_reachable by reflexivity.
    eexists _, _; split; [reflexivity|]; split; [simpl; tauto|];
      split; [intros H; contradiction|discriminate]. }
  eexists _, _; split; [reflexivity|]; split; [simpl; tauto|];
    split; [intros H; contradiction|discriminate].
Qed.

(** A GET after a write of the same tenant: the record is in the store
    and the answer lists nothing. *)
Example working_handler_get_after_write :
  fst (Working.lambda_handler Samples.demo_env
         (Http.Event (Some "get") None (Some {[ "tenant_id" := "tenant-a" ]}) None)
         (snd (Working.add_memory Samples.demo_env "tenant-a" Samples.wm_create
                 Samples.fresh_redis)))
  = Py.Ok (Http.create_response 200
             (<["count" := Py.PInt 0]> (<["memories" := Py.PList []]> ∅))).
Proof. vm_compute. reflexivity. Qed.

(** ** Long-term memory: round trip, tenants, queries *)

Module LongtermMoreFacts.
Import Py Http DynamoDB Longterm LongtermSpec.

Lemma update_memory_reachable e tenant memory_data t :
  t_reachable t = true ->
  update_memory e tenant memory_data t
  = (Ok {| memory_id := match c_id memory_data with
                        | Some i => if String.eqb i "" then generate_id e "ltm" else i
                        | None => generate_id e "ltm"
                        end;
           entity_id := c_entity_id memory_data;
           summary := PStr (c_summary memory_data);
           metadata := Working.or_dict (c_metadata memory_data) ∅;
           timestamp := PStr (now e);
           tenant_id := tenant |},
     Table true (key_schema t)
       (List.filter (fun i => negb (same_key (key_schema t) i (item_of e tenant memory_data)))
          (items t) ++ [item_of e tenant memory_data])%list).
Proof.
  intros Hr. unfold update_memory, put_item. rewrite Hr. reflexivity.
Qed.

Lemma update_memory_unreachable e tenant memory_data t :
  t_reachable t = false ->
  update_memory e tenant memory_data t
  = (Raise (Exception_ "Failed to store long-term memory"), t).
Proof.
  intros Hr. unfold update_memory, put_item. rewrite Hr. reflexivity.
Qed.

Lemma item_entity e tenant memory_data eid :
  holds (Eq "entity_id" eid) (item_of e tenant memory_data)
  = String.eqb (c_entity_id memory_data) eid.
Proof. reflexivity. Qed.

Lemma item_tenant e tenant memory_data tn :
  holds (Eq "tenant_id" tn) (item_of e tenant memory_data) = String.eqb tenant tn.
Proof. reflexivity. Qed.

Lemma item_user e tenant memory_data u :
  holds (Eq "user_id" u) (item_of e tenant memory_data) = false.
Proof. reflexivity. Qed.

Lemma filter_filter_nil {A} (p q : A -> bool) (l : list A) :
  List.filter p l = [] -> List.filter p (List.filter q l) = [].
Proof.
  induction l as [|x l IH]; simpl; [reflexivity|].
  destruct (p x) eqn:Hp; [discriminate|]. intros H.
  destruct (q x); simpl; rewrite ?Hp; auto.
Qed.

Lemma filter_comm {A} (p q : A -> bool) (l : list A) :
  List.filter p (List.filter q l) = List.filter q (List.filter p l).
Proof.
  induction l as [|x l IH]; simpl; [reflexivity|].
  destruct (p x) eqn:Hp, (q x) eqn:Hq; simpl; rewrite ?Hp, ?Hq, IH; reflexivity.
Qed.

Lemma filter_sub {A} (p q : A -> bool) (l : list A) x :
  In x (List.filter p (List.filter q l)) -> In x (List.filter p l).
Proof.
  rewrite !List.filter_In. intros [[H _] Hp]. auto.
Qed.

Lemma get_memory_scoped tenant eid t :
  t_reachable t = true ->
  get_memory tenant eid t
  = match scoped tenant eid (items t) with
    | [] => Ok None
    | r :: _ => let* resp := response_of tenant r in Ok (Some resp)
    end.
Proof. intros Hr. unfold get_memory, query_items. rewrite Hr. reflexivity. Qed.

Lemma scoped_app tenant eid l1 l2 :
  scoped tenant eid (l1 ++ l2) = (scoped tenant eid l1 ++ scoped tenant eid l2)%list.
Proof. unfold scoped. now rewrite !List.filter_app. Qed.

Lemma no_user_query u limit t :
  Forall (fun i : gmap string pyval => i !! "user_id" = None) (items t) ->
  query_items (Eq "user_id" u) None limit t = [].
Proof.
  intros H. unfold query_items. destruct (t_reachable t); [|reflexivity].
  assert (Hf : List.filter (holds (Eq "user_id" u)) (items t) = []).
  { induction H as [|i l Hi _ IH]; simpl; [reflexivity|]. now rewrite Hi. }
  rewrite Hf. destruct limit as [n|]; [|reflexivity].
  destruct (n =? 0); [reflexivity|]. apply take_nil.
Qed.

Lemma update_keeps_no_user e tenant memory_data t :
  Forall (fun i : gmap string pyval => i !! "user_id" = None) (items t) ->
  Forall (fun i : gmap string pyval => i !! "user_id" = None)
         (items (snd (update_memory e tenant memory_data t))).
Proof.
  intros H. destruct (t_reachable t) eqn:Hr.
  - rewrite update_memory_reachable by assumption. simpl.
    apply Forall_app. split.
    + rewrite List.Forall_forall in *. intros i [Hi _]%List.filter_In. auto.
    + constructor; [reflexivity|constructor].
  - now rewrite update_memory_unreachable by assumption.
Qed.

Lemma after_writes_no_user e ws t :
  Forall (fun i : gmap string pyval => i !! "user_id" = None) (items t) ->
  Forall (fun i : gmap string pyval => i !! "user_id" = None) (items (after_writes e ws t)).
Proof.
  revert t. induction ws as [|[tenant md] ws IH]; intros t H; simpl; [assumption|].
  apply IH, update_keeps_no_user, H.
Qed.

Lemma scoped_filter_nil tenant eid (q : gmap string pyval -> bool) l :
  scoped tenant eid l = [] -> scoped tenant eid (List.filter q l) = [].
Proof.
  unfold scoped. intros H.
  rewrite (filter_comm (holds (Eq "entity_id" eid)) q).
  rewrite (filter_comm (holds (Eq "tenant_id" tenant)) q).
  now rewrite H.
Qed.

Lemma holds_entity_same_key i e tenant memory_data :
  holds (Eq "entity_id" (c_entity_id memory_data)) i = true ->
  same_key ["entity_id"] i (item_of e tenant memory_data) = true.
Proof.
  unfold holds, same_key, str_attr. simpl.
  destruct (i !! "entity_id") as [[]|]; try discriminate.
  intros ->%String.eqb_eq. unfold item_of.
  rewrite lookup_insert_ne by discriminate. rewrite lookup_insert_eq.
  rewrite bool_decide_eq_true_2; reflexivity.
Qed.

End LongtermMoreFacts.

(** X19.  A long-term write is never visible to another tenant: whatever
    tenant B reads after a write by tenant A comes from an item that was in
    the table before and carries B's [tenant_id]. *)
Theorem longterm_write_is_invisible_to_other_tenants
    (e : env) (tenant_a tenant_b entity_id_ : string)
    (memory_data : Longterm.LongTermMemoryCreate) (t : DynamoDB.table)
    (resp : Longterm.LongTermMemoryResponse) :
  tenant_a <> tenant_b ->
  Longterm.get_memory tenant_b entity_id_
    (snd (Longterm.update_memory e tenant_a memory_data t)) = Py.Ok (Some resp) ->
  exists item,
    In item (DynamoDB.items t)
    /\ item !! "tenant_id" = Some (Py.PStr tenant_b)
    /\ item !! "entity_id" = Some (Py.PStr entity_id_)
    /\ Longterm.response_of tenant_b item = Py.Ok resp.
Proof.
  intros Hne Hget.
  apply IsolationFacts.longterm_get_scoped in Hget as (_ & r & Hin & Ht & He & Hresp).
  exists r. repeat split; try assumption.
  destruct (DynamoDB.t_reachable t) eqn:Hr.
  - rewrite LongtermMoreFacts.update_memory_reachable in Hin by exact Hr.
    cbn [snd DynamoDB.items] in Hin. apply in_app_or in Hin as [Hin|[<-|[]]].
    + now apply List.filter_In in Hin.
    + exfalso. unfold LongtermSpec.item_of in Ht.
      rewrite !lookup_insert_ne in Ht by discriminate.
      rewrite lookup_insert_eq in Ht. congruence.
  - now rewrite LongtermMoreFacts.update_memory_unreachable in Hin by exact Hr.
Qed.

Lemma longterm_write_is_invisible_to_other_tenants_witness :
  exists item,
    In item (DynamoDB.items Samples.ltm_table)
    /\ item !! "tenant_id" = Some (Py.PStr "tenant-b")
    /\ item !! "entity_id" = Some (Py.PStr "user-1")
    /\ Longterm.response_of "tenant-b" item
       = Py.Ok {| Longterm.memory_id := "ltm_2"; Longterm.entity_id := "user-1";
                  Longterm.summary := Py.PStr "likes coffee"; Longterm.metadata := ∅;
                  Longterm.timestamp := Py.PStr "2024-01-01T00:00:00";
                  Longterm.tenant_id := "tenant-b" |}.
Proof.
  apply (longterm_write_is_invisible_to_other_tenants Samples.demo_env
           "tenant-a" "tenant-b" "user-1"
           {| Longterm.c_tenant_id := "tenant-a"; Longterm.c_entity_id := "user-1";
              Longterm.c_summary := "likes water"; Longterm.c_metadata := None;
              Longterm.c_id := None |} Samples.ltm_table).
  - discriminate.
  - vm_compute. reflexivity.
Defined.

(** X20.  If the table is keyed by [entity_id] alone (the only key the
    reads name), a write for an entity replaces the item of every other
    tenant for that entity: after tenant A's write, tenant B's read of the
    entity finds nothing. *)
Theorem longterm_write_evicts_other_tenants
    (e : env) (tenant_a tenant_b : string)
    (memory_data : Longterm.LongTermMemoryCreate) (t : DynamoDB.table) :
  DynamoDB.key_schema t = ["entity_id"] -> DynamoDB.t_reachable t = true ->
  tenant_a <> tenant_b ->
  Longterm.get_memory tenant_b (Longterm.c_entity_id memory_data)
    (snd (Longterm.update_memory e tenant_a memory_data t)) = Py.Ok None.
Proof.
  intros Hk Hr Hne.
  rewrite LongtermMoreFacts.update_memory_reachable by exact Hr.
  rewrite LongtermMoreFacts.get_memory_scoped by reflexivity.
  cbn [snd DynamoDB.items]. rewrite LongtermMoreFacts.scoped_app, Hk.
  assert (H1 : LongtermSpec.scoped tenant_b (Longterm.c_entity_id memory_data)
                 (List.filter
                    (fun i => negb (DynamoDB.same_key ["entity_id"] i
                                      (LongtermSpec.item_of e tenant_a memory_data)))
                    (DynamoDB.items t)) = []).
  { unfold LongtermSpec.scoped.
    induction (DynamoDB.items t) as [|i l IH]; [reflexivity|].
    cbn [List.filter].
    destruct (DynamoDB.same_key ["entity_id"] i _) eqn:Hs; cbn [negb]; [exact IH|].
    cbn [List.filter].
    destruct (DynamoDB.holds (DynamoDB.Eq "entity_id" _) i) eqn:Hh; [|exact IH].
    apply (LongtermMoreFacts.holds_entity_same_key i e tenant_a) in Hh. congruence. }
  rewrite H1. unfold LongtermSpec.scoped. cbn [List.filter app].
  rewrite LongtermMoreFacts.item_entity, String.eqb_refl. cbn [List.filter].
  rewrite LongtermMoreFacts.item_tenant.
  apply String.eqb_neq in Hne. rewrite Hne. reflexivity.
Qed.

Lemma longterm_write_evicts_other_tenants_witness :
  Longterm.get_memory "tenant-b" "user-1"
    (DynamoDB.Table true ["entity_id"] [Samples.ltm_item "ltm_2" "tenant-b" "likes coffee"])
  = Py.Ok (Some {| Longterm.memory_id := "ltm_2"; Longterm.entity_id := "user-1";
                   Longterm.summary := Py.PStr "likes coffee"; Longterm.metadata := ∅;
                   Longterm.timestamp := Py.PStr "2024-01-01T00:00:00";
                   Longterm.tenant_id := "tenant-b" |})
  /\ Longterm.get_memory "tenant-b"
       (Longterm.c_entity_id
          {| Longterm.c_tenant_id := "tenant-a"; Longterm.c_entity_id := "user-1";
             Longterm.c_summary := "likes water"; Longterm.c_metadata := None;
             Longterm.c_id := None |})
       (snd (Longterm.update_memory Samples.demo_env "tenant-a"
               {| Longterm.c_tenant_id := "tenant-a"; Longterm.c_entity_id := "user-1";
                  Longterm.c_summary := "likes water"; Longterm.c_metadata := None;
                  Longterm.c_id := None |}
               (DynamoDB.Table true ["entity_id"]
                  [Samples.ltm_item "ltm_2" "tenant-b" "likes coffee"])))
     = Py.Ok None.
Proof.
  split; [vm_compute; reflexivity|].
  apply (longterm_write_evicts_other_tenants Samples.demo_env "tenant-a" "tenant-b");
    [reflexivity | reflexivity | discriminate].
Defined.

(** X21.  [query_memories] never finds what [update_memory] wrote: it
    keys on [user_id], an attribute no written item has.  Starting from an
    empty table, after any sequence of writes it reports success with
    count 0, also when the table cannot be reached. *)
Theorem longterm_query_memories_finds_no_writes
    (e : env) (ws : list (string * Longterm.LongTermMemoryCreate))
    (up : bool) (schema : list string) (user_id : string) (limit : Z) :
  Longterm.query_memories user_id limit
    (LongtermSpec.after_writes e ws (DynamoDB.Table up schema []))
  = <["status" := Py.PStr "success"]>
    (<["count" := Py.PInt 0]> (<["memories" := Py.PList []]> ∅)).
Proof.
  unfold Longterm.query_memories.
  rewrite LongtermMoreFacts.no_user_query; [reflexivity|].
  apply LongtermMoreFacts.after_writes_no_user. constructor.
Qed.

(** The writes do land in the table. *)
Example longterm_writes_are_stored :
  length (DynamoDB.items
            (LongtermSpec.after_writes Samples.demo_env
               [("tenant-a",
                 {| Longterm.c_tenant_id := "tenant-a"; Longterm.c_entity_id := "user-1";
                    Longterm.c_summary := "likes tea"; Longterm.c_metadata := None;
                    Longterm.c_id := Some "ltm_1" |});
                ("tenant-a",
                 {| Longterm.c_tenant_id := "tenant-a"; Longterm.c_entity_id := "user-2";
                    Longterm.c_summary := "likes rain"; Longterm.c_metadata := None;
                    Longterm.c_id := Some "ltm_2" |})]
               (DynamoDB.Table true ["entity_id"; "id"] []))) = 2%nat.
Proof. vm_compute. reflexivity. Qed.

(** X22.  The GET branch of the long-term Lambda: the status is one of
    200, 400, 404 and 500 and the response carries the measured time; a
    request without [entity_id] gets 400, and an unreachable table is
    reported as 404 (not found), not as an error. *)
Theorem longterm_get_handler_answers
    (e : env) (describe : Py.exn -> string) (execution_time_ms : float)
    (ev : Http.event) (t : DynamoDB.table) :
  In (Http.statusCode (Longterm.lambda_get e describe execution_time_ms ev t))
     [200; 400; 404; 500]
  /\ Http.body (Longterm.lambda_get e describe execution_time_ms ev t)
       !! "execution_time_ms" = Some (Py.PFloat execution_time_ms)
  /\ (Shortterm.param (Http.extract_query_params ev) "entity_id" = None ->
      Http.statusCode (Longterm.lambda_get e describe execution_time_ms ev t) = 400)
  /\ (forall entity_id_,
        Shortterm.param (Http.extract_query_params ev) "entity_id" = Some entity_id_ ->
        DynamoDB.t_reachable t = false ->
        Longterm.lambda_get e describe execution_time_ms ev t
        = Http.measure_execution_time execution_time_ms
            (Http.create_error_response e 404
               ("Memory for entity_id " ++ entity_id_ ++ " not found"))).
Proof.
  split; [|split; [apply HandlerFacts.measured_time|split]].
  - unfold Longterm.lambda_get. rewrite HandlerFacts.measured_status.
    destruct (Shortterm.param _ "entity_id") as [eid|]; [|simpl; tauto].
    destruct (Longterm.get_memory _ eid t) as [[r|]|x]; simpl; tauto.
  - intros H. unfold Longterm.lambda_get. now rewrite H.
  - intros eid H Hr. unfold Longterm.lambda_get. rewrite H.
    unfold Longterm.get_memory, DynamoDB.query_items. now rewrite Hr.
Qed.

(** ** Fingerprints and required fields *)

Module FingerprintFacts.
Import SHA256 TextSpec.

Lemma hex_digit_lower (d : Z) : 0 <= d <= 15 -> lower_hex (hex_digit d) = true.
Proof.
  intros H.
  assert (Hd : d = 0 \/ d = 1 \/ d = 2 \/ d = 3 \/ d = 4 \/ d = 5 \/ d = 6 \/ d = 7
               \/ d = 8 \/ d = 9 \/ d = 10 \/ d = 11 \/ d = 12 \/ d = 13 \/ d = 14
               \/ d = 15) by lia.
  repeat (destruct Hd as [->|Hd]; [reflexivity|]). subst d. reflexivity.
Qed.

Lemma byte_nibbles (b : Z) :
  0 <= b <= 255 -> 0 <= Z.shiftr b 4 <= 15 /\ 0 <= Z.land b 0xf <= 15.
Proof.
  intros H. rewrite Z.shiftr_div_pow2 by lia.
  change (Z.land b 0xf) with (Z.land b (Z.ones 4)). rewrite Z.land_ones by lia.
  change (2 ^ 4) with 16. split.
  - split; [apply Z.div_pos; lia|].
    assert (b / 16 < 16) by (apply Z.div_lt_upper_bound; lia). lia.
  - pose proof (Z.mod_pos_bound b 16). lia.
Qed.

Lemma hex_of_bytes_length (bs : list Z) :
  String.length (hex_of_bytes bs) = (2 * length bs)%nat.
Proof. induction bs as [|b bs IH]; simpl; [reflexivity|]. rewrite IH. lia. Qed.

Lemma hex_of_bytes_lower (bs : list Z) :
  Forall (fun b => 0 <= b <= 255) bs -> all_chars lower_hex (hex_of_bytes bs) = true.
Proof.
  induction 1 as [|b bs Hb _ IH]; [reflexivity|].
  destruct (byte_nibbles b Hb) as [Hh Hl].
  cbn [hex_of_bytes all_chars].
  now rewrite (hex_digit_lower _ Hh), (hex_digit_lower _ Hl), IH.
Qed.

Lemma be_bytes_length (n : nat) (x : Z) : length (be_bytes n x) = n.
Proof. induction n as [|n IH]; simpl; [reflexivity|]. now rewrite IH. Qed.

Lemma be_bytes_range (n : nat) (x : Z) : Forall (fun b => 0 <= b <= 255) (be_bytes n x).
Proof.
  induction n as [|n IH]; cbn [be_bytes]; constructor; [|exact IH].
  replace (Z.land (Z.shiftr x (8 * Z.of_nat n)) 0xff)
    with (Z.shiftr x (8 * Z.of_nat n) mod 256)
    by (symmetry; apply (Z.land_ones _ 8); lia).
  pose proof (Z.mod_pos_bound (Z.shiftr x (8 * Z.of_nat n)) 256). lia.
Qed.

Lemma digest_bytes (h : list Z) :
  length (flat_map (be_bytes 4) h) = (4 * length h)%nat
  /\ Forall (fun b => 0 <= b <= 255) (flat_map (be_bytes 4) h).
Proof.
  induction h as [|x h [IHl IHr]]; [split; [reflexivity|constructor]|].
  cbn [flat_map]. split.
  - rewrite length_app, be_bytes_length, IHl. simpl. lia.
  - apply Forall_app. split; [apply be_bytes_range|exact IHr].
Qed.

Lemma compress_length (h block : list Z) :
  length h = 8%nat -> length (compress h block) = 8%nat.
Proof.
  intros H. unfold compress. rewrite length_map, length_combine, H. reflexivity.
Qed.

Lemma fold_compress_length (blocks : list (list Z)) (h : list Z) :
  length h = 8%nat -> length (fold_left compress blocks h) = 8%nat.
Proof.
  revert h. induction blocks as [|b blocks IH]; intros h H; simpl; [exact H|].
  apply IH, compress_length, H.
Qed.

Lemma hexdigest_shape (s : string) :
  String.length (hexdigest s) = 64%nat /\ all_chars lower_hex (hexdigest s) = true.
Proof.
  unfold hexdigest.
  set (h := fold_left compress _ H0).
  assert (Hh : length h = 8%nat) by (apply fold_compress_length; reflexivity).
  destruct (digest_bytes h) as [Hl Hr]. split.
  - rewrite hex_of_bytes_length, Hl, Hh. reflexivity.
  - apply hex_of_bytes_lower, Hr.
Qed.

Lemma prefix_length (n : nat) (s : string) :
  (n <= String.length s)%nat -> String.length (String.substring 0 n s) = n.
Proof.
  revert s. induction n as [|n IH]; intros s H.
  - destruct s; reflexivity.
  - destruct s as [|ch s]; simpl in *; [lia|]. rewrite IH; [reflexivity|lia].
Qed.

Lemma prefix_all_chars p (n : nat) (s : string) :
  all_chars p s = true -> all_chars p (String.substring 0 n s) = true.
Proof.
  revert s. induction n as [|n IH]; intros s H.
  - destruct s; reflexivity.
  - destruct s as [|ch s]; simpl in *; [reflexivity|].
    apply andb_true_iff in H as [-> H]. simpl. auto.
Qed.

End FingerprintFacts.

(** X23.  The fingerprint of any content is 16 characters long and made
    of the digits [0-9a-f]. *)
Theorem hash_content_shape (content : string) :
  String.length (Utils.hash_content content) = 16%nat
  /\ TextSpec.all_chars TextSpec.lower_hex (Utils.hash_content content) = true.
Proof.
  destruct (FingerprintFacts.hexdigest_shape content) as [Hl Hc].
  unfold Utils.hash_content. split.
  - apply FingerprintFacts.prefix_length. rewrite Hl. lia.
  - apply FingerprintFacts.prefix_all_chars, Hc.
Qed.

(** X24.  [validate_required_fields] reports exactly the required fields
    that are absent or null, in the order given; it reports none if and
    only if every required field has a non-null value.  An empty string, 0
    or an empty object counts as present. *)
Theorem validate_required_fields_characterised
    (data : gmap string Py.pyval) (required_fields : list string) :
  (forall f, In f (Utils.validate_required_fields data required_fields)
             <-> In f required_fields
                 /\ (data !! f = None \/ data !! f = Some Py.PNone))
  /\ Utils.validate_required_fields data required_fields `sublist_of` required_fields
  /\ (Utils.validate_required_fields data required_fields = []
      <-> forall f, In f required_fields ->
                    exists v, data !! f = Some v /\ v <> Py.PNone).
Proof.
  assert (Hin : forall f, In f (Utils.validate_required_fields data required_fields)
                          <-> In f required_fields
                              /\ (data !! f = None \/ data !! f = Some Py.PNone)).
  { intros f. unfold Utils.validate_required_fields. rewrite List.filter_In.
    destruct (data !! f) as [[]|]; intuition (discriminate || auto). }
  split; [exact Hin|]. split.
  - clear Hin. unfold Utils.validate_required_fields.
    induction required_fields as [|f l IH]; simpl; [constructor|].
    destruct (data !! f) as [[]|];
      first [apply sublist_skip; exact IH | apply sublist_cons; exact IH].
  - split.
    + intros Hnil f Hf.
      destruct (data !! f) as [v|] eqn:Hv.
      * exists v. split; [reflexivity|]. intros ->.
        assert (In f (Utils.validate_required_fields data required_fields))
          by (apply Hin; auto).
        rewrite Hnil in H. contradiction.
      * assert (In f (Utils.validate_required_fields data required_fields))
          by (apply Hin; auto).
        rewrite Hnil in H. contradiction.
    + intros Hall.
      destruct (Utils.validate_required_fields data required_fields) as [|f l] eqn:E;
        [reflexivity|].
      assert (Hf : In f (f :: l)) by now left.
      apply Hin in Hf as [Hf Hmiss].
      destruct (Hall f Hf) as (v & Hv & Hne).
      destruct Hmiss as [H|H]; rewrite H in Hv; [discriminate|]. congruence.
Qed.

(** An empty content passes the short-term validation and is stored. *)
Example shortterm_accepts_empty_content :
  fst (Shortterm.add_memory Samples.demo_env {[ "content" := Py.PStr "" ]}
         Samples.fresh_redis)
  = Py.Ok (ShorttermSpec.created Samples.demo_env 604800).
Proof. vm_compute. reflexivity. Qed.

(** ** Semantic memory: the placeholder embedding, writes, the Lambda *)

Module SemanticMoreFacts.
Import Py Http Semantic TextSpec SemanticSpec.

Lemma comprehension_map {A B} (f : A -> res B) (g : A -> B) (l : list A) :
  (forall x, In x l -> f x = Ok (g x)) -> comprehension f l = Ok (map g l).
Proof.
  induction l as [|x l IH]; intros H; simpl; [reflexivity|].
  rewrite (H x) by now left. simpl. rewrite IH by (intros y Hy; apply H; now right).
  reflexivity.
Qed.

Lemma get_all_chars p (h : string) (n : nat) :
  all_chars p h = true -> (n < String.length h)%nat ->
  exists ch, String.get n h = Some ch /\ p ch = true.
Proof.
  revert n. induction h as [|c h IH]; intros n Hall Hn; simpl in *; [lia|].
  apply andb_true_iff in Hall as [Hc Hall].
  destruct n as [|n]; [exists c; auto|]. apply IH; [assumption|lia].
Qed.

Lemma hex_value_range ch d : hex_value ch = Some d -> 0 <= d <= 15.
Proof.
  unfold hex_value.
  repeat match goal with
         | |- context [if ?b then _ else _] => destruct b eqn:?
         end; intros [= <-]; lia.
Qed.

Lemma digit_in_range (d : Z) :
  0 <= d <= 15 -> in_unit_range (PrimFloat.of_uint63 (Uint63.of_Z d) / 15 - 1)%float.
Proof.
  intros H.
  assert (Hd : d = 0 \/ d = 1 \/ d = 2 \/ d = 3 \/ d = 4 \/ d = 5 \/ d = 6 \/ d = 7
               \/ d = 8 \/ d = 9 \/ d = 10 \/ d = 11 \/ d = 12 \/ d = 13 \/ d = 14
               \/ d = 15) by lia.
  repeat (destruct Hd as [->|Hd]; [split; vm_compute; reflexivity|]).
  subst d. split; vm_compute; reflexivity.
Qed.

Lemma component_spec (h : string) (i : nat) :
  String.length h = 32%nat -> all_chars hex_char h = true ->
  exists ch d, String.get (i mod 32) h = Some ch /\ hex_value ch = Some d
               /\ component h i = (PrimFloat.of_uint63 (Uint63.of_Z d) / 15 - 1)%float.
Proof.
  intros Hl Hc.
  destruct (get_all_chars hex_char h (i mod 32) Hc) as (ch & Hg & Hh).
  { rewrite Hl. apply Nat.mod_upper_bound. discriminate. }
  unfold hex_char in Hh. destruct (hex_value ch) as [d|] eqn:Hd; [|discriminate].
  exists ch, d. unfold component. now rewrite Hg, Hd.
Qed.

Lemma generate_embedding_result e text :
  String.length (md5_hexdigest e text) = 32%nat ->
  all_chars hex_char (md5_hexdigest e text) = true ->
  generate_embedding e text = Ok (map (component (md5_hexdigest e text)) (seq 0 768)).
Proof.
  intros Hl Hc. unfold generate_embedding. apply comprehension_map.
  intros i _. destruct (component_spec _ i Hl Hc) as (ch & d & Hg & Hd & Hcomp).
  now rewrite Hg, Hd, Hcomp.
Qed.

Lemma component_period (h : string) (i : nat) : component h (i + 32) = component h i.
Proof.
  unfold component.
  replace ((i + 32) mod 32)%nat with (i mod 32)%nat; [reflexivity|].
  rewrite <- (Nat.Div0.add_mod_idemp_r i 32 32). rewrite Nat.Div0.mod_same.
  now rewrite Nat.add_0_r.
Qed.

(** A write that is not reported as stored leaves the index as it was. *)
Lemma handle_add_memory_outcome e ev adapter r adapter' :
  handle_add_memory e ev adapter = (r, adapter') ->
  adapter' = adapter \/ exists resp, r = Ok resp /\ statusCode resp = 201.
Proof.
  unfold handle_add_memory, OpenSearch.add_document.
  destruct (OpenSearch.reachable adapter);
    repeat match goal with
           | |- context [match ?x with _ => _ end] => destruct x eqn:?
           end; intros [= <- <-]; eauto; simpl in *; discriminate.
Qed.

End SemanticMoreFacts.

(** X25.  The placeholder embedding: when the MD5 digest is 32 hex
    digits, [generate_embedding] returns 768 components, each between -1
    and 1, and component [i + 32] repeats component [i]. *)
Theorem generate_embedding_shape (e : env) (text : string) :
  String.length (md5_hexdigest e text) = 32%nat ->
  TextSpec.all_chars TextSpec.hex_char (md5_hexdigest e text) = true ->
  exists v,
    Semantic.generate_embedding e text = Py.Ok v
    /\ length v = 768%nat
    /\ Forall SemanticSpec.in_unit_range v
    /\ (forall i, (i + 32 < 768)%nat -> nth_error v (i + 32) = nth_error v i).
Proof.
  intros Hl Hc. eexists. split; [now apply SemanticMoreFacts.generate_embedding_result|].
  split; [now rewrite length_map, length_seq|]. split.
  - apply List.Forall_forall. intros x (i & <- & _)%in_map_iff.
    destruct (SemanticMoreFacts.component_spec _ i Hl Hc) as (ch & d & _ & Hd & ->).
    apply SemanticMoreFacts.digit_in_range, (SemanticMoreFacts.hex_value_range ch), Hd.
  - intros i Hi.
    rewrite !nth_error_map, !nth_error_seq.
    destruct (Nat.ltb_spec (i + 32) 768) as [_|]; [|lia].
    destruct (Nat.ltb_spec i 768) as [_|]; [|lia].
    simpl. now rewrite SemanticMoreFacts.component_period.
Qed.

Lemma generate_embedding_shape_witness :
  exists v,
    Semantic.generate_embedding Samples.demo_env "cats" = Py.Ok v
    /\ length v = 768%nat
    /\ Forall SemanticSpec.in_unit_range v
    /\ (forall i, (i + 32 < 768)%nat -> nth_error v (i + 32) = nth_error v i).
Proof.
  apply (generate_embedding_shape Samples.demo_env "cats"); vm_compute; reflexivity.
Defined.

(** X26.  What a 201 of the semantic write means: the document is in the
    index under the returned id, with the request's content; its metadata
    has [agent_id], [tenant_id], [source_type] and [source_id] from the top
    level of the body (or their defaults), whatever the caller put under
    these names in [metadata], and every other metadata key as the caller
    gave it; no other document changed. *)
Theorem semantic_add_stores_stamped_document
    (e : env) (ev : Http.event) (adapter adapter' : OpenSearch.client)
    (resp : Http.response) :
  Semantic.handle_add_memory e ev adapter = (Py.Ok resp, adapter') ->
  Http.statusCode resp = 201 ->
  exists doc md meta,
    Py.get_d (Http.extract_body ev) "metadata" (Py.PDict ∅) = Py.PDict md
    /\ Http.body resp !! "memory_id" = Some (Py.PStr (Http.generate_id e "sem"))
    /\ OpenSearch.documents adapter' !! Http.generate_id e "sem" = Some doc
    /\ doc !! "content" = Some (Py.get (Http.extract_body ev) "content")
    /\ doc !! "metadata" = Some (Py.PDict meta)
    /\ meta !! "agent_id"
       = Some (Py.get_d (Http.extract_body ev) "agent_id" (Py.PStr "unknown_agent"))
    /\ meta !! "tenant_id"
       = Some (Py.get_d (Http.extract_body ev) "tenant_id" (Py.PStr "default_tenant"))
    /\ meta !! "source_type"
       = Some (Py.get_d (Http.extract_body ev) "source_type" (Py.PStr "unknown"))
    /\ meta !! "source_id" = Some (Py.get (Http.extract_body ev) "source_id")
    /\ (forall k, k <> "agent_id" -> k <> "tenant_id" -> k <> "source_type" ->
                  k <> "source_id" -> meta !! k = md !! k)
    /\ (forall k, k <> Http.generate_id e "sem" ->
                  OpenSearch.documents adapter' !! k = OpenSearch.documents adapter !! k).
Proof.
  unfold Semantic.handle_add_memory.
  destruct (negb (Py.truthy _)); [intros [= <- <-] H; discriminate H|].
  match goal with
  | |- context [match ?x with Py.Ok _ => _ | Py.Raise _ => _ end] =>
      destruct x as [emb|x']; [|discriminate]
  end.
  destruct (negb _); [intros [= <- <-] H; discriminate H|].
  destruct (Py.get_d (Http.extract_body ev) "metadata" (Py.PDict ∅))
    as [| | | | | |md|] eqn:Hmd; try discriminate.
  unfold OpenSearch.add_document.
  destruct (OpenSearch.reachable adapter); cbn [negb];
    intros [= <- <-] H; [|discriminate H].
  eexists _, md, _. split; [reflexivity|].
  unfold Http.create_response. cbn [Http.body OpenSearch.documents].
  split; [rewrite lookup_insert_ne by discriminate; apply lookup_insert_eq|].
  split; [apply lookup_insert_eq|].
  split; [rewrite lookup_insert_ne by discriminate; apply lookup_insert_eq|].
  split; [rewrite !lookup_insert_ne by discriminate; apply lookup_insert_eq|].
  split; [rewrite !lookup_insert_ne by discriminate; apply lookup_insert_eq|].
  split; [rewrite !lookup_insert_ne by discriminate; apply lookup_insert_eq|].
  split; [rewrite !lookup_insert_ne by discriminate; apply lookup_insert_eq|].
  split; [apply lookup_insert_eq|].
  split.
  - intros k H1 H2 H3 H4. rewrite !lookup_insert_ne by congruence. reflexivity.
  - intros k Hk. cbn [OpenSearch.documents]. apply lookup_insert_ne. congruence.
Qed.

Lemma semantic_add_stores_stamped_document_witness :
  exists doc md meta,
    Py.get_d (Http.extract_body MoreSamples.stamped_event) "metadata" (Py.PDict ∅)
    = Py.PDict md
    /\ Http.body (Http.create_response 201
                    (<["message" := Py.PStr "Semantic memory stored successfully"]>
                    (<["memory_id" := Py.PStr (Http.generate_id Samples.demo_env "sem")]> ∅)))
         !! "memory_id" = Some (Py.PStr (Http.generate_id Samples.demo_env "sem"))
    /\ OpenSearch.documents
         (snd (Semantic.handle_add_memory Samples.demo_env MoreSamples.stamped_event
                 (Samples.empty_index true)))
         !! Http.generate_id Samples.demo_env "sem" = Some doc
    /\ doc !! "content" = Some (Py.get (Http.extract_body MoreSamples.stamped_event) "content")
    /\ doc !! "metadata" = Some (Py.PDict meta)
    /\ meta !! "agent_id"
       = Some (Py.get_d (Http.extract_body MoreSamples.stamped_event) "agent_id"
                 (Py.PStr "unknown_agent"))
    /\ meta !! "tenant_id"
       = Some (Py.get_d (Http.extract_body MoreSamples.stamped_event) "tenant_id"
                 (Py.PStr "default_tenant"))
    /\ meta !! "source_type"
       = Some (Py.get_d (Http.extract_body MoreSamples.stamped_event) "source_type"
                 (Py.PStr "unknown"))
    /\ meta !! "source_id"
       = Some (Py.get (Http.extract_body MoreSamples.stamped_event) "source_id")
    /\ (forall k, k <> "agent_id" -> k <> "tenant_id" -> k <> "source_type" ->
                  k <> "source_id" -> meta !! k = md !! k)
    /\ (forall k, k <> Http.generate_id Samples.demo_env "sem" ->
                  OpenSearch.documents
                    (snd (Semantic.handle_add_memory Samples.demo_env
                            MoreSamples.stamped_event (Samples.empty_index true))) !! k
                  = OpenSearch.documents (Samples.empty_index true) !! k).
Proof.
  apply (semantic_add_stores_stamped_document Samples.demo_env MoreSamples.stamped_event
           (Samples.empty_index true)); [vm_compute; reflexivity | reflexivity].
Defined.

(** The metadata of that request named tenant [tenant-z] and agent
    [agent-z]; the stored metadata has the body's tenant and the default
    agent, and keeps [topic]. *)
Example semantic_add_overrides_caller_metadata :
  match OpenSearch.documents
          (snd (Semantic.handle_add_memory Samples.demo_env MoreSamples.stamped_event
                  (Samples.empty_index true)))
          !! Http.generate_id Samples.demo_env "sem" with
  | Some doc =>
      match doc !! "metadata" with
      | Some (Py.PDict meta) =>
          meta !! "tenant_id" = Some (Py.PStr "tenant-a")
          /\ meta !! "agent_id" = Some (Py.PStr "unknown_agent")
          /\ meta !! "topic" = Some (Py.PStr "pets")
      | _ => False
      end
  | None => False
  end.
Proof. vm_compute. repeat split; reflexivity. Qed.

(** X27.  Rejected semantic writes leave the index untouched.  For an
    event whose body is a JSON object: a request without content (absent,
    null or empty) gets 400; a request that brings an embedding which is
    not a list of 768 components gets 400; and when the index cannot be
    reached no request changes it and every answer is 400 or 500. *)
Theorem semantic_add_rejections
    (e : env) (ev : Http.event) (body : gmap string Py.pyval)
    (adapter : OpenSearch.client) :
  Http.ev_body ev = Some body ->
  (Py.truthy (Py.get body "content") = false ->
   Semantic.handle_add_memory e ev adapter
   = (Py.Ok (Http.create_error_response e 400 "Missing required field: content"), adapter))
  /\ (Py.truthy (Py.get body "content") = true ->
      Py.truthy (Py.get body "embedding") = true ->
      (forall l, Py.get body "embedding" = Py.PList l -> length l <> 768%nat) ->
      Semantic.handle_add_memory e ev adapter
      = (Py.Ok (Http.create_error_response e 400 "Invalid embedding format"), adapter))
  /\ (OpenSearch.reachable adapter = false ->
      forall r adapter',
        Semantic.handle_add_memory e ev adapter = (r, adapter') ->
        adapter' = adapter
        /\ forall resp, r = Py.Ok resp ->
                        Http.statusCode resp = 400 \/ Http.statusCode resp = 500).
Proof.
  intros Hbody.
  assert (Hex : Http.extract_body ev = body) by (unfold Http.extract_body; now rewrite Hbody).
  split; [|split].
  - intros Hc. unfold Semantic.handle_add_memory. now rewrite Hex, Hc.
  - intros Hc He Hl. unfold Semantic.handle_add_memory. rewrite Hex, Hc, He. cbn [negb].
    destruct (Py.get body "embedding") as [| | | | |l| |]; try reflexivity.
    rewrite bool_decide_eq_false_2 by (now apply Hl). reflexivity.
  - intros Hr r adapter'. unfold Semantic.handle_add_memory, OpenSearch.add_document.
    rewrite Hr.
    repeat match goal with
           | |- context [match ?x with _ => _ end] => destruct x eqn:?
           end; intros [= <- <-]; (split; [reflexivity|]); intros resp [= <-];
      simpl; auto; simpl in *; discriminate.
Qed.

Lemma semantic_add_rejections_witness :
  Semantic.handle_add_memory Samples.demo_env MoreSamples.short_embedding_event
    (Samples.empty_index true)
  = (Py.Ok (Http.create_error_response Samples.demo_env 400 "Invalid embedding format"),
     Samples.empty_index true).
Proof.
  destruct (semantic_add_rejections Samples.demo_env MoreSamples.short_embedding_event
              (default ∅ (Http.ev_body MoreSamples.short_embedding_event))
              (Samples.empty_index true) eq_refl) as (_ & H & _).
  apply H; [reflexivity | reflexivity |].
  intros l [= <-]. discriminate.
Defined.

Module SemanticHandlerFacts.
Import Py Http Semantic SemanticSpec.

Lemma handle_add_memory_status e ev adapter resp adapter' :
  handle_add_memory e ev adapter = (Ok resp, adapter') ->
  statusCode resp = 201 \/ statusCode resp = 400 \/ statusCode resp = 500.
Proof.
  unfold handle_add_memory, OpenSearch.add_document.
  destruct (OpenSearch.reachable adapter);
    repeat match goal with
           | |- context [match ?x with _ => _ end] => destruct x eqn:?
           end; intros [= <- <-]; simpl; auto.
Qed.

(** A write keeps the index in existence. *)
Lemma handle_add_memory_index e ev adapter r adapter' :
  handle_add_memory e ev adapter = (r, adapter') ->
  OpenSearch.index_exists adapter = true -> OpenSearch.index_exists adapter' = true.
Proof.
  unfold handle_add_memory, OpenSearch.add_document.
  destruct (OpenSearch.reachable adapter);
    repeat match goal with
           | |- context [match ?x with _ => _ end] => destruct x eqn:?
           end; intros [= <- <-]; auto; simpl in *; discriminate.
Qed.

Lemma dispatched_answers e ev adapter :
  In (statusCode (fst (dispatched e ev adapter))) [201; 400; 405; 500]
  /\ (statusCode (fst (dispatched e ev adapter)) <> 201 ->
      snd (dispatched e ev adapter) = adapter)
  /\ (method_of ev "" = "GET" ->
      In (statusCode (fst (dispatched e ev adapter))) [400; 500])
  /\ (OpenSearch.index_exists adapter = true ->
      OpenSearch.index_exists (snd (dispatched e ev adapter)) = true).
Proof.
  unfold dispatched.
  destruct (String.eqb_spec (method_of ev "") "POST") as [Hp|Hp].
  - destruct (handle_add_memory e ev adapter) as [[resp|x] adapter'] eqn:Hadd.
    + pose proof (handle_add_memory_status _ _ _ _ _ Hadd) as Hs.
      pose proof (handle_add_memory_index _ _ _ _ _ Hadd) as Hi.
      destruct (SemanticMoreFacts.handle_add_memory_outcome _ _ _ _ _ Hadd)
        as [->|(resp' & [= <-] & H201)]; cbn [fst snd].
      * split; [simpl; intuition congruence|]. split; [reflexivity|].
        split; [intros Hg; rewrite Hg in Hp; discriminate | exact Hi].
      * split; [simpl; intuition congruence|]. split; [intros H; contradiction|].
        split; [intros Hg; rewrite Hg in Hp; discriminate | exact Hi].
    + pose proof (handle_add_memory_index _ _ _ _ _ Hadd) as Hi.
      destruct (SemanticMoreFacts.handle_add_memory_outcome _ _ _ _ _ Hadd)
        as [->|(resp' & [=] & _)]; cbn [fst snd].
      split; [simpl; tauto|]. split; [reflexivity|].
      split; [intros Hg; rewrite Hg in Hp; discriminate | exact Hi].
  - destruct (String.eqb_spec (method_of ev "") "GET") as [Hg|Hg].
    + destruct (handle_query_memory e ev adapter) as [resp|x] eqn:Hq; cbn [fst snd].
      * apply SearchFacts.handle_query_memory_no_results in Hq. rewrite Hq.
        split; [simpl; tauto|]. split; [reflexivity|]. split; [simpl; tauto | auto].
      * split; [simpl; tauto|]. split; [reflexivity|]. split; [simpl; tauto | auto].
    + cbn [fst snd]. split; [simpl; tauto|]. split; [reflexivity|].
      split; [intros H; contradiction | auto].
Qed.

Lemma lambda_handler_unfold e url ev adapter :
  url <> "" ->
  lambda_handler e (Some url) ev adapter
  = if OpenSearch.reachable adapter
    then dispatched e ev (OpenSearch.Client true (OpenSearch.documents adapter)
                            (OpenSearch.answer adapter) true)
    else (create_error_response e 500 "Internal server error", adapter).
Proof.
  intros Hurl. unfold lambda_handler, connect, dispatched.
  destruct (String.eqb_spec url "") as [->|_]; [contradiction|].
  destruct (OpenSearch.reachable adapter); reflexivity.
Qed.

End SemanticHandlerFacts.

(** X28.  The semantic Lambda always answers with 201, 400, 405 or 500.
    A GET never succeeds: it gets 400 or 500.  The stored documents change
    only when the answer is 201.  Without [OPENSEARCH_ENDPOINT] every
    request gets 500 and nothing is touched, and so when the cluster cannot
    be reached.  With the endpoint set and the cluster reachable, the
    adapter's constructor runs for every request, whatever its method: the
    index exists afterwards, created if it was missing. *)
Theorem semantic_handler_answers
    (e : env) (endpoint : option string) (ev : Http.event) (adapter : OpenSearch.client) :
  In (Http.statusCode (fst (Semantic.lambda_handler e endpoint ev adapter)))
     [201; 400; 405; 500]
  /\ (Http.statusCode (fst (Semantic.lambda_handler e endpoint ev adapter)) <> 201 ->
      OpenSearch.documents (snd (Semantic.lambda_handler e endpoint ev adapter))
      = OpenSearch.documents adapter)
  /\ (Http.method_of ev "" = "GET" ->
      In (Http.statusCode (fst (Semantic.lambda_handler e endpoint ev adapter))) [400; 500])
  /\ (endpoint = None \/ endpoint = Some "" ->
      Semantic.lambda_handler e endpoint ev adapter
      = (Http.create_error_response e 500
           "Missing OPENSEARCH_ENDPOINT environment variable", adapter))
  /\ (OpenSearch.reachable adapter = false ->
      Http.statusCode (fst (Semantic.lambda_handler e endpoint ev adapter)) = 500
      /\ snd (Semantic.lambda_handler e endpoint ev adapter) = adapter)
  /\ (forall url, endpoint = Some url -> url <> "" ->
                  OpenSearch.reachable adapter = true ->
                  OpenSearch.index_exists
                    (snd (Semantic.lambda_handler e endpoint ev adapter)) = true).
Proof.
  destruct endpoint as [url|]; [destruct (String.eqb_spec url "") as [->|Hurl]|].
  - cbn. repeat split; auto; try tauto. intros url [= <-] H. contradiction.
  - rewrite SemanticHandlerFacts.lambda_handler_unfold by assumption.
    destruct (OpenSearch.reachable adapter) eqn:Hr.
    + destruct (SemanticHandlerFacts.dispatched_answers e ev
                  (OpenSearch.Client true (OpenSearch.documents adapter)
                     (OpenSearch.answer adapter) true)) as (H1 & H2 & H3 & H4).
      split; [exact H1|]. split; [intros H; now rewrite (H2 H)|].
      split; [exact H3|].
      split; [intros [H|[= H]]; [discriminate | contradiction]|].
      split; [discriminate|]. intros _ _ _ _. now apply H4.
    + cbn. repeat split; auto; try tauto; try discriminate.
      intros [H|[= H]]; [discriminate | contradiction].
  - cbn. repeat split; auto; try tauto. discriminate.
Qed.

Example semantic_handler_creates_the_index :
  OpenSearch.index_exists
    (snd (Semantic.lambda_handler Samples.demo_env (Some "https://search.example")
            (Http.Event (Some "GET") None None None)
            (OpenSearch.Client true ∅ (fun _ => []) false)))
  = true.
Proof. reflexivity. Qed.

(** ** [save_memory_redis] and tier authorization *)

(** X29.  [save_memory_redis] stores nothing for short-term, episodic,
    semantic and working memories, nor for an unknown type: whatever the
    data and the state of the store, the call raises, the store is left as
    it was, and no command is sent apart from the [PING] of the adapter's
    constructor (the key is read from [memory.id], a field only
    [LongTermMemoryCreate] declares). *)
Theorem save_memory_redis_stores_only_long_term
    (e : env)
    (construct : Models.model -> gmap string Py.pyval -> Py.res (gmap string Py.pyval))
    (redis_endpoint : option string) (memory_type : string)
    (data : gmap string Py.pyval) (c : Redis.client) :
  memory_type <> "long_term" ->
  exists x c',
    Save.save_memory_redis e construct redis_endpoint memory_type data c = (Py.Raise x, c')
    /\ Redis.db c' = Redis.db c
    /\ (Redis.log c' = Redis.log c \/ Redis.log c' = (Redis.log c ++ [Redis.PING])%list).
Proof.
  intros Hne. unfold Save.save_memory_redis, Save.model_of.
  unfold Redis.mbind, Redis.lift, Redis.connect, Redis.raise.
  destruct (String.eqb memory_type "short_term");
    [|destruct (String.eqb memory_type "episodic");
      [|destruct (String.eqb memory_type "semantic");
        [|destruct (String.eqb memory_type "working");
          [|destruct (String.eqb_spec memory_type "long_term");
            [contradiction|eexists _, _; split; [reflexivity|]; split; auto]]]]];
    (destruct (construct _ data) as [vs|x];
     [|eexists _, _; split; [reflexivity|]; split; auto]);
    (destruct redis_endpoint; [|eexists _, _; split; [reflexivity|]; split; auto]);
    (destruct (Redis.reachable c); eexists _, _; (split; [reflexivity|]); split; auto).
Qed.

Lemma save_memory_redis_stores_only_long_term_witness :
  exists x c',
    Save.save_memory_redis Samples.demo_env (fun _ d => Py.Ok d)
      (Some "rediss://cache:6379") "short_term"
      (<["tenant_id" := Py.PStr "tenant-a"]> (<["session_id" := Py.PStr "s1"]>
       (<["content" := Py.PStr "note"]> ∅))) Samples.fresh_redis
    = (Py.Raise x, c')
    /\ Redis.db c' = Redis.db Samples.fresh_redis
    /\ (Redis.log c' = Redis.log Samples.fresh_redis
        \/ Redis.log c' = (Redis.log Samples.fresh_redis ++ [Redis.PING])%list).
Proof.
  apply save_memory_redis_stores_only_long_term. discriminate.
Defined.

(** A long-term memory that brings its own id is stored under it for an
    hour. *)
Example save_memory_redis_long_term :
  match Save.save_memory_redis Samples.demo_env (fun _ d => Py.Ok d)
          (Some "rediss://cache:6379") "long_term"
          (<["tenant_id" := Py.PStr "tenant-a"]> (<["entity_id" := Py.PStr "user-1"]>
           (<["summary" := Py.PStr "likes tea"]> (<["id" := Py.PStr "ltm_1"]> ∅))))
          Samples.fresh_redis with
  | (Py.Ok r, c) =>
      r !! "memory_id" = Some (Py.PStr "ltm_1")
      /\ snd <$> Redis.db c !! "ltm_1" = Some (Some 3600)
  | _ => False
  end.
Proof. vm_compute. split; reflexivity. Qed.

Module TierFacts.
Import TenantAuth.

Lemma mem_In x l : mem x l = true <-> In x l.
Proof.
  unfold mem. rewrite existsb_exists. split.
  - intros (y & Hy & ->%String.eqb_eq). exact Hy.
  - intros H. exists x. split; [exact H|apply String.eqb_refl].
Qed.

Lemma authorize_in_tier context operation resource :
  authorize_operation context operation resource = true ->
  mem operation (_get_tier_permissions (subscription_tier context)) = true.
Proof.
  unfold authorize_operation.
  destruct (mem operation _); [reflexivity|discriminate].
Qed.

Lemma basic_in_premium operation :
  mem operation (_get_tier_permissions "basic") = true ->
  mem operation (_get_tier_permissions "premium") = true.
Proof.
  rewrite !mem_In. simpl. intuition.
Qed.

Lemma premium_not_in_enterprise operation :
  mem operation (_get_tier_permissions "premium") = true ->
  mem operation (_get_tier_permissions "enterprise") = false.
Proof.
  rewrite mem_In. simpl.
  intros [<-|[<-|[<-|[<-|[<-|[<-|[<-|[]]]]]]]]; reflexivity.
Qed.

End TierFacts.

(** X30.  Authorization follows the subscription tier by literal
    comparison: an authorized operation is one of the strings listed for the
    tenant's tier; everything a basic tenant may do a premium tenant with
    the same permissions may do; and an enterprise tenant, whose list holds
    only patterns such as [memory:*], is refused every operation of the
    premium list.  An unknown tier is refused everything. *)
Theorem authorization_follows_the_tier
    (tenant user tier : string) (permissions : list string)
    (operation : string) (resource : option string) :
  let context t := {| TenantAuth.tenant_id := tenant; TenantAuth.user_id := user;
                      TenantAuth.permissions := permissions;
                      TenantAuth.subscription_tier := t |} in
  (TenantAuth.authorize_operation (context tier) operation resource = true ->
   In operation (TenantAuth._get_tier_permissions tier))
  /\ (TenantAuth.authorize_operation (context "basic") operation resource = true ->
      TenantAuth.authorize_operation (context "premium") operation resource = true)
  /\ (In operation (TenantAuth._get_tier_permissions "premium") ->
      TenantAuth.authorize_operation (context "enterprise") operation resource = false)
  /\ (tier <> "basic" -> tier <> "premium" -> tier <> "enterprise" ->
      TenantAuth.authorize_operation (context tier) operation resource = false).
Proof.
  intros context. split; [|split; [|split]].
  - intros H. apply TierFacts.mem_In, (TierFacts.authorize_in_tier _ _ _ H).
  - intros H. pose proof (TierFacts.authorize_in_tier _ _ _ H) as Hb.
    apply TierFacts.basic_in_premium in Hb.
    unfold TenantAuth.authorize_operation in *. cbn [TenantAuth.subscription_tier context] in *.
    rewrite Hb.
    destruct (TenantAuth.mem operation (TenantAuth._get_tier_permissions "basic"));
      [exact H|discriminate].
  - intros H. apply TierFacts.mem_In, TierFacts.premium_not_in_enterprise in H.
    unfold TenantAuth.authorize_operation. cbn [TenantAuth.subscription_tier context].
    now rewrite H.
  - intros H1 H2 H3. unfold TenantAuth.authorize_operation, TenantAuth._get_tier_permissions.
    cbn [TenantAuth.subscription_tier context].
    apply String.eqb_neq in H1, H2, H3. now rewrite H1, H2, H3.
Qed.

(** A basic tenant may read; after an upgrade to the enterprise tier the
    same tenant may not. *)
Example enterprise_upgrade_loses_access :
  TenantAuth.authorize_operation
    {| TenantAuth.tenant_id := "acme"; TenantAuth.user_id := "u1";
       TenantAuth.permissions := []; TenantAuth.subscription_tier := "basic" |}
    "memory:read" None = true
  /\ TenantAuth.authorize_operation
       {| TenantAuth.tenant_id := "acme"; TenantAuth.user_id := "u1";
          TenantAuth.permissions := []; TenantAuth.subscription_tier := "enterprise" |}
       "memory:read" None = false.
Proof. split; reflexivity. Qed.
